(** * Wine quality notebook: data preparation, model wrapper, MLflow workflow

    A shallow embedding of [notebooks/mlflow-end-to-end-example.py].

    The notebook is a client of pandas, NumPy, scikit-learn and MLflow.  The
    parts of those libraries the notebook calls are modelled next to the
    notebook's own code, each under the name it has in the library:

    - Python exceptions are an error type, fallible code returns [result];
    - a [DataFrame] is the list of its rows, a [Series] the list of its values;
    - floating point numbers (ratios, probabilities, AUC scores) are modelled
      as rationals [Q], so rounding of binary floats is outside the model;
    - the tracking store, the model registry, the heap of estimator objects
      and the clock are fields of one [World], threaded through a small
      state-and-exception monad;
    - the pseudo-random generator behind [random_state=123] and the learning
      algorithms (random forest, XGBoost, TPE) are interfaces (type
      classes); nothing proved here depends on which instance is used. *)

From Stdlib Require Import ZArith QArith Qround Lia Lqa Ascii Sorted.
From stdpp Require Import base option list gmap strings.

Local Open Scope Z_scope.

(** ** Python results *)

Inductive PyError : Type :=
| ValueError
| IndexError
| AttributeError
| ZeroDivisionError
| NotFittedError
| MlflowException
| AllTrialsFailed
| Exception.

Inductive result (A : Type) : Type :=
| Ok (a : A)
| Raise (e : PyError).
Arguments Ok {A} a.
Arguments Raise {A} e.

Global Instance result_ret : MRet result := λ A a, Ok a.
Global Instance result_bind : MBind result := λ A B k r,
  match r with
  | Ok a => k a
  | Raise e => Raise e
  end.

(** ** The data set

    [winequality-*.csv] has eleven physicochemical columns and the integer
    column [quality].  [load_data] adds the indicator column [is_red]. *)

Record CsvRow : Type := mkCsvRow {
  csv_features : list Q;
  csv_quality : Z
}.

Record Wine : Type := mkWine {
  features : list Q;
  quality : Z;
  is_red : Z
}.

(** A row of [X = data.drop(["quality"], axis=1)]. *)
Record XRow : Type := mkXRow {
  x_features : list Q;
  x_is_red : Z
}.

Abbreviation DataFrame := (list Wine).
Abbreviation XFrame := (list XRow).
Abbreviation Series := (list Z).

(** [red_wine['is_red'] = 1] and [white_wine['is_red'] = 0]. *)
Definition with_is_red (flag : Z) (r : CsvRow) : Wine :=
  {| features := csv_features r; quality := csv_quality r; is_red := flag |}.

(** [(data.quality >= 7).astype(int)], on one value. *)
Definition high_quality (q : Z) : Z := if 7 <=? q then 1 else 0.

(** [data['quality'] = (data.quality >= 7).astype(int)] *)
Definition binarize_quality (data : DataFrame) : DataFrame :=
  map (λ w, {| features := features w;
               quality := high_quality (quality w);
               is_red := is_red w |}) data.

(** The column [data.quality]. *)
Definition quality_column (data : DataFrame) : Series := map quality data.

(** [data.drop(["quality"], axis=1)] *)
Definition drop_quality (data : DataFrame) : XFrame :=
  map (λ w, {| x_features := features w; x_is_red := is_red w |}) data.

(** ** 1. WineDataProcessor *)

Record WineDataProcessor : Type := mkProcessor {
  data : option DataFrame
}.

(** [__init__]: [self.data = None]. *)
Definition WineDataProcessor_init : WineDataProcessor := {| data := None |}.

(** [load_data], given the contents of the two CSV files: the red rows come
    first in [pd.concat([red_wine, white_wine], axis=0)].  Returns the new
    state of [self] and the returned frame. *)
Definition load_data (self : WineDataProcessor) (white_wine red_wine : list CsvRow)
  : WineDataProcessor * DataFrame :=
  let red := map (with_is_red 1) red_wine in
  let white := map (with_is_red 0) white_wine in
  let data := binarize_quality (red ++ white) in
  ({| data := Some data |}, data).

(** ** NumPy: the legacy generator behind [random_state]

    [rk_seed] is [RandomState(seed)], [rk_interval max] draws an integer in
    [[0, max]] and advances the state. *)

Class BitGenerator : Type := {
  rk_state : Type;
  rk_seed : Z → rk_state;
  rk_interval : nat → rk_state → nat * rk_state;
  rk_interval_le : ∀ max s, ((rk_interval max s).1 ≤ max)%nat
}.

(** [x[i], x[j] = x[j], x[i]] on an array; an index out of range raises. *)
Definition swap (x : list nat) (i j : nat) : result (list nat) :=
  match x !! i, x !! j with
  | Some a, Some b => Ok (<[j := a]> (<[i := b]> x))
  | _, _ => Raise IndexError
  end.

Section numpy_random.
Context `{BitGenerator}.

(** [RandomState.shuffle]:
    [for i in reversed(range(1, n)): j = rk_interval(i); swap x[i], x[j]]. *)
Fixpoint shuffle_from (i : nat) (x : list nat) (s : rk_state)
  : result (list nat) * rk_state :=
  match i with
  | O => (Ok x, s)
  | S i' =>
      let '(j, s') := rk_interval i s in
      match swap x i j with
      | Ok x' => shuffle_from i' x' s'
      | Raise e => (Raise e, s')
      end
  end.

Definition shuffle (x : list nat) (s : rk_state) : result (list nat) * rk_state :=
  shuffle_from (length x - 1) x s.

(** [RandomState.permutation(n)]: [arr = np.arange(n); shuffle(arr)]. *)
Definition permutation (n : nat) (s : rk_state) : result (list nat) * rk_state :=
  shuffle (seq 0 n) s.
End numpy_random.

(** ** scikit-learn: [train_test_split]

    The sizes the notebook passes are floats or [None]; the integer form of
    [test_size] and [train_size] (a row count) is not used by the notebook
    and is left out.  A float is taken as the rational it stands for and
    the arithmetic on sizes is exact: the rounding of each double operation,
    which can move a product across an integer and with it a part by one
    row, is not modelled.  What is proved below about the sizes of the parts
    is therefore stated either on a returned split or with a margin that
    covers that rounding. *)

Definition size_out_of_range (size : option Q) : bool :=
  match size with
  | Some f => Qle_bool f 0 || Qle_bool 1 f
  | None => false
  end.

(** [_validate_shuffle_split(n_samples, test_size, train_size,
    default_test_size=0.25)]: the numbers of train and test rows. *)
Definition validate_shuffle_split (n_samples : nat) (test_size train_size : option Q)
  : result (nat * nat) :=
  let test_size :=
    match test_size, train_size with
    | None, None => Some (1 # 4)%Q
    | _, _ => test_size
    end in
  if size_out_of_range test_size || size_out_of_range train_size then Raise ValueError
  else if match test_size, train_size with
          | Some te, Some tr => negb (Qle_bool (tr + te) 1)
          | _, _ => false
          end then Raise ValueError
  else
    let n := Z.of_nat n_samples in
    let n_test0 := match test_size with Some te => Qceiling (te * inject_Z n) | None => 0 end in
    let n_train0 := match train_size with Some tr => Qfloor (tr * inject_Z n) | None => 0 end in
    let n_train := match train_size with None => n - n_test0 | Some _ => n_train0 end in
    let n_test := match test_size with None => n - n_train | Some _ => n_test0 end in
    if n <? n_train + n_test then Raise ValueError
    else if n_train =? 0 then Raise ValueError
    else Ok (Z.to_nat n_train, Z.to_nat n_test).

(** [a[indices]] (positional indexing, [_safe_indexing]). *)
Fixpoint take_rows {A} (a : list A) (indices : list nat) : result (list A) :=
  match indices with
  | [] => Ok []
  | i :: rest =>
      match a !! i with
      | Some r => rs ← take_rows a rest; Ok (r :: rs)
      | None => Raise IndexError
      end
  end.

Section model_selection.
Context `{BitGenerator}.

(** [check_random_state(seed)]: [None] is NumPy's global generator, an
    integer seeds a generator of its own. *)
Definition check_random_state (random_state : option Z) (global : rk_state) : rk_state :=
  match random_state with
  | None => global
  | Some seed => rk_seed seed
  end.

(** What the call leaves in NumPy's global generator. *)
Definition release_random_state (random_state : option Z) (global used : rk_state)
  : rk_state :=
  match random_state with
  | None => used
  | Some _ => global
  end.

(** [ShuffleSplit._iter_indices]: the test rows are the first [n_test]
    entries of the permutation, the train rows the next [n_train]. *)
Definition shuffle_split_indices (n_samples n_train n_test : nat) (rng : rk_state)
  : result (list nat * list nat) * rk_state :=
  match permutation n_samples rng with
  | (Ok perm, rng') =>
      (Ok (take n_train (drop n_test perm), take n_test perm), rng')
  | (Raise e, rng') => (Raise e, rng')
  end.

(** [train_test_split(X, y, test_size=.., train_size=.., random_state=..)]
    with the defaults [shuffle=True, stratify=None]; returns
    [(X_train, X_test, y_train, y_test)]. *)
Definition train_test_split {A B} (X : list A) (y : list B)
    (test_size train_size : option Q) (random_state : option Z) (global : rk_state)
  : result (list A * list A * list B * list B) * rk_state :=
  if negb (length X =? length y)%nat then (Raise ValueError, global)
  else
    match validate_shuffle_split (length X) test_size train_size with
    | Raise e => (Raise e, global)
    | Ok (n_train, n_test) =>
        let rng := check_random_state random_state global in
        let '(r, rng') := shuffle_split_indices (length X) n_train n_test rng in
        ('(train, test) ← r;
         X_train ← take_rows X train;
         X_test ← take_rows X test;
         y_train ← take_rows y train;
         y_test ← take_rows y test;
         Ok (X_train, X_test, y_train, y_test),
         release_random_state random_state global rng')
    end.

(** [WineDataProcessor.split_data(self, test_size=0.2, val_size=0.2)];
    returns [(X_train, X_val, X_test, y_train, y_val, y_test)]. *)
Definition split_data (self : WineDataProcessor) (test_size val_size : Q)
    (global : rk_state)
  : result (XFrame * XFrame * XFrame * Series * Series * Series) * rk_state :=
  match data self with
  | None => (Raise AttributeError, global)
  | Some data =>
      let X := drop_quality data in
      let y := quality_column data in
      match train_test_split X y None (Some (1 - test_size - val_size)%Q)
                             (Some 123) global with
      | (Raise e, global) => (Raise e, global)
      | (Ok (X_train, X_rem, y_train, y_rem), global) =>
          if Qeq_bool (test_size + val_size) 0 then (Raise ZeroDivisionError, global)
          else
            match train_test_split X_rem y_rem
                    (Some (val_size / (test_size + val_size))%Q) None
                    (Some 123) global with
            | (Raise e, global) => (Raise e, global)
            | (Ok (X_val, X_test, y_val, y_test), global) =>
                (Ok (X_train, X_val, X_test, y_train, y_val, y_test), global)
            end
      end
  end.
End model_selection.

(** ** scikit-learn: estimators and [roc_auc_score] *)

(** What [fit] leaves in an estimator: the sorted class labels and, for a
    row, the probability of the class at each index of [classes_]. *)
Record Fitted : Type := mkFitted {
  classes_ : list Z;
  row_proba : XRow → nat → Q
}.

(** An estimator object: the hyper-parameter the notebook reads back, the
    learning algorithm behind [fit], and the fitted state ([None] until [fit]
    has run). *)
Record Estimator : Type := mkEstimator {
  n_estimators : option Z;
  learn : XFrame → Series → result Fitted;
  fitted : option Fitted
}.

(** [est.fit(X, y)], in place. *)
Definition fit (est : Estimator) (X : XFrame) (y : Series) : result Estimator :=
  f ← learn est X y;
  Ok {| n_estimators := n_estimators est; learn := learn est; fitted := Some f |}.

(** A two-dimensional array with its shape. *)
Record ndarray : Type := mkNdarray {
  nrows : nat;
  ncols : nat;
  cells : list (list Q)
}.

(** [est.predict_proba(X)]: [check_is_fitted] first, then one row of class
    probabilities per input row.  (The validation of the input array, which
    comes after [check_is_fitted] and refuses a batch without rows, is left
    out.) *)
Definition predict_proba (est : Estimator) (X : XFrame) : result ndarray :=
  match fitted est with
  | None => Raise NotFittedError
  | Some f =>
      let k := length (classes_ f) in
      Ok {| nrows := length X; ncols := k;
            cells := map (λ r, map (row_proba f r) (seq 0 k)) X |}
  end.

(** [a[:, j]] *)
Fixpoint column_cells (rows : list (list Q)) (j : nat) : result (list Q) :=
  match rows with
  | [] => Ok []
  | r :: rest =>
      match r !! j with
      | Some v => vs ← column_cells rest j; Ok (v :: vs)
      | None => Raise IndexError
      end
  end.

Definition column (a : ndarray) (j : nat) : result (list Q) :=
  if (j <? ncols a)%nat then column_cells (cells a) j else Raise IndexError.

(** [np.unique]: the sorted distinct values. *)
Fixpoint unique_insert (z : Z) (l : list Z) : list Z :=
  match l with
  | [] => [z]
  | x :: l' =>
      if z <? x then z :: l
      else if z =? x then l
      else x :: unique_insert z l'
  end.

Definition unique (l : list Z) : list Z := foldr unique_insert [] l.

(** One (positive, negative) pair of scores: 1 when ranked correctly, 1/2 on
    a tie. *)
Definition pair_score (pos neg : Q) : Q :=
  match (pos ?= neg)%Q with
  | Gt => 1
  | Eq => 1 # 2
  | Lt => 0
  end.

Definition Qsum (l : list Q) : Q := foldr Qplus 0%Q l.

(** [roc_auc_score(y_true, y_score)] for binary labels, as the share of
    correctly ranked (positive, negative) pairs; it raises unless exactly two
    classes are present. *)
Definition roc_auc_score (y_true : Series) (y_score : list Q) : result Q :=
  if negb (length y_true =? length y_score)%nat then Raise ValueError
  else
    match unique y_true with
    | [_; pos_label] =>
        let scored := zip y_true y_score in
        let pos := (filter (λ p, p.1 = pos_label) scored).*2 in
        let neg := (filter (λ p, p.1 ≠ pos_label) scored).*2 in
        let ranked := Qsum (p ← pos; n ← neg; [pair_score p n]) in
        Ok (ranked / inject_Z (Z.of_nat (length pos * length neg)))%Q
    | _ => Raise ValueError
    end.

(** The random forest learner, an interface:
    [forest_fit n_estimators random_state X y]. *)
Class ForestLearner : Type := {
  forest_fit : Z → Z → XFrame → Series → result Fitted
}.

(** [RandomForestClassifier(n_estimators=.., random_state=..)] *)
Definition RandomForestClassifier `{ForestLearner} (n seed : Z) : Estimator :=
  {| n_estimators := Some n; learn := forest_fit n seed; fitted := None |}.

(** ** MLflow: the tracking store and the model registry *)

Inductive RunStatus : Type := RUNNING | FINISHED | FAILED.

(** A logged model: the artifact path in the run and the pickled estimator. *)
Record Artifact : Type := mkArtifact {
  artifact_path : string;
  pickled : option Estimator
}.

(** A run.  [run_name] is the name the caller gave; a run started without
    one gets a generated name, which no filter of the notebook matches. *)
Record Run : Type := mkRun {
  run_id : string;
  run_name : option string;
  parent_run_id : option string;
  start_time : Z;
  status : RunStatus;
  params : gmap string Z;
  metrics : gmap string Q;
  artifacts : list Artifact
}.

(** The model URI [f"runs:/{run_id}/{path}"]: an artifact path in a run. *)
Record ModelUri : Type := runs_uri {
  uri_run_id : string;
  uri_path : string
}.

Record ModelVersion : Type := mkModelVersion {
  mv_name : string;
  version : nat;
  source : ModelUri;
  current_stage : string
}.

Record RegisteredModel : Type := mkRegisteredModel {
  versions : list ModelVersion;
  aliases : gmap string nat
}.

(** Calls that reach the registry or the clock, in the order they were made. *)
Inductive Call : Type :=
| CreateModelVersion (name : string) (v : nat)
| SetRegisteredModelAlias (name alias : string) (v : nat)
| TransitionModelVersionStage (name : string) (v : nat) (stage : string)
| Sleep (seconds : Z).

(** Everything outside the notebook's local variables: the estimator objects
    on the heap, the runs of the active experiment (newest first), the stack
    of active runs, the registry, the client's clock (milliseconds), the run
    ids the tracking server hands out next, and the journal of calls. *)
Record World : Type := mkWorld {
  heap : gmap nat Estimator;
  tracking : list Run;
  active_run_stack : list string;
  registry : gmap string RegisteredModel;
  clock : Z;
  uuid4 : nat → string;
  uuid_next : nat;
  journal : list Call
}.

Definition set_heap (h : gmap nat Estimator) (w : World) : World :=
  {| heap := h; tracking := tracking w; active_run_stack := active_run_stack w;
     registry := registry w; clock := clock w; uuid4 := uuid4 w;
     uuid_next := uuid_next w; journal := journal w |}.

Definition set_tracking (t : list Run) (w : World) : World :=
  {| heap := heap w; tracking := t; active_run_stack := active_run_stack w;
     registry := registry w; clock := clock w; uuid4 := uuid4 w;
     uuid_next := uuid_next w; journal := journal w |}.

Definition set_active_run_stack (st : list string) (w : World) : World :=
  {| heap := heap w; tracking := tracking w; active_run_stack := st;
     registry := registry w; clock := clock w; uuid4 := uuid4 w;
     uuid_next := uuid_next w; journal := journal w |}.

Definition set_registry (r : gmap string RegisteredModel) (w : World) : World :=
  {| heap := heap w; tracking := tracking w; active_run_stack := active_run_stack w;
     registry := r; clock := clock w; uuid4 := uuid4 w;
     uuid_next := uuid_next w; journal := journal w |}.

Definition set_clock (c : Z) (w : World) : World :=
  {| heap := heap w; tracking := tracking w; active_run_stack := active_run_stack w;
     registry := registry w; clock := c; uuid4 := uuid4 w;
     uuid_next := uuid_next w; journal := journal w |}.

Definition set_uuid_next (n : nat) (w : World) : World :=
  {| heap := heap w; tracking := tracking w; active_run_stack := active_run_stack w;
     registry := registry w; clock := clock w; uuid4 := uuid4 w;
     uuid_next := n; journal := journal w |}.

Definition record_call (c : Call) (w : World) : World :=
  {| heap := heap w; tracking := tracking w; active_run_stack := active_run_stack w;
     registry := registry w; clock := clock w; uuid4 := uuid4 w;
     uuid_next := uuid_next w; journal := journal w ++ [c] |}.

(** The monad of notebook code: a result, or a raised exception, and the
    world as the code left it. *)
Definition Py (A : Type) : Type := World → result A * World.

Global Instance Py_ret : MRet Py := λ A a w, (Ok a, w).
Global Instance Py_bind : MBind Py := λ A B k m w,
  match m w with
  | (Ok a, w') => k a w'
  | (Raise e, w') => (Raise e, w')
  end.

Definition raise {A} (e : PyError) : Py A := λ w, (Raise e, w).
Definition lift {A} (r : result A) : Py A := λ w, (r, w).
Definition modify_world (f : World → World) : Py unit := λ w, (Ok tt, f w).

(** *** Tracking *)

(** Apply [f] to the newest run with the given id. *)
Fixpoint update_run (rid : string) (f : Run → Run) (runs : list Run) : list Run :=
  match runs with
  | [] => []
  | r :: rest =>
      if decide (run_id r = rid) then f r :: rest else r :: update_run rid f rest
  end.

Definition set_status (s : RunStatus) (r : Run) : Run :=
  {| run_id := run_id r; run_name := run_name r; parent_run_id := parent_run_id r;
     start_time := start_time r; status := s; params := params r;
     metrics := metrics r; artifacts := artifacts r |}.

Definition add_param (k : string) (v : Z) (r : Run) : Run :=
  {| run_id := run_id r; run_name := run_name r; parent_run_id := parent_run_id r;
     start_time := start_time r; status := status r; params := <[k := v]> (params r);
     metrics := metrics r; artifacts := artifacts r |}.

Definition add_metric (k : string) (v : Q) (r : Run) : Run :=
  {| run_id := run_id r; run_name := run_name r; parent_run_id := parent_run_id r;
     start_time := start_time r; status := status r; params := params r;
     metrics := <[k := v]> (metrics r); artifacts := artifacts r |}.

Definition add_artifact (a : Artifact) (r : Run) : Run :=
  {| run_id := run_id r; run_name := run_name r; parent_run_id := parent_run_id r;
     start_time := start_time r; status := status r; params := params r;
     metrics := metrics r; artifacts := artifacts r ++ [a] |}.

(** [mlflow.start_run(run_name=.., nested=..)]: refuses to start a second
    run unless nested, with a plain [Exception]; the new run gets a fresh
    id, the client's time as start time, and the active run as parent. *)
Definition start_run (name : option string) (nested : bool) : Py string := λ w,
  match active_run_stack w, nested with
  | _ :: _, false => (Raise Exception, w)
  | stack, _ =>
      let rid := uuid4 w (uuid_next w) in
      let run := {| run_id := rid; run_name := name; parent_run_id := head stack;
                    start_time := clock w; status := RUNNING;
                    params := ∅; metrics := ∅; artifacts := [] |} in
      (Ok rid,
       set_active_run_stack (rid :: stack)
         (set_tracking (run :: tracking w) (set_uuid_next (S (uuid_next w)) w)))
  end.

(** [mlflow.end_run(status)]: close the active run. *)
Definition end_run (s : RunStatus) : Py unit := λ w,
  match active_run_stack w with
  | [] => (Ok tt, w)
  | rid :: stack =>
      (Ok tt, set_active_run_stack stack
                (set_tracking (update_run rid (set_status s) (tracking w)) w))
  end.

(** [with mlflow.start_run(...): body]: the run is closed on every exit,
    [FINISHED] on a normal one and [FAILED] when the body raises. *)
Definition with_run {A} (name : option string) (nested : bool) (body : Py A) : Py A := λ w,
  match start_run name nested w with
  | (Raise e, w1) => (Raise e, w1)
  | (Ok _, w1) =>
      match body w1 with
      | (Ok a, w2) => (Ok a, (end_run FINISHED w2).2)
      | (Raise e, w2) => (Raise e, (end_run FAILED w2).2)
      end
  end.

(** The run the fluent API logs to: the active one, started on demand. *)
Definition active_run : Py string := λ w,
  match active_run_stack w with
  | rid :: _ => (Ok rid, w)
  | [] => start_run None false w
  end.

Definition log_to_run (f : Run → Run) : Py unit :=
  rid ← active_run;
  modify_world (λ w, set_tracking (update_run rid f (tracking w)) w).

(** [mlflow.log_param], [mlflow.log_metric], [mlflow.*.log_model] *)
Definition log_param (k : string) (v : Z) : Py unit := log_to_run (add_param k v).
Definition log_metric (k : string) (v : Q) : Py unit := log_to_run (add_metric k v).
Definition log_artifact (a : Artifact) : Py unit := log_to_run (add_artifact a).

(** The order of [search_runs]: the [order_by] metric first when one is
    given (descending, runs without the metric last), then the default
    [start_time DESC, run_id]. *)
Definition default_order (a b : Run) : bool :=
  if start_time b <? start_time a then true
  else if start_time a <? start_time b then false
  else String.leb (run_id a) (run_id b).

Definition metric_desc_order (key : string) (a b : Run) : bool :=
  match metrics a !! key, metrics b !! key with
  | Some x, Some y =>
      match (x ?= y)%Q with
      | Gt => true
      | Lt => false
      | Eq => default_order a b
      end
  | Some _, None => true
  | None, Some _ => false
  | None, None => default_order a b
  end.

Fixpoint insert_by {A} (before : A → A → bool) (x : A) (l : list A) : list A :=
  match l with
  | [] => [x]
  | y :: l' => if before x y then x :: l else y :: insert_by before x l'
  end.

Definition sort_by {A} (before : A → A → bool) (l : list A) : list A :=
  foldr (insert_by before) [] l.

(** [mlflow.search_runs(filter_string='tags.mlflow.runName = "<name>"',
    order_by=['metrics.<key> DESC'])] over the active experiment; both
    arguments are optional. *)
Definition search_runs (filter_run_name : option string) (order_by_desc : option string)
  : Py (list Run) := λ w,
  let matching :=
    match filter_run_name with
    | None => tracking w
    | Some name => filter (λ r, run_name r = Some name) (tracking w)
    end in
  let order :=
    match order_by_desc with
    | None => default_order
    | Some key => metric_desc_order key
    end in
  (Ok (sort_by order matching), w).

(** [df.iloc[0]] *)
Definition iloc0 {A} (rows : list A) : result A :=
  match rows with
  | r :: _ => Ok r
  | [] => Raise IndexError
  end.

(** *** Registry *)

Definition has_run (rid : string) (w : World) : bool :=
  bool_decide (rid ∈ run_id <$> tracking w).

(** [mlflow.register_model(model_uri, name)]: creates the registered model
    when it is new, resolves the run of the URI, and adds the next version,
    in stage [None].  (Whether the run holds an artifact at the path of the
    URI is not looked at.) *)
Definition mlflow_register_model (model_uri : ModelUri) (name : string)
  : Py ModelVersion := λ w,
  let rm := default {| versions := []; aliases := ∅ |} (registry w !! name) in
  if negb (has_run (uri_run_id model_uri) w) then
    (Raise MlflowException, set_registry (<[name := rm]> (registry w)) w)
  else
    let mv := {| mv_name := name; version := S (length (versions rm));
                 source := model_uri; current_stage := "None" |} in
    let rm' := {| versions := versions rm ++ [mv]; aliases := aliases rm |} in
    (Ok mv, record_call (CreateModelVersion name (version mv))
              (set_registry (<[name := rm']> (registry w)) w)).

(** [MlflowClient().set_registered_model_alias(name, alias, version)] *)
Definition set_registered_model_alias (name alias : string) (v : nat) : Py unit := λ w,
  match registry w !! name with
  | None => (Raise MlflowException, w)
  | Some rm =>
      if bool_decide (v ∈ version <$> versions rm) then
        let rm' := {| versions := versions rm; aliases := <[alias := v]> (aliases rm) |} in
        (Ok tt, record_call (SetRegisteredModelAlias name alias v)
                  (set_registry (<[name := rm']> (registry w)) w))
      else (Raise MlflowException, w)
  end.

Definition set_stage (stage : string) (mv : ModelVersion) : ModelVersion :=
  {| mv_name := mv_name mv; version := version mv; source := source mv;
     current_stage := stage |}.

(** [MlflowClient().transition_model_version_stage(name, version, stage)] *)
Definition transition_model_version_stage (name : string) (v : nat) (stage : string)
  : Py unit := λ w,
  match registry w !! name with
  | None => (Raise MlflowException, w)
  | Some rm =>
      if bool_decide (v ∈ version <$> versions rm) then
        let vs := map (λ mv, if decide (version mv = v) then set_stage stage mv else mv)
                      (versions rm) in
        let rm' := {| versions := vs; aliases := aliases rm |} in
        (Ok tt, record_call (TransitionModelVersionStage name v stage)
                  (set_registry (<[name := rm']> (registry w)) w))
      else (Raise MlflowException, w)
  end.

(** [time.sleep(seconds)] *)
Definition sleep (seconds : Z) : Py unit :=
  modify_world (λ w, record_call (Sleep seconds) (set_clock (clock w + 1000 * seconds) w)).

(** The version an alias of a registered model points to. *)
Definition alias_of (name alias : string) (w : World) : option nat :=
  rm ← registry w !! name; aliases rm !! alias.

(** ** Objects on the heap *)

(** Follow a reference to an estimator object. *)
Definition deref (l : nat) : Py Estimator := λ w,
  match heap w !! l with
  | Some est => (Ok est, w)
  | None => (Raise AttributeError, w)
  end.

Definition assign (l : nat) (est : Estimator) : Py unit :=
  modify_world (λ w, set_heap (<[l := est]> (heap w)) w).

(** [obj.n_estimators] *)
Definition get_n_estimators (est : Estimator) : result Z :=
  match n_estimators est with
  | Some n => Ok n
  | None => Raise AttributeError
  end.

(** ** 2. SklearnModelWrapper *)

Record SklearnModelWrapper : Type := mkWrapper {
  wrapped_model : nat
}.

(** [predict(self, context, model_input)]:
    [return self.model.predict_proba(model_input)[:,1]] *)
Definition predict (self : SklearnModelWrapper) (context : unit) (model_input : XFrame)
  : Py (list Q) :=
  est ← deref (wrapped_model self);
  proba ← lift (predict_proba est model_input);
  lift (column proba 1).

(** ** 3. WineQualityModel *)

Record WineQualityModel : Type := mkModel {
  model : nat
}.

(** The default argument [RandomForestClassifier(n_estimators=10,
    random_state=123)] of [__init__] is built once, when the class
    statement runs; [default_model] is where that object lives. *)
Definition default_model : nat := 0%nat.

(** [__init__(self, model=<default>)] *)
Definition WineQualityModel_init (model : option nat) : WineQualityModel :=
  {| model := default default_model model |}.

(** [train]: [self.model.fit(X_train, y_train)] *)
Definition train (self : WineQualityModel) (X_train : XFrame) (y_train : Series) : Py unit :=
  est ← deref (model self);
  est' ← lift (fit est X_train y_train);
  assign (model self) est'.

(** [evaluate]: the ROC AUC of the positive-class probabilities. *)
Definition evaluate (self : WineQualityModel) (X_test : XFrame) (y_test : Series) : Py Q :=
  est ← deref (model self);
  proba ← lift (predict_proba est X_test);
  predictions ← lift (column proba 1);
  auc_score ← lift (roc_auc_score y_test predictions);
  mret auc_score.

(** [log_model]: wraps the estimator, calls the wrapper on [X_train] for the
    signature, and logs the pickled estimator as [random_forest_model]. *)
Definition log_model (self : WineQualityModel) (X_train : XFrame) : Py unit :=
  let wrappedModel := {| wrapped_model := model self |} in
  _ ← predict wrappedModel tt X_train;
  est ← deref (model self);
  log_artifact {| artifact_path := "random_forest_model"; pickled := Some est |}.

(** ** 4. MLflowExperiment *)

Record MLflowExperiment : Type := mkExperiment {
  model_name : string
}.

(** [__init__(self, model_name="wine_quality")] *)
Definition MLflowExperiment_init (model_name : option string) : MLflowExperiment :=
  {| model_name := default "wine_quality" model_name |}.

(** The body of the [with] block of [run_experiment] up to the logging of
    the model (lines 127 to 132). *)
Definition train_and_log (wine_model : WineQualityModel)
    (X_train X_test : XFrame) (y_train y_test : Series) : Py unit :=
  train wine_model X_train y_train;;
  auc_score ← evaluate wine_model X_test y_test;
  est ← deref (model wine_model);
  n ← lift (get_n_estimators est);
  log_param "n_estimators" n;;
  log_metric "auc" auc_score;;
  log_model wine_model X_train.

(** [run_experiment] *)
Definition run_experiment (self : MLflowExperiment) (wine_model : WineQualityModel)
    (X_train X_test : XFrame) (y_train y_test : Series) : Py string :=
  with_run (Some "untuned_random_forest") false
    (train_and_log wine_model X_train X_test y_train y_test;;
     runs ← search_runs (Some "untuned_random_forest") None;
     first ← lift (iloc0 runs);
     mret (run_id first)).

(** [register_model] *)
Definition register_model (self : MLflowExperiment) (run_id : string) : Py ModelVersion :=
  model_version ← mlflow_register_model (runs_uri run_id "random_forest_model")
                     (model_name self);
  set_registered_model_alias (model_name self) "production" (version model_version);;
  sleep 15;;
  mret model_version.

(** ** The hyper-parameter sweep *)

Record SearchPoint : Type := mkSearchPoint {
  max_depth : Z;
  learning_rate : Q;
  reg_alpha : Q;
  reg_lambda : Q;
  min_child_weight : Q
}.

(** XGBoost, an interface: [xgb.train] with early stopping against the
    validation set, and [booster.predict]. *)
Class XGBoost : Type := {
  Booster : Type;
  xgb_train : SearchPoint → XFrame * Series → XFrame * Series → Booster;
  booster_predict : Booster → XFrame → list Q
}.

Record TrialResult : Type := mkTrialResult {
  trial_status : string;
  loss : Q
}.

Definition STATUS_OK : string := "ok".

(** [train_model(params)], the objective handed to [fmin]; the data sets are
    the notebook's globals. *)
Definition train_model `{XGBoost} (X_train : XFrame) (y_train : Series)
    (X_val : XFrame) (y_val : Series) (params : SearchPoint) : Py TrialResult :=
  with_run None true
    (let booster := xgb_train params (X_train, y_train) (X_val, y_val) in
     let validation_predictions := booster_predict booster X_val in
     auc_score ← lift (roc_auc_score y_val validation_predictions);
     log_metric "auc" auc_score;;
     log_artifact {| artifact_path := "model"; pickled := None |};;
     mret {| trial_status := STATUS_OK; loss := (-1 * auc_score)%Q |}).

(** A trial of the sweep: the point tried and what the objective returned. *)
Abbreviation Trial := (SearchPoint * result TrialResult)%type.

(** The search algorithm [tpe.suggest], an interface: the next point, from
    the trials so far. *)
Class Suggest : Type := {
  tpe_suggest : list Trial → SearchPoint
}.

(** An exception of a trial is recorded with the trial, as [SparkTrials]
    does, and goes no further. *)
Definition catch {A} (m : Py A) : Py (result A) := λ w,
  let '(r, w') := m w in (Ok r, w').

(** The driver loop of [fmin]: suggest a point, run the objective, record
    the trial, [max_evals] times.  ([SparkTrials(parallelism=10)] runs
    trials concurrently; the loop runs them one after the other.) *)
Fixpoint fmin_loop `{Suggest} (fn : SearchPoint → Py TrialResult) (max_evals : nat)
    (trials : list Trial) : Py (list Trial) :=
  match max_evals with
  | O => mret trials
  | S evals_left =>
      let point := tpe_suggest trials in
      r ← catch (fn point);
      fmin_loop fn evals_left (trials ++ [(point, r)])
  end.

(** The first trial with the lowest loss among those that completed. *)
Fixpoint best_trial (trials : list Trial) : option (SearchPoint * Q) :=
  match trials with
  | [] => None
  | (point, r) :: rest =>
      match r, best_trial rest with
      | Ok res, Some (point', loss') =>
          if Qle_bool (loss res) loss' then Some (point, loss res)
          else Some (point', loss')
      | Ok res, None => Some (point, loss res)
      | Raise _, best => best
      end
  end.

(** [fmin(fn=.., space=search_space, algo=tpe.suggest, max_evals=..,
    trials=spark_trials)]: returns the best point, and with it the trials
    that [spark_trials] holds afterwards. *)
Definition fmin `{Suggest} (fn : SearchPoint → Py TrialResult) (max_evals : nat)
  : Py (SearchPoint * list Trial) :=
  trials ← fmin_loop fn max_evals [];
  match best_trial trials with
  | Some (point, _) => mret (point, trials)
  | None => raise AllTrialsFailed
  end.

(** [with mlflow.start_run(run_name='xgboost_models'):
       best_params = fmin(fn=train_model, ..., max_evals=96, ...)] *)
Definition sweep `{XGBoost, Suggest} (X_train : XFrame) (y_train : Series)
    (X_val : XFrame) (y_val : Series) : Py (SearchPoint * list Trial) :=
  with_run (Some "xgboost_models") false
    (fmin (train_model X_train y_train X_val y_val) 96).

(** The loss of the trial behind a run: [-1*auc_score] of the [auc] it logged. *)
Definition logged_loss (r : Run) : option Q :=
  (λ auc, (-1 * auc)%Q) <$> metrics r !! "auc".

(** [best_run = mlflow.search_runs(order_by=['metrics.auc DESC']).iloc[0]] *)
Definition best_run : Py Run :=
  runs ← search_runs None (Some "auc");
  lift (iloc0 runs).

(** ** Vocabulary of the split properties *)

(** The rows of [a] at the positions [indices]. *)
Definition iloc {A} (a : list A) (indices : list nat) : list A :=
  omap (a !!.) indices.

(** The sizes the ratios stand for, on [n] rows: the train share rounded
    down, the remainder, and the share [val_size / (test_size + val_size)]
    of the remainder rounded up. *)
Definition train_share (n : nat) (test_size val_size : Q) : Z :=
  Qfloor ((1 - test_size - val_size) * inject_Z (Z.of_nat n)).

Definition remainder (n : nat) (test_size val_size : Q) : Z :=
  Z.of_nat n - train_share n test_size val_size.

Definition second_share (n : nat) (test_size val_size : Q) : Z :=
  Qceiling (val_size / (test_size + val_size)
            * inject_Z (remainder n test_size val_size)).

(** [r] has the metric at least as high as [t] has it (a run without the
    metric is below every run). *)
Definition metric_ge (key : string) (r t : Run) : Prop :=
  match metrics t !! key with
  | Some a => ∃ b, metrics r !! key = Some b ∧ (a <= b)%Q
  | None => True
  end.

(** Every completed trial has a run in the store that logged its loss. *)
Definition trials_logged (trials : list Trial) (runs : list Run) : Prop :=
  ∀ point res, (point, Ok res) ∈ trials →
    ∃ r, r ∈ runs ∧ logged_loss r = Some (loss res).

(** ** Proof steps *)

Ltac world_simpl :=
  cbn [heap tracking active_run_stack registry clock uuid4 uuid_next journal
       set_heap set_tracking set_active_run_stack set_registry set_clock
       set_uuid_next record_call fst snd] in *.

Ltac py_unfold :=
  unfold mbind, mret, Py_bind, Py_ret, lift, raise, modify_world in *.

(** ** Instances and data to run the model on *)

(** A small linear congruential generator, to run the model on examples. *)
Definition lcg_next (s : Z) : Z := (1103515245 * s + 12345) mod 2147483648.

Definition lcg_interval (max : nat) (s : Z) : nat * Z :=
  let s' := lcg_next s in (Z.to_nat (s' mod (Z.of_nat max + 1)), s').

Lemma lcg_interval_le max s : ((lcg_interval max s).1 ≤ max)%nat.
Proof.
  unfold lcg_interval; cbn [fst].
  pose proof (Z.mod_pos_bound (lcg_next s) (Z.of_nat max + 1)). lia.
Qed.

Definition lcg : BitGenerator :=
  {| rk_state := Z; rk_seed := λ seed, seed;
     rk_interval := lcg_interval; rk_interval_le := lcg_interval_le |}.

(** [sklearn.dummy.DummyClassifier(strategy="prior")]: every row gets the
    class frequencies of the training labels.  It has no [n_estimators]. *)
Definition prior_learn (X : XFrame) (y : Series) : result Fitted :=
  if negb (length X =? length y)%nat then Raise ValueError
  else
    let cs := unique y in
    Ok {| classes_ := cs;
          row_proba := λ _ k,
            match cs !! k with
            | Some c => (inject_Z (Z.of_nat (length (filter (λ v, v = c) y)))
                         / inject_Z (Z.of_nat (length y)))%Q
            | None => 0%Q
            end |}.

Definition DummyClassifier : Estimator :=
  {| n_estimators := None; learn := prior_learn; fitted := None |}.

(** Stand-ins for the learners: a forest that predicts the class
    frequencies, a booster that scores a row by its first feature (negated
    when [max_depth] is odd), a search that walks up [max_depth]. *)
Definition prior_forest : ForestLearner := {| forest_fit := λ _ _, prior_learn |}.

Definition first_feature_booster : XGBoost :=
  {| Booster := SearchPoint;
     xgb_train := λ params _ _, params;
     booster_predict := λ booster X,
       map (λ r, let score := default 0%Q (head (x_features r)) in
                 if Z.even (max_depth booster) then score else (- score)%Q) X |}.

Definition depth_walk : Suggest :=
  {| tpe_suggest := λ trials,
       {| max_depth := 4 + Z.of_nat (length trials); learning_rate := 1 # 10;
          reg_alpha := 1 # 100; reg_lambda := 1 # 100; min_child_weight := 1 |} |}.

(** A wine with one feature, equal to its quality score. *)
Definition wine (q : Z) : Wine :=
  {| features := [inject_Z q]; quality := q; is_red := 0 |}.

(** [n] wines of qualities [0 .. n-1], and a processor that has loaded them. *)
Definition wine_rows (n : nat) : DataFrame := map (λ i, wine (Z.of_nat i)) (seq 0 n).

Definition wines (n : nat) : WineDataProcessor := {| data := Some (wine_rows n) |}.

Fixpoint example_uuid4 (n : nat) : string :=
  match n with
  | O => "run"
  | S k => String.append "x" (example_uuid4 k)
  end.

(** The world once the notebook's class statements have run, at time [now],
    with the runs [runs] already in the tracking store. *)
Definition notebook_loaded `{ForestLearner} (now : Z) (runs : list Run) : World :=
  {| heap := {[ default_model := RandomForestClassifier 10 123 ]};
     tracking := runs; active_run_stack := []; registry := ∅;
     clock := now; uuid4 := example_uuid4; uuid_next := 0; journal := [] |}.

(** A finished run with at most an [auc] metric. *)
Definition example_run (rid : string) (name : option string) (started : Z)
    (auc : option Q) : Run :=
  {| run_id := rid; run_name := name; parent_run_id := None; start_time := started;
     status := FINISHED; params := ∅;
     metrics := match auc with Some a => {[ "auc" := a ]} | None => ∅ end;
     artifacts := [] |}.

(** A world with no objects, no runs and no registered models. *)
Definition idle_world : World :=
  {| heap := ∅; tracking := []; active_run_stack := []; registry := ∅;
     clock := 0; uuid4 := example_uuid4; uuid_next := 0; journal := [] |}.

(** An estimator fitted on labels that are 0 once and 1 twice. *)
Definition example_fitted : Fitted :=
  {| classes_ := [0; 1];
     row_proba := λ _ k, if k is O then (1 # 3)%Q else (2 # 3)%Q |}.

Definition example_estimator : Estimator :=
  {| n_estimators := None; learn := prior_learn; fitted := Some example_fitted |}.

Definition example_X : XFrame :=
  [mkXRow [1%Q] 0; mkXRow [2%Q] 0; mkXRow [3%Q] 1; mkXRow [4%Q] 1].
Definition example_y : Series := [0; 1; 0; 1].

(** ** Further notebook code *)

(** [x.replace(' ', '_')], the renaming of [load_data] (line 65), on one
    column name. *)
Fixpoint replace_char (old new : Ascii.ascii) (x : string) : string :=
  match x with
  | EmptyString => EmptyString
  | String c rest =>
      String (if Ascii.eqb c old then new else c) (replace_char old new rest)
  end.

Definition clean_column_name (x : string) : string :=
  replace_char " "%char "_"%char x.

(** The grid of box plots (lines 205 to 216): [dims = (3, 4)]; every column
    but the two indicator columns is drawn on [axes[axis_i, axis_j]], and the
    position then moves on, row by row.  The plots drawn so far stay drawn
    when indexing [axes] raises. *)
Definition dims : nat * nat := (3%nat, 4%nat).

Fixpoint boxplot_loop (columns : list string) (axis_i axis_j : nat)
  : list (string * (nat * nat)) * result unit :=
  match columns with
  | [] => ([], Ok tt)
  | col :: rest =>
      if bool_decide (col = "is_red" ∨ col = "quality") then
        boxplot_loop rest axis_i axis_j
      else if (axis_i <? dims.1)%nat && (axis_j <? dims.2)%nat then
        let axis_j' := S axis_j in
        let '(drawn, r) :=
          if (axis_j' =? dims.2)%nat then boxplot_loop rest (S axis_i) 0
          else boxplot_loop rest axis_i axis_j' in
        ((col, (axis_i, axis_j)) :: drawn, r)
      else ([], Raise IndexError)
  end.

(** [axis_i, axis_j = 0, 0] and the loop over [data.columns]. *)
Definition boxplots (columns : list string) : list (string * (nat * nat)) * result unit :=
  boxplot_loop columns 0 0.

(** The columns the loop draws. *)
Definition plotted_columns (columns : list string) : list string :=
  filter (λ col, ¬ (col = "is_red" ∨ col = "quality")) columns.

(** ** 5. FeatureImportance *)

(** [get_importance], given the array [model.model.feature_importances_]
    and [X_train.columns]: a frame indexed by the columns (the constructor
    raises when the lengths differ), sorted by importance, descending. *)
Definition get_importance (feature_importances_ : list Q) (columns : list string)
  : result (list (string * Q)) :=
  if negb (length feature_importances_ =? length columns)%nat then Raise ValueError
  else Ok (sort_by (λ a b : string * Q, Qle_bool b.2 a.2)
             (zip columns feature_importances_)).

(** ** Registering the best run and the main script *)

(** Lines 495 to 503: the best run of the sweep is registered as a new
    version of [model_name = "wine_quality"], with
    [mlflow.register_model] itself. *)
Definition register_best_run : Py ModelVersion :=
  best ← best_run;
  new_model_version ← mlflow_register_model (runs_uri (run_id best) "model")
                         "wine_quality";
  sleep 15;;
  mret new_model_version.

(** Lines 155 to 165 of the main script, given the contents of the two CSV
    files and NumPy's global generator: load, split, run the experiment on
    the train and test parts, register. *)
Definition main_script `{BitGenerator} (white_wine red_wine : list CsvRow)
    (global : rk_state) : Py ModelVersion :=
  let processor := WineDataProcessor_init in
  let '(processor, data) := load_data processor white_wine red_wine in
  '(X_train, X_val, X_test, y_train, y_val, y_test) ←
    lift (split_data processor (1 # 5) (1 # 5) global).1;
  let wine_model := WineQualityModel_init None in
  let experiment := MLflowExperiment_init None in
  run_id ← run_experiment experiment wine_model X_train X_test y_train y_test;
  register_model experiment run_id.

(** The conditions under which [split_data] returns, on [n] rows. *)
Definition split_returns (n : nat) (test_size val_size : Q) : Prop :=
  (0 < test_size)%Q ∧ (0 < val_size)%Q ∧ (test_size + val_size < 1)%Q ∧
  1 ≤ train_share n test_size val_size ∧
  1 ≤ remainder n test_size val_size - second_share n test_size val_size.

(** An estimator fitted on labels that are all 0. *)
Definition single_class_estimator : Estimator :=
  {| n_estimators := None; learn := prior_learn;
     fitted := Some {| classes_ := [0]; row_proba := λ _ _, 1%Q |} |}.

(** [r'] is the run [r] with more logged under it. *)
Definition same_run (r r' : Run) : Prop :=
  run_id r' = run_id r ∧ run_name r' = run_name r ∧
  parent_run_id r' = parent_run_id r ∧ start_time r' = start_time r ∧
  status r' = status r.

(** The run [r] is active and the newest of the store, above [rest]. *)
Definition run_kept (r : Run) (rest : list Run) (stack : list string) (w : World) : Prop :=
  active_run_stack w = run_id r :: stack ∧
  ∃ r', tracking w = r' :: rest ∧ same_run r r'.

(** Code that, run inside an active run, keeps it active and leaves the
    older runs alone, whether it returns or raises. *)
Definition keeps_run {A} (m : Py A) : Prop :=
  ∀ r rest stack w, run_kept r rest stack w → run_kept r rest stack (m w).2.

(** [n] rows of a CSV file, of qualities [0 .. n-1]. *)
Definition csv_rows (n : nat) : list CsvRow :=
  map (λ i, {| csv_features := [inject_Z (Z.of_nat i)]; csv_quality := Z.of_nat i |})
      (seq 0 n).

(** Lines 222 to 229, the split of the notebook cell: [train_size=0.6]
    first, then the remainder with [test_size=0.5]. *)
Definition notebook_split `{BitGenerator} (data : DataFrame) (global : rk_state)
  : result (XFrame * XFrame * XFrame * Series * Series * Series) * rk_state :=
  let X := drop_quality data in
  let y := quality_column data in
  match train_test_split X y None (Some (3 # 5)%Q) (Some 123) global with
  | (Raise e, global) => (Raise e, global)
  | (Ok (X_train, X_rem, y_train, y_rem), global) =>
      match train_test_split X_rem y_rem (Some (1 # 2)%Q) None (Some 123) global with
      | (Raise e, global) => (Raise e, global)
      | (Ok (X_val, X_test, y_val, y_test), global) =>
          (Ok (X_train, X_val, X_test, y_train, y_val, y_test), global)
      end
  end.

(** What identifies a run and places it in the tree of runs. *)
Definition run_key (r : Run) : string * option string * option string :=
  (run_id r, run_name r, parent_run_id r).

(** The keys of [n] runs without a name started one after the other under
    the run [parent], the newest first, when the next fresh id is number
    [next]. *)
Definition child_keys (uuid4 : nat → string) (next n : nat) (parent : string)
  : list (string * option string * option string) :=
  reverse (map (λ k, (uuid4 (next + k)%nat, None, Some parent)) (seq 0 n)).

(** [r] is a run of a trial of the sweep under the run [parent]: it is
    nested under [parent], and a loss logged under it is the loss one of
    the [trials] completed with. *)
Definition trial_run (parent : string) (trials : list Trial) (r : Run) : Prop :=
  parent_run_id r = Some parent ∧
  ∀ l, logged_loss r = Some l → ∃ point res, (point, Ok res) ∈ trials ∧ loss res = l.

(** Code that leaves the model registry alone, whether it returns or raises. *)
Definition keeps_registry {A} (m : Py A) : Prop :=
  ∀ w, registry (m w).2 = registry w.

(** * Properties *)

(** ** Label binarization *)

Lemma high_quality_binary q : high_quality q = 0 ∨ high_quality q = 1.
Proof. unfold high_quality. destruct (7 <=? q); auto. Qed.

Lemma high_quality_twice q : high_quality (high_quality q) = 0.
Proof. by destruct (high_quality_binary q) as [-> | ->]. Qed.

Lemma high_quality_fixed q : high_quality (high_quality q) = high_quality q ↔ q < 7.
Proof.
  rewrite high_quality_twice. unfold high_quality.
  destruct (Z.leb_spec 7 q); split; (done || lia).
Qed.

(** C2, as stated, fails: on a single wine of raw quality 7 the first
    binarization gives the label 1 and the second gives 0. *)
Lemma binarize_quality_not_idempotent :
  quality_column (binarize_quality (binarize_quality [wine 7])) = [0] ∧
  quality_column (binarize_quality [wine 7]) = [1] ∧
  quality_column (binarize_quality (binarize_quality [wine 7]))
    ≠ quality_column (binarize_quality [wine 7]).
Proof. repeat split; done. Qed.

(** C2, amended: a second binarization sets every label to 0 (both 0 and 1
    are below the threshold 7), so it agrees with a single one exactly on the
    data sets that have no raw quality of 7 or more. *)
Theorem binarize_quality_twice (data : DataFrame) :
  quality_column (binarize_quality (binarize_quality data)) = (λ _, 0) <$> data ∧
  (quality_column (binarize_quality (binarize_quality data))
     = quality_column (binarize_quality data)
   ↔ Forall (λ w, quality w < 7) data).
Proof.
  unfold quality_column, binarize_quality. split.
  - induction data as [|w data IH]; cbn; [done|].
    by rewrite high_quality_twice, <- IH.
  - induction data as [|w data IH]; cbn.
    + split; [constructor | done].
    + rewrite Forall_cons, <- IH, <- high_quality_fixed. split.
      * intros [= H1 H2]. by rewrite H1.
      * intros [H1 H2]. by rewrite H1, H2.
Qed.

(** ** Splitting: rejected ratios and the role of the seed *)

Lemma Qle_bool_true x y : (x <= y)%Q → Qle_bool x y = true.
Proof. apply Qle_bool_iff. Qed.

Lemma Qle_bool_false x y : (y < x)%Q → Qle_bool x y = false.
Proof.
  intros Hlt. destruct (Qle_bool x y) eqn:E; [|done].
  apply Qle_bool_iff in E. by apply Qlt_not_le in Hlt.
Qed.

Lemma X_y_same_length (rows : DataFrame) :
  (length (drop_quality rows) =? length (quality_column rows))%nat = true.
Proof.
  unfold drop_quality, quality_column. rewrite !length_map. apply Nat.eqb_refl.
Qed.

Section split_errors.
Context `{BitGenerator}.

Lemma validate_rejects_train_size n (tr : Q) :
  (tr <= 0)%Q → validate_shuffle_split n None (Some tr) = Raise ValueError.
Proof.
  intros Htr. unfold validate_shuffle_split, size_out_of_range.
  by rewrite (Qle_bool_true _ _ Htr).
Qed.

(** A seeded call neither reads nor writes NumPy's global generator. *)
Lemma train_test_split_seeded {A B} (X : list A) (y : list B) te tr seed g g' :
  train_test_split X y te tr (Some seed) g
  = ((train_test_split X y te tr (Some seed) g').1, g).
Proof.
  unfold train_test_split.
  destruct (negb _); [done|].
  destruct (validate_shuffle_split _ _ _) as [[n_train n_test]|e]; [|done].
  cbn [check_random_state release_random_state].
  by destruct (shuffle_split_indices _ _ _ _) as [r rng'].
Qed.

Lemma split_data_seeded self t v g g' :
  split_data self t v g = ((split_data self t v g').1, g).
Proof.
  unfold split_data. destruct (data self) as [rows|]; [|done].
  rewrite (train_test_split_seeded _ _ _ _ _ g g').
  destruct (train_test_split _ _ _ _ _ g') as [[[[[X_train X_rem] y_train] y_rem]|e] g1];
    cbn [fst snd]; [|done].
  destruct (Qeq_bool _ _); [done|].
  rewrite (train_test_split_seeded _ _ _ _ _ g g1).
  by destruct (train_test_split _ _ _ _ _ g1) as [[[[[X_val X_test] y_val] y_test]|e] g2].
Qed.

(** C4: whenever [test_size + val_size >= 1], [split_data] raises: the
    train fraction [1 - test_size - val_size] is not positive and
    [train_test_split] refuses it with a [ValueError] (an [AttributeError]
    comes first when no data was loaded). *)
Theorem split_data_rejects_ratios (self : WineDataProcessor) (test_size val_size : Q)
    (global : rk_state) :
  (1 <= test_size + val_size)%Q →
  split_data self test_size val_size global
  = (Raise (match data self with Some _ => ValueError | None => AttributeError end),
     global).
Proof.
  intros Hsum. unfold split_data. destruct (data self) as [rows|]; [|done].
  unfold train_test_split. rewrite X_y_same_length. cbn [negb].
  rewrite validate_rejects_train_size; [done|lra].
Qed.

(** C5: [split_data] seeds its own generator with 123 on every call, so two
    calls on the same data and ratios return the same partition whatever
    state NumPy's global generator is in, and leave that state untouched; in
    particular a second call right after the first repeats its result. *)
Theorem split_data_deterministic (self : WineDataProcessor) (test_size val_size : Q)
    (global1 global2 : rk_state) :
  (split_data self test_size val_size global1).1
    = (split_data self test_size val_size global2).1 ∧
  (split_data self test_size val_size global1).2 = global1 ∧
  (split_data self test_size val_size
     (split_data self test_size val_size global1).2).1
    = (split_data self test_size val_size global1).1.
Proof.
  rewrite (split_data_seeded self _ _ global1 global2). cbn [fst snd].
  repeat split.
  by rewrite (split_data_seeded self _ _ global2 global1).
Qed.

End split_errors.

(** C4 at work: ten wines, [test_size = val_size = 1/2]. *)
Lemma split_data_rejects_ratios_witness :
  (1 <= (1 # 2) + (1 # 2))%Q ∧
  @split_data lcg (wines 10) (1 # 2) (1 # 2) 0 = (Raise ValueError, 0).
Proof.
  split; [done|].
  exact (@split_data_rejects_ratios lcg (wines 10) (1 # 2) (1 # 2) 0 ltac:(done)).
Defined.

(** ** The shuffle is a permutation *)

Lemma insert_swap_head {A} (t : list A) (j : nat) (b h : A) :
  t !! j = Some b → b :: <[j := h]> t ≡ₚ h :: t.
Proof.
  revert j. induction t as [|c t IH]; intros [|j] Hj; simplify_eq/=.
  - apply Permutation_swap.
  - rewrite (Permutation_swap c b), (IH _ Hj). apply Permutation_swap.
Qed.

Lemma swap_ok (x : list nat) (i j : nat) :
  (i < length x)%nat → (j < length x)%nat →
  ∃ x', swap x i j = Ok x' ∧ x' ≡ₚ x.
Proof.
  intros Hi Hj. unfold swap.
  destruct (lookup_lt_is_Some_2 x i Hi) as [a Ha].
  destruct (lookup_lt_is_Some_2 x j Hj) as [b Hb].
  rewrite Ha, Hb. eexists; split; [done|].
  clear Hi Hj. revert i j Ha Hb.
  induction x as [|c x IH]; intros [|i] [|j] Ha Hb; simplify_eq/=.
  - done.
  - by apply insert_swap_head.
  - by apply insert_swap_head.
  - by rewrite (IH _ _ Ha Hb).
Qed.

Section shuffle_facts.
Context `{BitGenerator}.

Lemma shuffle_from_ok (i : nat) (x : list nat) (s : rk_state) :
  (i < length x ∨ i = 0)%nat →
  ∃ x', (shuffle_from i x s).1 = Ok x' ∧ x' ≡ₚ x.
Proof.
  revert x s. induction i as [|i IH]; intros x s Hi; cbn.
  - by exists x.
  - destruct Hi as [Hi|?]; [|done].
    pose proof (rk_interval_le (S i) s) as Hj.
    destruct (rk_interval (S i) s) as [j s']; cbn in Hj.
    destruct (swap_ok x (S i) j) as (x' & -> & Hx'); [lia..|].
    destruct (IH x' s') as (x'' & Hx'' & Hp).
    + left. rewrite Hx'. lia.
    + exists x''. split; [done|]. by rewrite Hp.
Qed.

Lemma permutation_ok (n : nat) (s : rk_state) :
  ∃ p, (permutation n s).1 = Ok p ∧ p ≡ₚ seq 0 n.
Proof.
  unfold permutation, shuffle. apply shuffle_from_ok.
  rewrite length_seq. lia.
Qed.

End shuffle_facts.

(** ** Positional indexing *)

Lemma iloc_in_range {A} (a : list A) (indices : list nat) :
  Forall (λ i, i < length a)%nat indices →
  Some <$> iloc a indices = (a !!.) <$> indices.
Proof.
  unfold iloc. induction 1 as [|i indices Hi _ IH]; cbn; [done|].
  destruct (lookup_lt_is_Some_2 a i Hi) as [r Hr]. rewrite Hr. cbn.
  by rewrite IH.
Qed.

Lemma take_rows_iloc {A} (a : list A) (indices : list nat) :
  Forall (λ i, i < length a)%nat indices →
  take_rows a indices = Ok (iloc a indices).
Proof.
  unfold iloc. induction 1 as [|i indices Hi _ IH]; cbn; [done|].
  destruct (lookup_lt_is_Some_2 a i Hi) as [r Hr]. rewrite Hr. cbn.
  by rewrite IH.
Qed.

Lemma length_iloc {A} (a : list A) (indices : list nat) :
  Forall (λ i, i < length a)%nat indices →
  length (iloc a indices) = length indices.
Proof.
  intros Hin. apply iloc_in_range in Hin.
  by rewrite <- (length_fmap Some), Hin, length_fmap.
Qed.

Lemma iloc_app {A} (a : list A) (i1 i2 : list nat) :
  iloc a (i1 ++ i2) = iloc a i1 ++ iloc a i2.
Proof. apply omap_app. Qed.

Lemma iloc_Permutation {A} (a : list A) (i1 i2 : list nat) :
  i1 ≡ₚ i2 → iloc a i1 ≡ₚ iloc a i2.
Proof. intros Hp. unfold iloc. by rewrite Hp. Qed.

Lemma iloc_seq {A} (a : list A) : iloc a (seq 0 (length a)) = a.
Proof.
  apply (inj (fmap Some)). rewrite iloc_in_range.
  - apply list_eq; intros i. rewrite !list_lookup_fmap.
    destruct (decide (i < length a)%nat) as [Hi|Hi].
    + rewrite lookup_seq_lt by done. cbn.
      by destruct (lookup_lt_is_Some_2 a i Hi) as [r ->].
    + rewrite lookup_seq_ge, lookup_ge_None_2 by lia. done.
  - apply Forall_forall. intros i [_ ?]%elem_of_seq. lia.
Qed.

(** Indexing the result of an indexing is indexing through the composed
    positions. *)
Lemma iloc_iloc {A} (a : list A) (outer inner : list nat) :
  Forall (λ i, i < length a)%nat outer →
  Forall (λ k, k < length outer)%nat inner →
  iloc (iloc a outer) inner = iloc a (iloc outer inner).
Proof.
  intros Houter. induction 1 as [|k inner Hk _ IH]; [done|].
  unfold iloc in *. cbn.
  destruct (lookup_lt_is_Some_2 outer k Hk) as [i Hi]. rewrite Hi. cbn.
  assert (omap (a !!.) outer !! k = a !! i) as ->; [|by rewrite IH].
  pose proof (iloc_in_range a outer Houter) as Heq. unfold iloc in Heq.
  apply (f_equal (.!! k)) in Heq. rewrite !list_lookup_fmap, Hi in Heq. cbn in Heq.
  destruct (omap (a !!.) outer !! k); by simplify_eq/=.
Qed.

Lemma iloc_positions_in_range (outer inner : list nat) (n : nat) :
  Forall (λ i, i < n)%nat outer →
  Forall (λ i, i < n)%nat (iloc outer inner).
Proof.
  intros Houter. apply Forall_forall. intros i Hi.
  unfold iloc in Hi. apply list_elem_of_omap in Hi as (k & _ & Hk).
  eapply (proj1 (Forall_forall _ _) Houter), list_elem_of_lookup_2, Hk.
Qed.

Lemma Permutation_seq_in_range (p : list nat) (n : nat) :
  p ≡ₚ seq 0 n → Forall (λ i, i < n)%nat p.
Proof.
  intros Hp. rewrite Hp. apply Forall_forall. intros i [_ ?]%elem_of_seq. lia.
Qed.

(** A list cut in two at [n_test]. *)
Lemma take_drop_cut {A} (p : list A) (n_train n_test : nat) :
  (n_train + n_test = length p)%nat →
  take n_test p ++ take n_train (drop n_test p) = p.
Proof.
  intros Hlen. rewrite (take_ge (drop _ _)) by (rewrite length_drop; lia).
  apply take_drop.
Qed.

(** ** The sizes [train_test_split] works out *)

Lemma Qfloor_bounds (q : Q) (m : Z) :
  (0 <= q)%Q → (q <= inject_Z m)%Q → 0 ≤ Qfloor q ≤ m.
Proof.
  intros H0 Hm. split.
  - change 0 with (Qfloor (inject_Z 0)). by apply Qfloor_resp_le.
  - rewrite <- (Qfloor_Z m). by apply Qfloor_resp_le.
Qed.

Lemma Qceiling_bounds (q : Q) (m : Z) :
  (0 <= q)%Q → (q <= inject_Z m)%Q → 0 ≤ Qceiling q ≤ m.
Proof.
  intros H0 Hm. split.
  - change 0 with (Qceiling (inject_Z 0)). by apply Qceiling_resp_le.
  - rewrite <- (Qceiling_Z m). by apply Qceiling_resp_le.
Qed.

Lemma share_bounds (f : Q) (m : Z) :
  (0 <= f)%Q → (f <= 1)%Q → 0 ≤ m →
  (0 <= f * inject_Z m)%Q ∧ (f * inject_Z m <= inject_Z m)%Q.
Proof.
  intros Hf0 Hf1 Hm. assert (0 <= inject_Z m)%Q as Hm'.
  { change 0%Q with (inject_Z 0). by rewrite <- Zle_Qle. }
  split.
  - by apply Qmult_le_0_compat.
  - rewrite <- (Qmult_1_l (inject_Z m)) at 2. by apply Qmult_le_compat_r.
Qed.

Lemma validate_train_size (n : nat) (tr : Q) :
  (0 < tr)%Q → (tr < 1)%Q → 1 ≤ Qfloor (tr * inject_Z (Z.of_nat n)) →
  ∃ n_train n_test,
    validate_shuffle_split n None (Some tr) = Ok (n_train, n_test) ∧
    Z.of_nat n_train = Qfloor (tr * inject_Z (Z.of_nat n)) ∧
    (n_train + n_test = n)%nat.
Proof.
  intros H0 H1 Hfloor.
  destruct (share_bounds tr (Z.of_nat n)) as [Hlo Hhi]; [lra..|lia|].
  pose proof (Qfloor_bounds _ _ Hlo Hhi) as Hb.
  unfold validate_shuffle_split, size_out_of_range.
  rewrite !Qle_bool_false by done. cbn [orb].
  set (k := Qfloor _) in *.
  replace (k + (Z.of_nat n - k)) with (Z.of_nat n) by lia.
  rewrite Z.ltb_irrefl. destruct (Z.eqb_spec k 0) as [?|_]; [lia|].
  eexists _, _. split; [done|]. lia.
Qed.

Lemma validate_test_size (m : nat) (f : Q) :
  (0 < f)%Q → (f < 1)%Q →
  1 ≤ Z.of_nat m - Qceiling (f * inject_Z (Z.of_nat m)) →
  ∃ n_train n_test,
    validate_shuffle_split m (Some f) None = Ok (n_train, n_test) ∧
    Z.of_nat n_test = Qceiling (f * inject_Z (Z.of_nat m)) ∧
    (n_train + n_test = m)%nat.
Proof.
  intros H0 H1 Hceil.
  destruct (share_bounds f (Z.of_nat m)) as [Hlo Hhi]; [lra..|lia|].
  pose proof (Qceiling_bounds _ _ Hlo Hhi) as Hb.
  unfold validate_shuffle_split, size_out_of_range.
  rewrite !Qle_bool_false by done. cbn [orb].
  set (k := Qceiling _) in *.
  replace (Z.of_nat m - k + k) with (Z.of_nat m) by lia.
  rewrite Z.ltb_irrefl. destruct (Z.eqb_spec (Z.of_nat m - k) 0) as [?|_]; [lia|].
  eexists _, _. split; [done|]. lia.
Qed.

(** The share of the remainder handed to the second split is a proper
    fraction when both ratios are positive. *)
Lemma second_fraction_proper (t v : Q) :
  (0 < t)%Q → (0 < v)%Q → (0 < v / (t + v))%Q ∧ (v / (t + v) < 1)%Q.
Proof.
  intros Ht Hv. split.
  - apply Qlt_shift_div_l; lra.
  - apply Qlt_shift_div_r; lra.
Qed.

Section split_facts.
Context `{BitGenerator}.

Lemma train_test_split_ok {A B} (X : list A) (y : list B) te tr seed g n_train n_test :
  length X = length y →
  validate_shuffle_split (length X) te tr = Ok (n_train, n_test) →
  (n_train + n_test = length X)%nat →
  ∃ p, p ≡ₚ seq 0 (length X) ∧
    train_test_split X y te tr (Some seed) g
    = (Ok (iloc X (take n_train (drop n_test p)), iloc X (take n_test p),
           iloc y (take n_train (drop n_test p)), iloc y (take n_test p)), g).
Proof.
  intros Hlen Hval Hsum. unfold train_test_split.
  rewrite Hlen, Nat.eqb_refl, <- Hlen, Hval. cbn [negb check_random_state].
  unfold shuffle_split_indices.
  destruct (permutation_ok (length X) (rk_seed seed)) as (p & Hp & Hperm).
  destruct (permutation _ _) as [r rng']. cbn in Hp. subst r.
  exists p. split; [done|]. cbn [release_random_state].
  pose proof (Permutation_seq_in_range _ _ Hperm) as Hin.
  assert (Forall (λ i, i < length X)%nat (take n_train (drop n_test p))) as Htrain
    by by apply Forall_take, Forall_drop.
  assert (Forall (λ i, i < length X)%nat (take n_test p)) as Htest
    by by apply Forall_take.
  assert (Forall (λ i, i < length y)%nat (take n_train (drop n_test p))) as Htrain'
    by by rewrite <- Hlen.
  assert (Forall (λ i, i < length y)%nat (take n_test p)) as Htest'
    by by rewrite <- Hlen.
  cbn. by rewrite !take_rows_iloc.
Qed.

End split_facts.

(** ** What [split_data] returns *)

Section split_result.
Context `{BitGenerator}.

(** With positive ratios that leave a train fraction, and enough rows for
    the train and validation parts not to be empty, [split_data] returns;
    the three parts are the rows at three position lists that together are a
    rearrangement of all positions, with the sizes given. *)
Lemma split_data_ok (rows : DataFrame) (t v : Q) (g : rk_state) :
  (0 < t)%Q → (0 < v)%Q → (t + v < 1)%Q →
  1 ≤ train_share (length rows) t v →
  1 ≤ remainder (length rows) t v - second_share (length rows) t v →
  ∃ I_train I_val I_test : list nat,
    split_data {| data := Some rows |} t v g
    = (Ok (iloc (drop_quality rows) I_train, iloc (drop_quality rows) I_val,
           iloc (drop_quality rows) I_test,
           iloc (quality_column rows) I_train, iloc (quality_column rows) I_val,
           iloc (quality_column rows) I_test), g) ∧
    I_train ++ I_val ++ I_test ≡ₚ seq 0 (length rows) ∧
    Z.of_nat (length I_train) = train_share (length rows) t v ∧
    Z.of_nat (length I_test) = second_share (length rows) t v ∧
    Z.of_nat (length I_val)
    = remainder (length rows) t v - second_share (length rows) t v.
Proof.
  intros Ht Hv Htv Htrain Hval.
  unfold split_data, second_share, remainder, train_share in *. cbn [data].
  set (X := drop_quality rows). set (y := quality_column rows).
  assert (length X = length rows) as HX by apply length_map.
  assert (length y = length rows) as Hy by apply length_map.
  rewrite <- HX in *.
  (* first split *)
  destruct (validate_train_size (length X) (1 - t - v))
    as (n_train & n_rem & Hval1 & Hn_train & Hsum1); [lra..|done|].
  destruct (train_test_split_ok X y None (Some (1 - t - v)%Q) 123 g n_train n_rem)
    as (p1 & Hp1 & ->); [by rewrite Hy|done..|].
  pose proof (Permutation_seq_in_range _ _ Hp1) as Hin1.
  assert (length p1 = length X) as Hlen1 by by rewrite Hp1, length_seq.
  set (I_rem := take n_rem p1).
  assert (Forall (λ i, i < length X)%nat I_rem) as Hin_rem by by apply Forall_take.
  assert (length I_rem = n_rem) as Hlen_rem
    by (unfold I_rem; rewrite length_take; lia).
  assert (length (iloc X I_rem) = n_rem) as HXrem by by rewrite length_iloc.
  assert (Forall (λ i, i < length y)%nat I_rem) as Hin_rem' by by rewrite Hy.
  assert (length (iloc y I_rem) = n_rem) as Hyrem by by rewrite length_iloc.
  destruct (Qeq_bool (t + v) 0) eqn:E; [apply Qeq_bool_iff in E; lra|].
  (* second split *)
  assert (Z.of_nat (length (iloc X I_rem)) = Z.of_nat (length X) - Z.of_nat n_train)
    as Hrem by lia.
  rewrite Hn_train in Hrem. rewrite <- Hrem in Hval.
  destruct (second_fraction_proper t v Ht Hv) as [Hf0 Hf1].
  destruct (validate_test_size (length (iloc X I_rem)) (v / (t + v)))
    as (n_val & n_test & Hval2 & Hn_test & Hsum2); [done..|].
  destruct (train_test_split_ok (iloc X I_rem) (iloc y I_rem)
              (Some (v / (t + v))%Q) None 123 g n_val n_test)
    as (p2 & Hp2 & ->); [by rewrite HXrem|done..|].
  pose proof (Permutation_seq_in_range _ _ Hp2) as Hin2.
  assert (length p2 = n_rem) as Hlen2 by by rewrite Hp2, length_seq.
  rewrite HXrem, <- Hlen_rem in Hin2.
  set (J_val := take n_val (drop n_test p2)). set (J_test := take n_test p2).
  assert (Forall (λ k, k < length I_rem)%nat J_val) as HJval
    by by apply Forall_take, Forall_drop.
  assert (Forall (λ k, k < length I_rem)%nat J_test) as HJtest by by apply Forall_take.
  exists (take n_train (drop n_rem p1)), (iloc I_rem J_val), (iloc I_rem J_test).
  split; [|split; [|split; [|split]]].
  - by rewrite !iloc_iloc.
  - rewrite <- iloc_app.
    assert (J_val ++ J_test ≡ₚ seq 0 (length I_rem)) as HJ.
    { rewrite Permutation_app_comm. unfold J_val, J_test.
      rewrite take_drop_cut by lia. by rewrite Hp2, HXrem, Hlen_rem. }
    rewrite (iloc_Permutation _ _ _ HJ), iloc_seq, Permutation_app_comm.
    unfold I_rem.
    rewrite take_drop_cut by lia. by rewrite Hp1.
  - rewrite length_take, length_drop. lia.
  - rewrite length_iloc by done. unfold J_test. rewrite length_take.
    rewrite <- Hrem, <- Hn_test. lia.
  - rewrite length_iloc by done. unfold J_val. rewrite length_take, length_drop.
    rewrite <- Hrem, <- Hn_test. lia.
Qed.

End split_result.

(** ** When [split_data] returns and when it raises *)

Lemma Qle_bool_false_inv x y : Qle_bool x y = false → (y < x)%Q.
Proof.
  intros Hb. apply Qnot_le_lt. intros Hle. apply Qle_bool_iff in Hle. congruence.
Qed.

Lemma validate_raises n te tr e :
  validate_shuffle_split n te tr = Raise e → e = ValueError.
Proof. unfold validate_shuffle_split. repeat case_match; congruence. Qed.

Lemma validate_train_size_inv (n : nat) (tr : Q) (a b : nat) :
  validate_shuffle_split n None (Some tr) = Ok (a, b) →
  (0 < tr)%Q ∧ (tr < 1)%Q ∧ 1 ≤ Qfloor (tr * inject_Z (Z.of_nat n)).
Proof.
  unfold validate_shuffle_split, size_out_of_range. cbn [orb].
  destruct (Qle_bool tr 0) eqn:H0; [done|].
  destruct (Qle_bool 1 tr) eqn:H1; [done|]. cbn [orb].
  apply Qle_bool_false_inv in H0, H1.
  destruct (share_bounds tr (Z.of_nat n)) as [Hlo Hhi]; [lra..|lia|].
  pose proof (Qfloor_bounds _ _ Hlo Hhi) as Hb.
  set (k := Qfloor _) in *. destruct (_ <? _); [done|].
  destruct (Z.eqb_spec k 0); [done|]. intros _. repeat split; (done || lia).
Qed.

Lemma validate_test_size_inv (m : nat) (f : Q) (a b : nat) :
  validate_shuffle_split m (Some f) None = Ok (a, b) →
  (0 < f)%Q ∧ (f < 1)%Q ∧
  1 ≤ Z.of_nat m - Qceiling (f * inject_Z (Z.of_nat m)).
Proof.
  unfold validate_shuffle_split, size_out_of_range.
  destruct (Qle_bool f 0) eqn:H0; [done|].
  destruct (Qle_bool 1 f) eqn:H1; [done|]. cbn [orb].
  apply Qle_bool_false_inv in H0, H1.
  destruct (share_bounds f (Z.of_nat m)) as [Hlo Hhi]; [lra..|lia|].
  pose proof (Qceiling_bounds _ _ Hlo Hhi) as Hb.
  set (k := Qceiling _) in *. destruct (_ <? _); [done|].
  destruct (Z.eqb_spec (Z.of_nat m - k) 0); [done|]. intros _.
  repeat split; (done || lia).
Qed.

Lemma validate_train_size_fail (n : nat) (tr : Q) :
  ¬ ((0 < tr)%Q ∧ (tr < 1)%Q ∧ 1 ≤ Qfloor (tr * inject_Z (Z.of_nat n))) →
  validate_shuffle_split n None (Some tr) = Raise ValueError.
Proof.
  intros Hnot. destruct (validate_shuffle_split n None (Some tr)) as [[a b]|e] eqn:E.
  - by apply validate_train_size_inv in E.
  - by apply validate_raises in E as ->.
Qed.

Lemma validate_test_size_fail (m : nat) (f : Q) :
  ¬ ((0 < f)%Q ∧ (f < 1)%Q ∧
     1 ≤ Z.of_nat m - Qceiling (f * inject_Z (Z.of_nat m))) →
  validate_shuffle_split m (Some f) None = Raise ValueError.
Proof.
  intros Hnot. destruct (validate_shuffle_split m (Some f) None) as [[a b]|e] eqn:E.
  - by apply validate_test_size_inv in E.
  - by apply validate_raises in E as ->.
Qed.

(** A proper second fraction over a positive sum means both ratios are
    positive. *)
Lemma second_fraction_proper_inv (t v : Q) :
  (0 < t + v)%Q → (0 < v / (t + v))%Q → (v / (t + v) < 1)%Q →
  (0 < t)%Q ∧ (0 < v)%Q.
Proof.
  intros Hpos Hf0 Hf1.
  assert (v == v / (t + v) * (t + v))%Q as Hv by (field; lra).
  assert (0 < v / (t + v) * (t + v))%Q as H0 by by apply Qmult_lt_0_compat.
  assert (v / (t + v) * (t + v) < 1 * (t + v))%Q as H1
    by by apply Qmult_lt_compat_r.
  lra.
Qed.

(** When a validation row is left, the remainder and the share of the
    second split each have a row too. *)
Lemma second_share_positive (n : nat) (t v : Q) :
  (0 < t)%Q → (0 < v)%Q → (t + v < 1)%Q →
  1 ≤ remainder n t v - second_share n t v →
  1 ≤ second_share n t v ∧ 1 ≤ remainder n t v.
Proof.
  intros Ht Hv Htv Hval. unfold second_share, remainder, train_share in *.
  destruct (share_bounds (1 - t - v) (Z.of_nat n)) as [Hlo Hhi]; [lra..|lia|].
  pose proof (Qfloor_bounds _ _ Hlo Hhi) as Hb.
  set (m := Z.of_nat n - Qfloor _) in *.
  destruct (second_fraction_proper t v Ht Hv) as [Hf0 Hf1].
  destruct (share_bounds (v / (t + v)) m) as [Hlo' Hhi']; [lra..|lia|].
  pose proof (Qceiling_bounds _ _ Hlo' Hhi') as Hb'.
  assert (1 ≤ m) as Hm by lia. split; [|done].
  assert (0 < inject_Z m)%Q as Hpos
    by (change 0%Q with (inject_Z 0); rewrite <- Zlt_Qlt; lia).
  pose proof (Qmult_lt_0_compat _ _ Hf0 Hpos) as Hprod.
  pose proof (Qle_ceiling (v / (t + v) * inject_Z m)) as Hc.
  assert (0 < Qceiling (v / (t + v) * inject_Z m)); [|lia].
  rewrite Zlt_Qlt. change (inject_Z 0) with 0%Q. lra.
Qed.

Section split_cases.
Context `{BitGenerator}.

Lemma train_test_split_raises {A B} (X : list A) (y : list B) te tr seed g e :
  validate_shuffle_split (length X) te tr = Raise e →
  train_test_split X y te tr seed g = (Raise ValueError, g).
Proof.
  intros Hv. unfold train_test_split. destruct (negb _); [done|].
  rewrite Hv. by apply validate_raises in Hv as ->.
Qed.

Lemma split_data_cases (rows : DataFrame) (t v : Q) (g : rk_state) :
  (split_returns (length rows) t v ∧
   ∃ res, split_data {| data := Some rows |} t v g = (Ok res, g)) ∨
  (¬ split_returns (length rows) t v ∧
   split_data {| data := Some rows |} t v g = (Raise ValueError, g)).
Proof.
  set (X := drop_quality rows). set (y := quality_column rows).
  assert (length X = length rows) as HX by apply length_map.
  assert (length y = length rows) as Hy by apply length_map.
  destruct (validate_shuffle_split (length X) None (Some (1 - t - v)%Q))
    as [[n_train n_rem]|e] eqn:Hv1.
  2:{ right. split.
      - intros (Ht & Hv & Htv & Htrain & _).
        destruct (validate_train_size (length X) (1 - t - v))
          as (? & ? & Hok & _); [lra..|by rewrite HX|congruence].
      - unfold split_data. cbn [data]. fold X y.
        by rewrite (train_test_split_raises X y _ _ _ _ e). }
  pose proof (validate_train_size_inv _ _ _ _ Hv1) as (Htr0 & Htr1 & Htrain).
  rewrite HX in Htrain.
  destruct (validate_train_size (length X) (1 - t - v))
    as (n_train' & n_rem' & Hv1' & Hn_train & Hsum1); [done..|by rewrite HX|].
  rewrite Hv1 in Hv1'. symmetry in Hv1'. simplify_eq.
  destruct (train_test_split_ok X y None (Some (1 - t - v)%Q) 123 g n_train n_rem)
    as (p1 & Hp1 & Hsplit1); [by rewrite Hy|done..|].
  pose proof (Permutation_seq_in_range _ _ Hp1) as Hin1.
  assert (length p1 = length X) as Hlen1 by by rewrite Hp1, length_seq.
  set (I_rem := take n_rem p1) in *.
  assert (Forall (λ i, i < length X)%nat I_rem) as Hin_rem by by apply Forall_take.
  assert (Forall (λ i, i < length y)%nat I_rem) as Hin_rem' by by rewrite Hy, <- HX.
  assert (length I_rem = n_rem) as Hlen_rem
    by (unfold I_rem; rewrite length_take; lia).
  assert (length (iloc X I_rem) = n_rem) as HXrem by by rewrite length_iloc.
  assert (length (iloc y I_rem) = n_rem) as Hyrem by by rewrite length_iloc.
  assert (Z.of_nat n_rem = remainder (length rows) t v) as Hrem.
  { unfold remainder, train_share. rewrite <- HX. lia. }
  destruct (validate_shuffle_split n_rem (Some (v / (t + v))%Q) None)
    as [[n_val n_test]|e] eqn:Hv2.
  - left. pose proof (validate_test_size_inv _ _ _ _ Hv2) as (Hf0 & Hf1 & Hval).
    destruct (second_fraction_proper_inv t v) as [Ht Hv]; [lra|done..|].
    assert (split_returns (length rows) t v) as Hret.
    { repeat split; [done|done|lra|done|].
      unfold second_share. by rewrite <- Hrem. }
    split; [done|]. destruct Hret as (? & ? & ? & ? & ?).
    destruct (split_data_ok rows t v g) as (? & ? & ? & Hok & _); [done..|].
    eauto.
  - right. split.
    + intros (Ht & Hv & Htv & _ & Hval).
      destruct (second_fraction_proper t v Ht Hv) as [Hf0 Hf1].
      destruct (validate_test_size n_rem (v / (t + v)))
        as (? & ? & Hok & _); [done..| |congruence].
      unfold second_share in Hval. by rewrite Hrem.
    + unfold split_data. cbn [data]. fold X y. rewrite Hsplit1.
      destruct (Qeq_bool (t + v) 0) eqn:E; [apply Qeq_bool_iff in E; lra|].
      rewrite (train_test_split_raises _ _ _ _ _ _ e); [done|by rewrite HXrem].
Qed.

End split_cases.

(** What a returned split is made of. *)
Lemma split_data_inv `{BitGenerator} (self : WineDataProcessor) (t v : Q)
    (g g' : rk_state) (X_train X_val X_test : XFrame) (y_train y_val y_test : Series) :
  split_data self t v g = (Ok (X_train, X_val, X_test, y_train, y_val, y_test), g') →
  ∃ rows (I_train I_val I_test : list nat),
    data self = Some rows ∧ split_returns (length rows) t v ∧
    I_train ++ I_val ++ I_test ≡ₚ seq 0 (length rows) ∧
    (X_train = iloc (drop_quality rows) I_train ∧
     X_val = iloc (drop_quality rows) I_val ∧
     X_test = iloc (drop_quality rows) I_test) ∧
    (y_train = iloc (quality_column rows) I_train ∧
     y_val = iloc (quality_column rows) I_val ∧
     y_test = iloc (quality_column rows) I_test) ∧
    Z.of_nat (length X_test) = second_share (length rows) t v ∧
    Z.of_nat (length X_val)
    = remainder (length rows) t v - second_share (length rows) t v.
Proof.
  destruct self as [[rows|]]; [|done]. intros Hsplit.
  destruct (split_data_cases rows t v g) as [[Hret _]|[_ Hraise]]; [|congruence].
  pose proof Hret as (Ht & Hv & Htv & Htrain & Hval).
  destruct (split_data_ok rows t v g Ht Hv Htv Htrain Hval)
    as (I_train & I_val & I_test & Hok & Hperm & Hn_train & Hn_test & Hn_val).
  rewrite Hsplit in Hok. simplify_eq.
  exists rows, I_train, I_val, I_test. do 5 (split; [done|]).
  pose proof (Permutation_seq_in_range _ _ Hperm) as Hin.
  apply Forall_app in Hin as [Hin1 Hin]. apply Forall_app in Hin as [Hin2 Hin3].
  assert (length (drop_quality rows) = length rows) as HX by apply length_map.
  by rewrite !length_iloc by (by rewrite ?HX).
Qed.









(** ** The wrapped model and the unfitted estimator *)

Lemma column_cells_proba (f : Fitted) (X : XFrame) (j : nat) :
  (j < length (classes_ f))%nat →
  column_cells (map (λ r, map (row_proba f r) (seq 0 (length (classes_ f)))) X) j
  = Ok (map (λ r, row_proba f r j) X).
Proof.
  intros Hj. induction X as [|r X IH]; cbn; [done|].
  rewrite list_lookup_fmap, lookup_seq_lt by done. cbn. by rewrite IH.
Qed.



(** C6, as stated, fails: [train] need not have been called on the
    instance.  An instance built over an estimator that was fitted
    beforehand evaluates at once; and since the default estimator of
    [__init__] is one shared object, training one default-built instance
    lets another one, never trained, evaluate too. *)
Lemma evaluate_without_train :
  (∃ auc,
     ((est ← lift (fit DummyClassifier example_X example_y);
       assign 1%nat est;;
       evaluate (WineQualityModel_init (Some 1%nat)) example_X example_y)
        (@notebook_loaded prior_forest 0 [])).1 = Ok auc) ∧
  (∃ auc,
     ((train (WineQualityModel_init None) example_X example_y;;
       evaluate (WineQualityModel_init None) example_X example_y)
        (@notebook_loaded prior_forest 0 [])).1 = Ok auc).
Proof. split; eexists; vm_compute; reflexivity. Qed.

(** C6, amended: on an instance whose estimator object has not been fitted
    (through this instance or any other reference to the object),
    [evaluate] raises scikit-learn's [NotFittedError] and changes nothing,
    and so does [predict] of the wrapper built over that estimator. *)
Theorem evaluate_unfitted (self : WineQualityModel) (w : World) (est : Estimator)
    (X : XFrame) (y : Series) :
  heap w !! model self = Some est →
  fitted est = None →
  evaluate self X y w = (Raise NotFittedError, w) ∧
  predict {| wrapped_model := model self |} tt X w = (Raise NotFittedError, w).
Proof.
  intros Hest Hfit.
  unfold evaluate, predict, mbind, Py_bind, deref, lift, predict_proba. cbn.
  by rewrite Hest, Hfit.
Qed.

(** C6 amended, at work: a default-built instance right after the notebook's
    class statements have run. *)
Lemma evaluate_unfitted_witness :
  evaluate (WineQualityModel_init None) example_X example_y
    (@notebook_loaded prior_forest 0 [])
  = (Raise NotFittedError, @notebook_loaded prior_forest 0 []).
Proof.
  exact (proj1 (evaluate_unfitted (WineQualityModel_init None)
                  (@notebook_loaded prior_forest 0 [])
                  (@RandomForestClassifier prior_forest 10 123)
                  example_X example_y eq_refl eq_refl)).
Defined.

(** ** Registration *)

(** C10: a call of [register_model] that registers (the run exists) also
    points the alias [production] of the registered model at the version it
    has just created, before it sleeps and returns; the calls made are
    exactly: create the version, set the alias, sleep 15 seconds.  No stage
    transition is made: the version stays in stage [None]. *)
Theorem register_model_promotes (self : MLflowExperiment) (rid : string) (w : World) :
  has_run rid w = true →
  ∃ (mv : ModelVersion) (w' : World),
    register_model self rid w = (Ok mv, w') ∧
    source mv = runs_uri rid "random_forest_model" ∧
    current_stage mv = "None" ∧
    (∃ rm, registry w' !! model_name self = Some rm ∧ mv ∈ versions rm) ∧
    alias_of (model_name self) "production" w' = Some (version mv) ∧
    journal w'
    = journal w ++ [CreateModelVersion (model_name self) (version mv);
                    SetRegisteredModelAlias (model_name self) "production" (version mv);
                    Sleep 15].
Proof.
  intros Hrun.
  unfold register_model, mlflow_register_model, set_registered_model_alias, sleep,
    alias_of.
  py_unfold. cbn [uri_run_id]. rewrite Hrun. cbn [negb]. world_simpl.
  set (rm := default _ _).
  set (mv := {| mv_name := _ |}).
  rewrite lookup_insert_eq. cbn [versions aliases].
  rewrite bool_decide_true
    by (rewrite fmap_app, elem_of_app; right; apply list_elem_of_singleton; done).
  world_simpl.
  exists mv. eexists. split; [done|]. world_simpl.
  do 2 (split; [done|]). split; [|split].
  - eexists. rewrite insert_insert_eq, lookup_insert_eq. split; [done|].
    cbn [versions]. rewrite elem_of_app. right. by apply list_elem_of_singleton.
  - rewrite insert_insert_eq, lookup_insert_eq. cbn. by rewrite lookup_insert_eq.
  - by rewrite <- !app_assoc.
Qed.

(** C10 at work: the store holds one finished run, [run]. *)
Lemma register_model_promotes_witness :
  ∃ (mv : ModelVersion) (w' : World),
    register_model (MLflowExperiment_init None) "run"
      (@notebook_loaded prior_forest 1000 [example_run "run" None 500 None])
    = (Ok mv, w') ∧
    version mv = 1%nat ∧
    alias_of "wine_quality" "production" w' = Some 1%nat.
Proof.
  destruct (register_model_promotes (MLflowExperiment_init None) "run"
              (@notebook_loaded prior_forest 1000 [example_run "run" None 500 None]))
    as (mv & w' & Hreg & _ & _ & _ & Halias & _); [by vm_compute|].
  exists mv, w'. split; [exact Hreg|].
  assert (version mv = 1%nat) as Hv by (vm_compute in Hreg; by simplify_eq).
  split; [exact Hv|]. by rewrite <- Hv.
Defined.

(** ** Searching runs *)

Lemma insert_by_Permutation {A} (before : A → A → bool) (x : A) (l : list A) :
  insert_by before x l ≡ₚ x :: l.
Proof.
  induction l as [|y l IH]; cbn; [done|].
  destruct (before x y); [done|]. rewrite IH. apply Permutation_swap.
Qed.

Lemma sort_by_Permutation {A} (before : A → A → bool) (l : list A) :
  sort_by before l ≡ₚ l.
Proof.
  induction l as [|x l IH]; cbn; [done|].
  by rewrite insert_by_Permutation, IH.
Qed.

Lemma head_insert_by {A} (before : A → A → bool) (x : A) (l : list A) :
  head (insert_by before x l)
  = match l with
    | [] => Some x
    | y :: _ => if before x y then Some x else Some y
    end.
Proof. destruct l as [|y l]; cbn; [done|]. by destruct (before x y). Qed.

Lemma metric_ge_refl key r : metric_ge key r r.
Proof.
  unfold metric_ge. destruct (metrics r !! key) as [a|]; [|done].
  exists a. split; [done|apply Qle_refl].
Qed.

Lemma metric_ge_trans key r s t : metric_ge key r s → metric_ge key s t → metric_ge key r t.
Proof.
  unfold metric_ge. intros Hrs Hst.
  destruct (metrics t !! key) as [a|]; [|done].
  destruct Hst as (b & Hb & Hab). rewrite Hb in Hrs.
  destruct Hrs as (c & Hc & Hbc). exists c. split; [done|]. by eapply Qle_trans.
Qed.

Lemma metric_desc_order_ge key a b :
  metric_ge key (if metric_desc_order key a b then a else b)
                (if metric_desc_order key a b then b else a).
Proof.
  unfold metric_desc_order, metric_ge.
  destruct (metrics a !! key) as [x|] eqn:Ha, (metrics b !! key) as [y|] eqn:Hb;
    rewrite ?Ha, ?Hb; try done.
  - destruct (x ?= y)%Q eqn:E.
    + apply Qeq_alt in E. destruct (default_order a b); rewrite ?Ha, ?Hb;
        eexists; (split; [done|]); rewrite E; apply Qle_refl.
    + apply Qlt_alt in E. rewrite Ha. eexists; split; [done|]. by apply Qlt_le_weak.
    + apply Qgt_alt in E. rewrite Hb. eexists; split; [done|]. by apply Qlt_le_weak.
  - by destruct (default_order a b); rewrite ?Ha, ?Hb.
Qed.

(** The first run of a search ordered by a metric, descending, has the
    metric at least as high as every run searched. *)
Lemma head_sort_by_metric key (l : list Run) (r : Run) :
  head (sort_by (metric_desc_order key) l) = Some r →
  ∀ t, t ∈ l → metric_ge key r t.
Proof.
  revert r. induction l as [|x l IH]; intros r Hhead t Ht; [by inv Ht|].
  change (sort_by ?b (x :: l)) with (insert_by b x (sort_by b l)) in Hhead.
  rewrite head_insert_by in Hhead.
  destruct (sort_by _ l) as [|y s] eqn:Hs.
  - pose proof (sort_by_Permutation (metric_desc_order key) l) as Hp.
    rewrite Hs in Hp. apply Permutation_nil_l in Hp. subst l.
    simplify_eq. apply list_elem_of_singleton in Ht as ->. apply metric_ge_refl.
  - pose proof (metric_desc_order_ge key x y) as Hxy.
    assert (∀ t, t ∈ l → metric_ge key y t) as Hy by by apply IH.
    apply elem_of_cons in Ht as [->|Ht];
      destruct (metric_desc_order key x y); simplify_eq.
    + apply metric_ge_refl.
    + done.
    + eapply metric_ge_trans; [done|by apply Hy].
    + by apply Hy.
Qed.

Lemma best_run_total (w : World) :
  tracking w ≠ [] → ∃ r, best_run w = (Ok r, w) ∧ r ∈ tracking w.
Proof.
  unfold best_run, search_runs, iloc0. py_unfold.
  pose proof (sort_by_Permutation (metric_desc_order "auc") (tracking w)) as Hp.
  intros Hne. destruct (sort_by _ _) as [|r s] eqn:Hs.
  - apply Permutation_nil_l in Hp. congruence.
  - exists r. split; [done|]. rewrite <- Hp. left.
Qed.

Lemma best_run_lowest_loss (w : World) (r : Run) :
  (best_run w).1 = Ok r →
  ∀ t loss_t, t ∈ tracking w → logged_loss t = Some loss_t →
    ∃ loss_r, logged_loss r = Some loss_r ∧ (loss_r <= loss_t)%Q.
Proof.
  unfold best_run, search_runs, iloc0. py_unfold.
  intros Hr t loss_t Ht Hloss.
  assert (head (sort_by (metric_desc_order "auc") (tracking w)) = Some r) as Hhead.
  { destruct (sort_by _ _); cbn in *; congruence. }
  pose proof (head_sort_by_metric _ _ _ Hhead t Ht) as Hge.
  unfold metric_ge, logged_loss in *.
  destruct (metrics t !! "auc") as [a|]; [|done]. cbn in Hloss. simplify_eq.
  destruct Hge as (b & -> & Hab). cbn. eexists; split; [done|]. lra.
Qed.

Lemma update_run_head (rid : string) (f : Run → Run) (r : Run) (rest : list Run) :
  run_id r = rid → update_run rid f (r :: rest) = f r :: rest.
Proof. intros Hr. cbn. by rewrite decide_True. Qed.

(** Closing a run keeps the loss every run has logged. *)
Lemma update_run_status_logged (rid : string) (s : RunStatus) (runs : list Run) (r : Run) :
  r ∈ runs →
  ∃ r', r' ∈ update_run rid (set_status s) runs ∧ logged_loss r' = logged_loss r.
Proof.
  induction runs as [|x runs IH]; intros Hr; [by inv Hr|]. cbn.
  apply elem_of_cons in Hr as [->|Hr].
  - destruct (decide _); eexists; (split; [left|done]).
  - destruct (decide _).
    + exists r. split; [by right|done].
    + destruct (IH Hr) as (r' & Hr' & Hl). exists r'. split; [by right|done].
Qed.

(** ** The sweep *)

Section sweep_facts.
Context `{XGBoost, Suggest}.
Context (X_train : XFrame) (y_train : Series) (X_val : XFrame) (y_val : Series).

(** A trial, completed or failed, leaves one new run in the store and the
    stack of active runs as it was; when it completes, the loss it reports
    is the loss logged under the new run. *)
Lemma train_model_store (params : SearchPoint) (w : World) :
  ∃ r, tracking (train_model X_train y_train X_val y_val params w).2
       = r :: tracking w ∧
       active_run_stack (train_model X_train y_train X_val y_val params w).2
       = active_run_stack w ∧
       ∀ res, (train_model X_train y_train X_val y_val params w).1 = Ok res →
              logged_loss r = Some (loss res).
Proof.
  unfold train_model, with_run, start_run, end_run, log_metric, log_artifact,
    log_to_run, active_run.
  py_unfold.
  destruct (active_run_stack w) as [|parent stack] eqn:Hstack; world_simpl;
    destruct (roc_auc_score _ _) as [auc|e]; world_simpl;
    rewrite ?update_run_head by done; world_simpl;
    rewrite ?update_run_head by done;
    (eexists; split; [done|]); (split; [done|]); intros res [= <-];
    unfold logged_loss; cbn; by rewrite lookup_insert_eq.
Qed.

Lemma fmin_loop_logged (max_evals : nat) (trials : list Trial) (w : World) :
  trials_logged trials (tracking w) →
  ∃ trials',
    (fmin_loop (train_model X_train y_train X_val y_val) max_evals trials w).1
    = Ok trials' ∧
    length trials' = (length trials + max_evals)%nat ∧
    trials_logged trials'
      (tracking (fmin_loop (train_model X_train y_train X_val y_val)
                   max_evals trials w).2) ∧
    active_run_stack (fmin_loop (train_model X_train y_train X_val y_val)
                        max_evals trials w).2
    = active_run_stack w.
Proof.
  revert trials w. induction max_evals as [|n IH]; intros trials w Hlogged.
  - exists trials. cbn. by rewrite Nat.add_0_r.
  - cbn [fmin_loop]. unfold mbind, Py_bind, catch.
    set (point := tpe_suggest trials).
    destruct (train_model_store point w) as (r & Ht & Hs & Hloss).
    destruct (train_model _ _ _ _ point w) as [outcome w1]. cbn [fst snd] in *.
    lazy beta iota.
    destruct (IH (trials ++ [(point, outcome)]) w1) as (trials' & Hok & Hlen & Hl & Hs').
    { intros p res [Hin|Hin%list_elem_of_singleton]%elem_of_app.
      - destruct (Hlogged p res Hin) as (t & Ht' & Hlt).
        exists t. split; [|done]. rewrite Ht. by right.
      - simplify_eq. exists r. split; [rewrite Ht; left|by apply Hloss]. }
    exists trials'. rewrite Hok, Hs', Hs. split; [done|].
    split; [|done]. rewrite Hlen, length_app. cbn. lia.
Qed.

Lemma best_trial_completed (trials : list Trial) (point : SearchPoint) (l : Q) :
  best_trial trials = Some (point, l) → ∃ p res, (p, Ok res) ∈ trials.
Proof.
  induction trials as [|[p [res|e]] trials IH]; cbn; [done| |].
  - intros _. exists p, res. left.
  - intros Hbest. destruct (IH Hbest) as (p' & res & Hin).
    exists p', res. by right.
Qed.

(** When the sweep returns, [best_run] selects a run, and its logged loss
    is at most the loss of every completed trial. *)
Lemma best_run_after_sweep (w w' : World) (best : SearchPoint) (trials : list Trial) :
  sweep X_train y_train X_val y_val w = (Ok (best, trials), w') →
  length trials = 96%nat ∧
  ∃ r, best_run w' = (Ok r, w') ∧
       ∀ point res, (point, Ok res) ∈ trials →
         ∃ loss_r, logged_loss r = Some loss_r ∧ (loss_r <= loss res)%Q.
Proof.
  unfold sweep, with_run, fmin.
  destruct (start_run _ _ w) as [[rid|e] w1]; [|done].
  unfold mbind at 1, Py_bind at 1.
  destruct (fmin_loop_logged 96 [] w1) as (ts & Hok & Hlen & Hlogged & Hs).
  { intros p res Hin. by inv Hin. }
  destruct (fmin_loop _ _ _ w1) as [r1 w2]. cbn [fst snd] in *. subst r1.
  destruct (best_trial ts) as [[p l]|] eqn:Hbest; [|done].
  py_unfold. intros [= <- <- <-]. split; [done|].
  assert (trials_logged ts (tracking (end_run FINISHED w2).2)) as Hlogged'.
  { intros point res Hin. destruct (Hlogged point res Hin) as (t & Ht & Hl).
    unfold end_run. destruct (active_run_stack w2) as [|top stack]; world_simpl.
    - by exists t.
    - destruct (update_run_status_logged top FINISHED _ _ Ht) as (t' & Ht' & Hl').
      exists t'. split; [done|congruence]. }
  destruct (best_trial_completed _ _ _ Hbest) as (p0 & res0 & Hin0).
  destruct (Hlogged' p0 res0 Hin0) as (t0 & Ht0 & _).
  destruct (best_run_total (end_run FINISHED w2).2) as (r & Hr & _).
  { intros Hnil. rewrite Hnil in Ht0. by inv Ht0. }
  exists r. split; [done|]. intros point res Hin.
  destruct (Hlogged' point res Hin) as (t & Ht & Hl).
  by apply (best_run_lowest_loss _ r (f_equal fst Hr) t).
Qed.

End sweep_facts.

(** ** The runs of the sweep *)

Lemma update_run_key (rid : string) (f : Run → Run) (runs : list Run) :
  (∀ r, run_key (f r) = run_key r) →
  run_key <$> update_run rid f runs = run_key <$> runs.
Proof.
  intros Hf. induction runs as [|r runs IH]; [done|]. cbn.
  destruct (decide _); cbn; [by rewrite Hf|by rewrite IH].
Qed.

Lemma child_keys_S (uuid4 : nat → string) (next n : nat) (parent : string) :
  child_keys uuid4 next (S n) parent
  = child_keys uuid4 (S next) n parent ++ [(uuid4 next, None, Some parent)].
Proof.
  unfold child_keys. cbn [seq map]. rewrite reverse_cons, Nat.add_0_r.
  f_equal. f_equal. rewrite <- fmap_S_seq.
  change (map ?f (S <$> ?l)) with (f <$> (S <$> l)). rewrite <- list_fmap_compose.
  apply list_fmap_ext. intros _ k _. cbn. by rewrite Nat.add_succ_r.
Qed.

Lemma roc_auc_score_raises (y_true : Series) (y_score : list Q) (e : PyError) :
  roc_auc_score y_true y_score = Raise e → e = ValueError.
Proof.
  unfold roc_auc_score. destruct (negb _); [congruence|].
  destruct (unique y_true) as [|? [|? [|]]]; congruence.
Qed.

Section sweep_runs.
Context `{XGBoost, Suggest}.
Context (X_train : XFrame) (y_train : Series) (X_val : XFrame) (y_val : Series).

(** One trial: the child run it starts, and how it leaves it. *)
Lemma train_model_run (params : SearchPoint) (w : World) :
  let out := train_model X_train y_train X_val y_val params w in
  active_run_stack out.2 = active_run_stack w ∧
  uuid_next out.2 = S (uuid_next w) ∧ uuid4 out.2 = uuid4 w ∧
  ∃ child,
    tracking out.2 = child :: tracking w ∧
    run_key child = (uuid4 w (uuid_next w), None, head (active_run_stack w)) ∧
    match out.1 with
    | Ok res =>
        ∃ auc,
          roc_auc_score y_val
            (booster_predict (xgb_train params (X_train, y_train) (X_val, y_val)) X_val)
          = Ok auc ∧
          res = {| trial_status := STATUS_OK; loss := (-1 * auc)%Q |} ∧
          status child = FINISHED ∧ metrics child = <["auc" := auc]> ∅ ∧
          artifacts child = [{| artifact_path := "model"; pickled := None |}]
    | Raise e =>
        e = ValueError ∧ status child = FAILED ∧ metrics child = ∅ ∧
        artifacts child = []
    end.
Proof.
  unfold train_model, with_run, start_run, end_run, log_metric, log_artifact,
    log_to_run, active_run.
  py_unfold.
  destruct (active_run_stack w) as [|parent stack] eqn:Hstack; world_simpl;
    destruct (roc_auc_score _ _) as [auc|e] eqn:Hauc; world_simpl;
    rewrite ?update_run_head by done; world_simpl;
    rewrite ?update_run_head by done;
    cbv zeta; world_simpl;
    (do 3 (split; [done|])); (eexists; split; [done|]); (split; [done|]);
    cbn [fst]; first [ by exists auc | by apply roc_auc_score_raises in Hauc ].
Qed.

(** The driver loop inside an active run: one child run per evaluation. *)
Lemma fmin_loop_runs (max_evals : nat) (trials : list Trial) (w : World)
    (parent : string) (stack : list string) :
  active_run_stack w = parent :: stack →
  let out := fmin_loop (train_model X_train y_train X_val y_val) max_evals trials w in
  active_run_stack out.2 = parent :: stack ∧
  run_key <$> tracking out.2
  = child_keys (uuid4 w) (uuid_next w) max_evals parent ++ (run_key <$> tracking w).
Proof.
  revert trials w. induction max_evals as [|n IH]; intros trials w Hstack; [done|].
  cbn [fmin_loop]. unfold mbind, Py_bind, catch.
  set (point := tpe_suggest trials).
  destruct (train_model_run point w) as (Hs & Hnext & Huuid & child & Ht & Hkey & _).
  destruct (train_model _ _ _ _ point w) as [outcome w1]. cbn [fst snd] in *.
  lazy beta iota.
  destruct (IH (trials ++ [(point, outcome)]) w1) as [Hs' Ht']; [congruence|].
  cbv zeta in *. split; [done|].
  rewrite Ht', Ht, Hnext, Huuid, child_keys_S, fmap_cons, Hkey, Hstack.
  by rewrite <- app_assoc.
Qed.

(** The runs the sweep leaves, whether [fmin] returns or every trial failed. *)
Lemma sweep_run_keys (w : World) :
  active_run_stack w = [] →
  let out := sweep X_train y_train X_val y_val w in
  active_run_stack out.2 = [] ∧
  run_key <$> tracking out.2
  = child_keys (uuid4 w) (S (uuid_next w)) 96 (uuid4 w (uuid_next w))
    ++ (uuid4 w (uuid_next w), Some "xgboost_models", None)
    :: (run_key <$> tracking w).
Proof.
  intros Hidle. unfold sweep, with_run, start_run. rewrite Hidle.
  cbv zeta. set (w1 := set_active_run_stack _ _).
  unfold fmin, mbind, Py_bind.
  destruct (fmin_loop_runs 96 [] w1 (uuid4 w (uuid_next w)) []) as [Hs Ht]; [done|].
  destruct (fmin_loop _ _ _ w1) as [[trials|e] w2]; cbn [fst snd] in *.
  - destruct (best_trial trials) as [[point l]|]; py_unfold;
      unfold end_run; rewrite Hs; world_simpl;
      (split; [done|]); by rewrite update_run_key, Ht.
  - unfold end_run; rewrite Hs; world_simpl.
    split; [done|]. by rewrite update_run_key, Ht.
Qed.

End sweep_runs.

Lemma best_run_elem (w w' : World) (r : Run) :
  best_run w = (Ok r, w') → r ∈ tracking w ∧ w' = w.
Proof.
  unfold best_run, search_runs, iloc0. py_unfold.
  pose proof (sort_by_Permutation (metric_desc_order "auc") (tracking w)) as Hp.
  destruct (sort_by _ _) as [|first others]; [done|].
  intros [= <- <-]. split; [|done]. rewrite <- Hp. left.
Qed.

(** Closing a run changes neither what a run has logged nor where it hangs. *)
Lemma update_run_status_origin (rid : string) (s : RunStatus) (runs : list Run)
    (r' : Run) :
  r' ∈ update_run rid (set_status s) runs →
  ∃ r, r ∈ runs ∧ logged_loss r' = logged_loss r ∧
       parent_run_id r' = parent_run_id r.
Proof.
  induction runs as [|x runs IH]; cbn; [by intros ?%elem_of_nil|].
  destruct (decide _).
  - intros [->|Hin]%elem_of_cons.
    + exists x. split; [left|done].
    + exists r'. split; [by right|done].
  - intros [->|Hin]%elem_of_cons.
    + exists x. split; [left|done].
    + destruct (IH Hin) as (r & Hr & Heq). exists r. split; [by right|done].
Qed.

Section sweep_children.
Context `{XGBoost, Suggest}.
Context (X_train : XFrame) (y_train : Series) (X_val : XFrame) (y_val : Series).

(** The runs the driver loop adds are the runs of its trials. *)
Lemma fmin_loop_children (max_evals : nat) (trials : list Trial) (w : World)
    (parent : string) (stack : list string) :
  active_run_stack w = parent :: stack →
  ∃ children trials' w',
    fmin_loop (train_model X_train y_train X_val y_val) max_evals trials w
    = (Ok trials', w') ∧
    tracking w' = children ++ tracking w ∧
    active_run_stack w' = parent :: stack ∧
    trials ⊆ trials' ∧
    Forall (trial_run parent trials') children.
Proof.
  revert trials w. induction max_evals as [|n IH]; intros trials w Hstack.
  { by exists [], trials, w. }
  cbn [fmin_loop]. unfold mbind, Py_bind, catch.
  set (point := tpe_suggest trials).
  destruct (train_model_run X_train y_train X_val y_val point w)
    as (Hs & _ & _ & child & Ht & Hkey & Hout).
  destruct (train_model _ _ _ _ point w) as [outcome w1]. cbn [fst snd] in *.
  lazy beta iota.
  destruct (IH (trials ++ [(point, outcome)]) w1)
    as (children & trials' & w' & -> & Ht' & Hs' & Hsub & Hch); [congruence|].
  exists (children ++ [child]), trials', w'. split; [done|].
  split; [by rewrite Ht', Ht, <- app_assoc|]. split; [done|].
  split; [intros t Hin; apply Hsub, elem_of_app; by left|].
  apply Forall_app. split; [done|]. apply Forall_singleton. split.
  - injection Hkey as _ _ ->. by rewrite Hstack.
  - intros l Hl. destruct outcome as [res|e].
    + destruct Hout as (auc & _ & -> & _ & Hmetrics & _).
      unfold logged_loss in Hl. rewrite Hmetrics, lookup_insert_eq in Hl.
      injection Hl as <-.
      exists point, {| trial_status := STATUS_OK; loss := (-1 * auc)%Q |}.
      split; [|done].
      apply Hsub, elem_of_app. right. by apply list_elem_of_singleton.
    + destruct Hout as (_ & _ & Hmetrics & _).
      unfold logged_loss in Hl. by rewrite Hmetrics in Hl.
Qed.

(** After a sweep that returns, when every run that was in the store is
    beaten by a completed trial, the run [best_run] selects is the run of a
    completed trial of the sweep. *)
Lemma best_run_trial_run (w w' : World) (best : SearchPoint) (trials : list Trial)
    (r : Run) :
  sweep X_train y_train X_val y_val w = (Ok (best, trials), w') →
  best_run w' = (Ok r, w') →
  (∀ t loss_t, t ∈ tracking w → logged_loss t = Some loss_t →
     ∃ point res, (point, Ok res) ∈ trials ∧ (loss res < loss_t)%Q) →
  parent_run_id r = Some (uuid4 w (uuid_next w)) ∧
  ∃ point res, (point, Ok res) ∈ trials ∧ logged_loss r = Some (loss res).
Proof.
  intros Hsweep Hr Hold.
  destruct (best_run_after_sweep _ _ _ _ _ _ _ _ Hsweep) as (_ & r1 & Hr1 & Hmin).
  rewrite Hr in Hr1. injection Hr1 as <-.
  apply best_run_elem in Hr as [Hin _].
  revert Hsweep Hin. unfold sweep, with_run, start_run.
  destruct (active_run_stack w) as [|active stack] eqn:Hidle; [|done].
  cbv zeta. set (parent := uuid4 w (uuid_next w)).
  set (r0 := {| run_id := parent |}). set (w1 := set_active_run_stack _ _).
  unfold fmin, mbind, Py_bind.
  destruct (fmin_loop_children 96 [] w1 parent [])
    as (children & trials' & w2 & -> & Ht & Hs & _ & Hch); [done|].
  destruct (best_trial trials') as [[point0 loss0]|] eqn:Hbest; [|done].
  py_unfold. intros [= <- <- <-]. unfold end_run. rewrite Hs. world_simpl.
  intros (r' & Hin & Hloss & Hparent)%update_run_status_origin.
  rewrite Hloss, Hparent. rewrite Hloss in Hmin. clear Hloss Hparent.
  destruct (best_trial_completed _ _ _ Hbest) as (p & res & Hcompleted).
  destruct (Hmin p res Hcompleted) as (loss_r & Hloss_r & _).
  rewrite Ht in Hin. unfold w1 in Hin. world_simpl.
  apply elem_of_app in Hin as [Hin|[->|Hin]%elem_of_cons].
  - eapply Forall_forall in Hch as [Hparent Htrial]; [|done].
    split; [done|].
    destruct (Htrial loss_r Hloss_r) as (point & res' & Hin' & Heq).
    exists point, res'. split; [done|]. by rewrite Heq.
  - done.
  - destruct (Hold r' loss_r Hin Hloss_r) as (point & res' & Hin' & Hlt).
    destruct (Hmin point res' Hin') as (loss_r' & Hloss_r' & Hle).
    rewrite Hloss_r in Hloss_r'. injection Hloss_r' as <-. lra.
Qed.

End sweep_children.

(** C1, as stated, fails.  [best_run] searches every run of the
    experiment.  Here the store holds the run [base] with an [auc] of 1
    before the sweep; the sweep returns, and the run selected afterwards
    is [base]: it is not nested under the run of the sweep, and its loss,
    -1, is the loss of none of the trials, each of which is above it. *)
Lemma best_run_selects_other_run :
  ∃ best trials w' r loss_r,
    @sweep first_feature_booster depth_walk example_X example_y example_X example_y
      (@notebook_loaded prior_forest 1000 [example_run "base" None 0 (Some 1%Q)])
    = (Ok (best, trials), w') ∧
    best_run w' = (Ok r, w') ∧
    run_id r = "base" ∧ parent_run_id r = None ∧
    logged_loss r = Some loss_r ∧ (loss_r == -1)%Q ∧
    ∀ point res, (point, Ok res) ∈ trials → (loss_r < loss res)%Q.
Proof.
  pose (check := λ out : result (SearchPoint * list Trial) * World,
          match out with
          | (Ok (_, trials), w') =>
              match best_run w' with
              | (Ok r, _) =>
                  match logged_loss r with
                  | Some loss_r =>
                      bool_decide (run_id r = "base") &&
                      bool_decide (parent_run_id r = None) &&
                      Qeq_bool loss_r (-1) &&
                      forallb (λ t : Trial,
                                 match t.2 with
                                 | Ok res => negb (Qle_bool (loss res) loss_r)
                                 | Raise _ => true
                                 end) trials
                  | None => false
                  end
              | _ => false
              end
          | _ => false
          end).
  assert (check (@sweep first_feature_booster depth_walk example_X example_y
                   example_X example_y
                   (@notebook_loaded prior_forest 1000
                      [example_run "base" None 0 (Some 1%Q)])) = true) as Hcheck
    by (by vm_compute).
  destruct (sweep _ _ _ _ _) as [[[best trials]|e] w'] eqn:Hsweep; [|done].
  cbn [check] in Hcheck.
  destruct (best_run w') as [[r|e] w''] eqn:Hbest; [|done].
  destruct (logged_loss r) as [loss_r|] eqn:Hloss; [|done].
  apply andb_true_iff in Hcheck as [[[Hid Hparent]%andb_true_iff Heq]%andb_true_iff Htrials].
  apply bool_decide_eq_true in Hid, Hparent. apply Qeq_bool_iff in Heq.
  pose proof (best_run_elem _ _ _ Hbest) as [_ ->].
  exists best, trials, w', r, loss_r. do 6 (split; [done|]).
  intros point res Hin. rewrite forallb_forall in Htrials.
  apply list_elem_of_In, Htrials in Hin. cbn in Hin.
  by apply negb_true_iff, Qle_bool_false_inv in Hin.
Qed.

(** C1, amended: after a sweep that returns, [best_run] selects a run whose
    logged loss [-1*auc] is less than or equal to the loss of every
    completed trial; the search is over all the runs of the experiment.
    When every run that was in the store before the sweep and has logged
    an [auc] is beaten by a completed trial, the run selected is the run of
    a completed trial: it is nested under the run of the sweep and its
    logged loss is the loss that trial returned, the lowest of the sweep.
    In general [best_run] returns a run of the store whenever the store has
    one, and no run of the store has logged a lower loss. *)
Theorem best_run_argmin `{XGBoost, Suggest} (X_train : XFrame) (y_train : Series)
    (X_val : XFrame) (y_val : Series) (w : World) :
  (∀ best trials w',
     sweep X_train y_train X_val y_val w = (Ok (best, trials), w') →
     ∃ r, best_run w' = (Ok r, w') ∧
          (∀ point res, (point, Ok res) ∈ trials →
             ∃ loss_r, logged_loss r = Some loss_r ∧ (loss_r <= loss res)%Q) ∧
          ((∀ t loss_t, t ∈ tracking w → logged_loss t = Some loss_t →
              ∃ point res, (point, Ok res) ∈ trials ∧ (loss res < loss_t)%Q) →
           parent_run_id r = Some (uuid4 w (uuid_next w)) ∧
           ∃ point res, (point, Ok res) ∈ trials ∧
                        logged_loss r = Some (loss res))) ∧
  (tracking w ≠ [] → ∃ r, best_run w = (Ok r, w) ∧ r ∈ tracking w) ∧
  (∀ r, (best_run w).1 = Ok r →
     ∀ t loss_t, t ∈ tracking w → logged_loss t = Some loss_t →
       ∃ loss_r, logged_loss r = Some loss_r ∧ (loss_r <= loss_t)%Q).
Proof.
  split; [|split].
  - intros best trials w' Hsweep.
    destruct (best_run_after_sweep _ _ _ _ _ _ _ _ Hsweep) as (_ & r & Hr & Hmin).
    exists r. split; [done|]. split; [done|]. intros Hold.
    by apply (best_run_trial_run _ _ _ _ _ _ _ _ _ Hsweep Hr).
  - apply best_run_total.
  - apply best_run_lowest_loss.
Qed.

(** C1 amended, at work: the sweep on four rows, from a store with no
    runs; the run selected is nested under the run of the sweep. *)
Lemma best_run_argmin_witness :
  ∃ best trials w' r,
    @sweep first_feature_booster depth_walk example_X example_y example_X example_y
      (@notebook_loaded prior_forest 1000 [])
    = (Ok (best, trials), w') ∧
    best_run w' = (Ok r, w') ∧
    parent_run_id r = Some "run" ∧
    (∀ point res, (point, Ok res) ∈ trials →
       ∃ loss_r, logged_loss r = Some loss_r ∧ (loss_r <= loss res)%Q) ∧
    ∃ point res, (point, Ok res) ∈ trials ∧ logged_loss r = Some (loss res).
Proof.
  destruct (@sweep first_feature_booster depth_walk example_X example_y
              example_X example_y (@notebook_loaded prior_forest 1000 []))
    as [[[best trials]|e] w'] eqn:Hsweep; [|vm_compute in Hsweep; discriminate].
  destruct (@best_run_argmin first_feature_booster depth_walk
              example_X example_y example_X example_y
              (@notebook_loaded prior_forest 1000 [])) as (Hafter & _).
  destruct (Hafter best trials w' Hsweep) as (r & Hr & Hmin & Htrial).
  destruct Htrial as [Hparent Hloss].
  { intros t loss_t Hin. apply elem_of_nil in Hin. destruct Hin. }
  exists best, trials, w', r.
  split; [reflexivity|]. split; [exact Hr|]. split; [exact Hparent|].
  split; [exact Hmin | exact Hloss].
Defined.

(** ** Running the experiment *)

Lemma deref_world (l : nat) (w : World) : (deref l w).2 = w.
Proof. unfold deref. by destruct (heap w !! l). Qed.

Lemma train_store (self : WineQualityModel) (X : XFrame) (y : Series) (w : World) :
  tracking (train self X y w).2 = tracking w ∧
  active_run_stack (train self X y w).2 = active_run_stack w.
Proof.
  unfold train, assign, deref. py_unfold.
  destruct (heap w !! model self) as [est|]; [|done].
  by destruct (fit est X y).
Qed.

Lemma evaluate_world (self : WineQualityModel) (X : XFrame) (y : Series) (w : World) :
  (evaluate self X y w).2 = w.
Proof.
  unfold evaluate, deref. py_unfold.
  destruct (heap w !! model self) as [est|]; [|done].
  destruct (predict_proba est X) as [proba|]; [|done].
  destruct (column proba 1) as [predictions|]; [|done].
  by destruct (roc_auc_score y predictions).
Qed.

Lemma predict_world (self : SklearnModelWrapper) (X : XFrame) (w : World) :
  (predict self tt X w).2 = w.
Proof.
  unfold predict, deref. py_unfold.
  destruct (heap w !! wrapped_model self) as [est|]; [|done].
  destruct (predict_proba est X) as [proba|]; [|done].
  by destruct (column proba 1).
Qed.

(** Logging to the active run when it is the newest run of the store. *)
Lemma log_to_run_head (f : Run → Run) (w : World) (r : Run) (rest : list Run)
    (stack : list string) :
  tracking w = r :: rest → active_run_stack w = run_id r :: stack →
  log_to_run f w = (Ok tt, set_tracking (f r :: rest) w).
Proof.
  intros Ht Hs. unfold log_to_run, active_run. py_unfold.
  by rewrite Hs, Ht, update_run_head.
Qed.

(** Lines 127 to 132 of [run_experiment], when they complete inside an
    active run that is the newest of the store, leave the other runs alone
    and log the parameter, the metric and the model under that run. *)
Lemma train_and_log_head (wine_model : WineQualityModel) (X_train X_test : XFrame)
    (y_train y_test : Series) (w w' : World) (r : Run) (rest : list Run)
    (stack : list string) :
  tracking w = r :: rest → active_run_stack w = run_id r :: stack →
  train_and_log wine_model X_train X_test y_train y_test w = (Ok tt, w') →
  ∃ n auc est,
    tracking w'
    = add_artifact {| artifact_path := "random_forest_model"; pickled := Some est |}
        (add_metric "auc" auc (add_param "n_estimators" n r)) :: rest ∧
    active_run_stack w' = run_id r :: stack.
Proof.
  intros Ht Hs. unfold train_and_log, log_param, log_metric, log_model. py_unfold.
  destruct (train_store wine_model X_train y_train w) as [Ht1 Hs1].
  destruct (train _ _ _ w) as [[[]|e] w1]; [|done]. cbn [snd] in Ht1, Hs1.
  pose proof (evaluate_world wine_model X_test y_test w1) as Hw2.
  destruct (evaluate _ _ _ w1) as [[auc|e] w2]; [|done]. cbn [snd] in Hw2. subst w2.
  pose proof (deref_world (model wine_model) w1) as Hw3.
  destruct (deref _ w1) as [[est|e] w3]; [|done]. cbn [snd] in Hw3. subst w3.
  destruct (get_n_estimators est) as [n|e]; [|done].
  erewrite log_to_run_head; [|by rewrite Ht1, Ht|by rewrite Hs1, Hs].
  erewrite log_to_run_head; [|done|by world_simpl; rewrite Hs1, Hs].
  set (w4 := set_tracking _ (set_tracking _ w1)).
  pose proof (predict_world {| wrapped_model := model wine_model |} X_train w4) as Hw5.
  destruct (predict _ _ _ w4) as [[out|e] w5]; [|done]. cbn [snd] in Hw5. subst w5.
  pose proof (deref_world (model wine_model) w4) as Hw6.
  destruct (deref _ w4) as [[est'|e] w6]; [|done]. cbn [snd] in Hw6. subst w6.
  unfold log_artifact, w4.
  erewrite log_to_run_head; [|done|by world_simpl; rewrite Hs1, Hs].
  intros [= <-]. exists n, auc, est'. split; [done|].
  by world_simpl; rewrite Hs1, Hs.
Qed.

(** C8, as stated, fails: the store may hold a run of the same name with a
    later start time (logged from a machine whose clock is ahead, or with an
    explicit start time).  Here the store holds such a run, [old]; the call
    creates and logs under the run [run] and returns [old]. *)
Lemma run_experiment_returns_other_run :
  let w := @notebook_loaded prior_forest 1000
             [example_run "old" (Some "untuned_random_forest") 2000 None] in
  let out := run_experiment (MLflowExperiment_init None) (WineQualityModel_init None)
               example_X example_X example_y example_y w in
  out.1 = Ok "old" ∧
  uuid4 w (uuid_next w) = "run" ∧
  (λ r, (run_id r, dom (metrics r))) <$> tracking out.2
  = [("run", {[ "auc" ]}); ("old", ∅)].
Proof. by vm_compute. Qed.

(** C8, amended: started when no run is active, in a store where every run
    named [untuned_random_forest] has a start time earlier than the client's
    clock, a call whose training, evaluation and logging complete returns the
    id of the run it created; that run is the newest of the store, finished,
    and carries the parameter, the [auc] metric and the model. *)
Theorem run_experiment_returns_created (self : MLflowExperiment)
    (wine_model : WineQualityModel) (X_train X_test : XFrame)
    (y_train y_test : Series) (w : World) :
  active_run_stack w = [] →
  (∀ r, r ∈ tracking w → run_name r = Some "untuned_random_forest" →
        start_time r < clock w) →
  (train_and_log wine_model X_train X_test y_train y_test
     (start_run (Some "untuned_random_forest") false w).2).1 = Ok tt →
  ∃ (w' : World) (created : Run),
    run_experiment self wine_model X_train X_test y_train y_test w
    = (Ok (uuid4 w (uuid_next w)), w') ∧
    tracking w' = created :: tracking w ∧
    run_id created = uuid4 w (uuid_next w) ∧
    status created = FINISHED ∧
    is_Some (params created !! "n_estimators") ∧
    is_Some (metrics created !! "auc") ∧
    artifact_path <$> artifacts created = ["random_forest_model"].
Proof.
  intros Hidle Hearlier Hbody.
  unfold run_experiment, with_run. unfold start_run in *. rewrite Hidle in *.
  world_simpl.
  set (rid := uuid4 w (uuid_next w)) in *.
  set (r0 := {| run_id := rid |}) in *.
  set (w1 := set_active_run_stack _ _) in *.
  unfold mbind at 1, Py_bind at 1.
  destruct (train_and_log _ _ _ _ _ w1) as [[[]|e] w2] eqn:Hlog; [|done].
  destruct (train_and_log_head _ _ _ _ _ w1 w2 r0 (tracking w) [] eq_refl eq_refl Hlog)
    as (n & auc & est & Ht2 & Hs2).
  set (r2 := add_artifact _ _) in Ht2.
  unfold search_runs, iloc0. py_unfold. rewrite Ht2.
  rewrite filter_cons_True by done.
  change (sort_by ?b (r2 :: ?l)) with (insert_by b r2 (sort_by b l)).
  set (sorted := sort_by _ _).
  assert (head (insert_by default_order r2 sorted) = Some r2) as Hhead.
  { rewrite head_insert_by. destruct sorted as [|y s] eqn:Hsorted; [done|].
    assert (y ∈ filter (λ r, run_name r = Some "untuned_random_forest") (tracking w))
      as [Hname Hy]%list_elem_of_filter.
    { rewrite <- (sort_by_Permutation default_order). fold sorted.
      rewrite Hsorted. left. }
    specialize (Hearlier y Hy Hname). unfold default_order. cbn.
    by destruct (Z.ltb_spec (start_time y) (clock w)); [|lia]. }
  destruct (insert_by default_order r2 sorted) as [|first others]; [done|].
  cbn in Hhead. simplify_eq. unfold end_run. rewrite Hs2, Ht2. world_simpl.
  rewrite update_run_head by done.
  eexists _, _. split; [done|]. world_simpl. split; [done|].
  cbn. rewrite !lookup_insert_eq. eauto 10.
Qed.

(** C8 amended, at work: an earlier run of the same name is in the store. *)
Lemma run_experiment_returns_created_witness :
  (run_experiment (MLflowExperiment_init None) (WineQualityModel_init None)
     example_X example_X example_y example_y
     (@notebook_loaded prior_forest 1000
        [example_run "old" (Some "untuned_random_forest") 500 None])).1
  = Ok "run".
Proof.
  destruct (run_experiment_returns_created
              (MLflowExperiment_init None) (WineQualityModel_init None)
              example_X example_X example_y example_y
              (@notebook_loaded prior_forest 1000
                 [example_run "old" (Some "untuned_random_forest") 500 None]))
    as (w' & created & Hrun & _).
  - done.
  - intros r [->|[]%elem_of_nil]%elem_of_cons _. done.
  - by vm_compute.
  - exact (f_equal fst Hrun).
Defined.

(** * Further properties *)

(** ** Loading *)

(** X1: [load_data] stores the frame it returns; the frame has the red rows
    first, then the white rows, with [is_red] 1 and 0; every label is 0 or 1,
    and is 1 exactly for the rows whose raw quality is 7 or more; the
    features are those of the files. *)
Theorem load_data_frame (self : WineDataProcessor) (white_wine red_wine : list CsvRow) :
  data (load_data self white_wine red_wine).1
  = Some (load_data self white_wine red_wine).2 ∧
  length (load_data self white_wine red_wine).2
  = (length red_wine + length white_wine)%nat ∧
  map features (load_data self white_wine red_wine).2
  = map csv_features (red_wine ++ white_wine) ∧
  map is_red (load_data self white_wine red_wine).2
  = replicate (length red_wine) 1 ++ replicate (length white_wine) 0 ∧
  Forall2 (λ raw w, (quality w = 1 ↔ 7 ≤ csv_quality raw) ∧
                    (quality w = 0 ↔ csv_quality raw < 7))
    (red_wine ++ white_wine) (load_data self white_wine red_wine).2.
Proof.
  unfold load_data, binarize_quality. cbn [fst snd data].
  rewrite !map_app, !map_map. cbn [features is_red quality with_is_red].
  split; [done|]. split; [by rewrite length_app, !length_map|].
  split; [done|]. split.
  - f_equal; [induction red_wine | induction white_wine]; cbn; by f_equal.
  - apply Forall2_app; [induction red_wine as [|r l IH]
                       |induction white_wine as [|r l IH]];
      cbn; constructor; try done;
      unfold high_quality; destruct (Z.leb_spec 7 (csv_quality r));
      split; split; lia || done.
Qed.

Lemma replace_char_length (old new : ascii) (x : string) :
  String.length (replace_char old new x) = String.length x.
Proof. induction x as [|c x IH]; cbn; by f_equal. Qed.

Lemma replace_char_get (old new : ascii) (x : string) (n : nat) :
  String.get n (replace_char old new x)
  = (λ c, if Ascii.eqb c old then new else c) <$> String.get n x.
Proof.
  revert n. induction x as [|c x IH]; intros [|n]; by cbn.
Qed.

Lemma replace_char_absent (old new : ascii) (x : string) :
  (∀ n, String.get n x ≠ Some old) → replace_char old new x = x.
Proof.
  induction x as [|c x IH]; intros Hx; cbn; [done|].
  destruct (Ascii.eqb_spec c old) as [->|_].
  - by destruct (Hx 0%nat).
  - f_equal. apply IH. intros n. apply (Hx (S n)).
Qed.

(** X2: the renaming of a column keeps the length of the name, leaves no
    space in it, and changes nothing in a name without spaces (so
    [quality] keeps the name the rest of the code uses); renaming twice is
    renaming once. *)
Theorem clean_column_name_spaces (x : string) :
  String.length (clean_column_name x) = String.length x ∧
  (∀ n, String.get n (clean_column_name x) ≠ Some " "%char) ∧
  ((∀ n, String.get n x ≠ Some " "%char) → clean_column_name x = x) ∧
  clean_column_name (clean_column_name x) = clean_column_name x.
Proof.
  unfold clean_column_name.
  assert (∀ n, String.get n (replace_char " " "_" x) ≠ Some " "%char) as Hnone.
  { intros n. rewrite replace_char_get.
    destruct (String.get n x) as [c|]; cbn; [|done].
    destruct (Ascii.eqb_spec c " "%char); congruence. }
  split; [apply replace_char_length|]. split; [done|].
  split; [apply replace_char_absent|]. by apply replace_char_absent.
Qed.

(** ** Splitting: when it raises *)

(** X3: [split_data] cannot leave a part out.  On loaded data, with
    ratios that are not negative and not both zero, it raises [ValueError]
    when one of the two ratios is zero, and also when there are fewer than
    three rows; NumPy's global generator is as it was. *)
Theorem split_data_raises_ValueError `{BitGenerator} (rows : DataFrame)
    (test_size val_size : Q) (global : rk_state) :
  (0 <= test_size)%Q → (0 <= val_size)%Q → (0 < test_size + val_size)%Q →
  (test_size == 0)%Q ∨ (val_size == 0)%Q ∨ (length rows < 3)%nat →
  split_data {| data := Some rows |} test_size val_size global
  = (Raise ValueError, global).
Proof.
  intros Ht0 Hv0 _ Hcase.
  destruct (split_data_cases rows test_size val_size global)
    as [[Hret _]|[_ Hraise]]; [|done].
  destruct Hret as (Ht & Hv & Htv & Htrain & Hval).
  destruct Hcase as [Hzero|[Hzero|Hrows]]; [lra|lra|].
  destruct (second_share_positive _ _ _ Ht Hv Htv Hval) as [Htest _].
  unfold remainder in *. lia.
Qed.

(** X3 at work: [val_size = 0] on ten wines. *)
Lemma split_data_raises_ValueError_witness :
  @split_data lcg (wines 10) (1 # 4) 0 0 = (Raise ValueError, 0).
Proof.
  apply (@split_data_raises_ValueError lcg (wine_rows 10) (1 # 4) 0 0);
    [done|done|done|right; by left].
Defined.

(** X4: when [split_data] returns, none of the three parts is empty, each
    label part is as long as its feature part, and NumPy's global generator
    is as it was. *)
Theorem split_data_parts_nonempty `{BitGenerator} (self : WineDataProcessor)
    (test_size val_size : Q) (global global' : rk_state)
    (X_train X_val X_test : XFrame) (y_train y_val y_test : Series) :
  split_data self test_size val_size global
  = (Ok (X_train, X_val, X_test, y_train, y_val, y_test), global') →
  global' = global ∧
  (1 ≤ length X_train ∧ 1 ≤ length X_val ∧ 1 ≤ length X_test)%nat ∧
  length y_train = length X_train ∧
  length y_val = length X_val ∧
  length y_test = length X_test.
Proof.
  destruct self as [[rows|]]; [|done]. intros Hsplit.
  destruct (split_data_cases rows test_size val_size global)
    as [[Hret _]|[_ Hraise]]; [|congruence].
  destruct Hret as (Ht & Hv & Htv & Htrain & Hval).
  destruct (split_data_ok rows test_size val_size global Ht Hv Htv Htrain Hval)
    as (I_train & I_val & I_test & Hok & Hperm & Hn_train & Hn_test & Hn_val).
  rewrite Hsplit in Hok. simplify_eq.
  pose proof (Permutation_seq_in_range _ _ Hperm) as Hin.
  apply Forall_app in Hin as [Hin1 Hin]. apply Forall_app in Hin as [Hin2 Hin3].
  assert (length (drop_quality rows) = length rows) as HX by apply length_map.
  assert (length (quality_column rows) = length rows) as Hy by apply length_map.
  rewrite !length_iloc by (by rewrite ?HX, ?Hy).
  destruct (second_share_positive (length rows) test_size val_size) as [? ?];
    [done..|].
  repeat split; lia.
Qed.

(** X4 at work: sixteen wines, ratios 1/2, 3/8, 1/8. *)
Lemma split_data_parts_nonempty_witness :
  ∃ X_train X_val X_test y_train y_val y_test,
    @split_data lcg (wines 16) (1 # 8) (3 # 8) 0
    = (Ok (X_train, X_val, X_test, y_train, y_val, y_test), 0) ∧
    (1 ≤ length X_train ∧ 1 ≤ length X_val ∧ 1 ≤ length X_test)%nat.
Proof.
  destruct (@split_data lcg (wines 16) (1 # 8) (3 # 8) 0)
    as [[[[[[[X_train X_val] X_test] y_train] y_val] y_test]|e] g] eqn:E;
    [|vm_compute in E; discriminate].
  destruct (@split_data_parts_nonempty lcg _ _ _ _ _ _ _ _ _ _ _ E) as (-> & Hn & _).
  exists X_train, X_val, X_test, y_train, y_val, y_test.
  split; [reflexivity | exact Hn].
Defined.

Lemma Qceiling_half (m : Z) :
  m ≤ 2 * Qceiling ((1 # 2) * inject_Z m) ≤ m + 1.
Proof.
  pose proof (Qle_ceiling ((1 # 2) * inject_Z m)) as Hlo.
  pose proof (Qceiling_lt ((1 # 2) * inject_Z m)) as Hhi.
  set (c := Qceiling _) in *.
  unfold Z.sub in Hhi. rewrite inject_Z_plus, inject_Z_opp in Hhi.
  change (inject_Z 1) with 1%Q in Hhi.
  split.
  - rewrite Zle_Qle, inject_Z_mult. change (inject_Z 2) with 2%Q. lra.
  - apply Z.lt_succ_r. rewrite Zlt_Qlt. unfold Z.succ.
    rewrite !inject_Z_plus, inject_Z_mult.
    change (inject_Z 2) with 2%Q. change (inject_Z 1) with 1%Q. lra.
Qed.

(** X5: with equal ratios (as in the default call, 0.2 and 0.2) the
    validation and test parts of a returned split differ by at most one
    row, and the test part is the one that gets it. *)
Theorem split_data_equal_ratios `{BitGenerator} (self : WineDataProcessor)
    (test_size val_size : Q) (global global' : rk_state)
    (X_train X_val X_test : XFrame) (y_train y_val y_test : Series) :
  (test_size == val_size)%Q →
  split_data self test_size val_size global
  = (Ok (X_train, X_val, X_test, y_train, y_val, y_test), global') →
  (length X_val ≤ length X_test ≤ length X_val + 1)%nat.
Proof.
  intros Heq Hsplit.
  destruct (split_data_inv _ _ _ _ _ _ _ _ _ _ _ Hsplit)
    as (rows & I_train & I_val & I_test & _ & Hret & _ & _ & _ & Hn_test & Hn_val).
  destruct Hret as (Ht & Hv & _).
  unfold second_share in *.
  assert (val_size / (test_size + val_size) == 1 # 2)%Q as Hhalf
    by (rewrite Heq; field; lra).
  rewrite Hhalf in Hn_test, Hn_val.
  pose proof (Qceiling_half (remainder (length rows) test_size val_size)). lia.
Qed.

(** X5 at work: the default ratios on twenty-one wines. *)
Lemma split_data_equal_ratios_witness :
  ∃ X_train X_val X_test y_train y_val y_test,
    @split_data lcg (wines 21) (1 # 5) (1 # 5) 0
    = (Ok (X_train, X_val, X_test, y_train, y_val, y_test), 0) ∧
    (length X_val ≤ length X_test ≤ length X_val + 1)%nat.
Proof.
  destruct (@split_data lcg (wines 21) (1 # 5) (1 # 5) 0)
    as [[[[[[[X_train X_val] X_test] y_train] y_val] y_test]|e] g] eqn:E;
    [|vm_compute in E; discriminate].
  pose proof (@split_data_equal_ratios lcg _ _ _ _ _ _ _ _ _ _ _
                (Qeq_refl (1 # 5)) E) as Hn.
  assert (g = 0) as -> by (rewrite (@split_data_seeded lcg _ _ _ 0 0) in E; congruence).
  exists X_train, X_val, X_test, y_train, y_val, y_test.
  split; [reflexivity | exact Hn].
Defined.

(** X6: the labels of a split of freshly loaded data are binary: every
    label of the three label parts is 0 or 1. *)
Theorem split_data_labels_binary `{BitGenerator} (self : WineDataProcessor)
    (white_wine red_wine : list CsvRow) (test_size val_size : Q)
    (global global' : rk_state)
    (X_train X_val X_test : XFrame) (y_train y_val y_test : Series) :
  split_data (load_data self white_wine red_wine).1 test_size val_size global
  = (Ok (X_train, X_val, X_test, y_train, y_val, y_test), global') →
  Forall (λ label, label = 0 ∨ label = 1) (y_train ++ y_val ++ y_test).
Proof.
  intros Hsplit.
  destruct (split_data_inv _ _ _ _ _ _ _ _ _ _ _ Hsplit)
    as (rows & I_train & I_val & I_test & Hdata & _ & _ & _ & (-> & -> & ->) & _).
  rewrite <- !iloc_app. apply Forall_forall. intros label Hin.
  unfold iloc in Hin. apply list_elem_of_omap in Hin as (i & _ & Hi).
  apply list_elem_of_lookup_2 in Hi.
  cbn in Hdata. simplify_eq.
  unfold quality_column, binarize_quality in Hi. rewrite map_map in Hi.
  apply list_elem_of_In, in_map_iff in Hi as (w & <- & _). cbn.
  apply high_quality_binary.
Qed.

(** X6 at work: ten red and ten white rows, ratios 1/4 and 1/4. *)
Lemma split_data_labels_binary_witness :
  ∃ X_train X_val X_test y_train y_val y_test,
    @split_data lcg (load_data WineDataProcessor_init (csv_rows 10) (csv_rows 10)).1
      (1 # 4) (1 # 4) 0
    = (Ok (X_train, X_val, X_test, y_train, y_val, y_test), 0) ∧
    Forall (λ label, label = 0 ∨ label = 1) (y_train ++ y_val ++ y_test).
Proof.
  destruct (@split_data lcg
              (load_data WineDataProcessor_init (csv_rows 10) (csv_rows 10)).1
              (1 # 4) (1 # 4) 0)
    as [[[[[[[X_train X_val] X_test] y_train] y_val] y_test]|e] g] eqn:E;
    [|vm_compute in E; discriminate].
  pose proof (@split_data_labels_binary lcg _ _ _ _ _ _ _ _ _ _ _ _ _ E) as Hb.
  assert (g = 0) as -> by (rewrite (@split_data_seeded lcg _ _ _ 0 0) in E; congruence).
  exists X_train, X_val, X_test, y_train, y_val, y_test.
  split; [reflexivity | exact Hb].
Defined.

(** ** The estimator behind the model *)

(** X7: over an estimator fitted on a single class, [predict_proba] has one
    column only, and both the wrapper's [predict] and [evaluate] raise
    [IndexError] at [[:,1]], on every batch that has a row. *)
Theorem predict_single_class (self : WineQualityModel) (w : World)
    (est : Estimator) (f : Fitted) (X : XFrame) (y : Series) :
  heap w !! model self = Some est →
  fitted est = Some f →
  (length (classes_ f) ≤ 1)%nat →
  X ≠ [] →
  predict {| wrapped_model := model self |} tt X w = (Raise IndexError, w) ∧
  evaluate self X y w = (Raise IndexError, w).
Proof.
  intros Hest Hfit Hone _.
  unfold predict, evaluate, deref, predict_proba, column. py_unfold.
  cbn [wrapped_model]. rewrite Hest, Hfit. cbn [ncols].
  by destruct (Nat.ltb_spec 1 (length (classes_ f))); [lia|].
Qed.

(** X7 at work: an estimator that has seen the class 0 only, on four rows. *)
Lemma predict_single_class_witness :
  evaluate {| model := 1 |} example_X example_y
    (set_heap {[ 1%nat := single_class_estimator ]} idle_world)
  = (Raise IndexError, set_heap {[ 1%nat := single_class_estimator ]} idle_world).
Proof.
  refine (proj2 (predict_single_class {| model := 1 |}
                   (set_heap {[ 1%nat := single_class_estimator ]} idle_world)
                   single_class_estimator
                   {| classes_ := [0]; row_proba := λ _ _, 1%Q |}
                   example_X example_y _ _ _ _)); [done|done|cbn; lia|done].
Defined.

Lemma column_raises (a : ndarray) (j : nat) (e : PyError) :
  column a j = Raise e → e = IndexError.
Proof.
  unfold column. destruct (_ <? _)%nat; [|congruence].
  induction (cells a) as [|r rows IH]; cbn; [done|].
  destruct (r !! j); [|congruence].
  destruct (column_cells rows j); cbn; [done|]. intros [= <-]. by apply IH.
Qed.

(** X8: a [train] that returns has fitted the estimator object of the
    instance in place and has touched nothing else: every other object, the
    tracking store and the registry are as they were; from then on
    [evaluate] on the instance no longer fails with [NotFittedError]. *)
Theorem train_fits_in_place (self : WineQualityModel) (X_train : XFrame)
    (y_train : Series) (w w' : World) :
  train self X_train y_train w = (Ok tt, w') →
  (∃ est f, heap w' !! model self = Some est ∧ fitted est = Some f) ∧
  (∀ l, l ≠ model self → heap w' !! l = heap w !! l) ∧
  tracking w' = tracking w ∧ active_run_stack w' = active_run_stack w ∧
  registry w' = registry w ∧ journal w' = journal w ∧
  ∀ X_test y_test, (evaluate self X_test y_test w').1 ≠ Raise NotFittedError.
Proof.
  unfold train, assign, deref, fit. py_unfold.
  destruct (heap w !! model self) as [est|] eqn:Hest; [|done].
  unfold mbind, result_bind.
  destruct (learn est X_train y_train) as [f|e] eqn:Hlearn; [|done].
  intros [= <-]. world_simpl.
  split; [eexists _, f; by rewrite lookup_insert_eq|].
  split; [intros l Hl; by rewrite lookup_insert_ne|].
  do 4 (split; [done|]). intros X_test y_test.
  unfold evaluate, deref, predict_proba. py_unfold. world_simpl.
  rewrite lookup_insert_eq. cbn [fitted].
  destruct (column _ 1) as [predictions|e] eqn:Hcol; cbn.
  - destruct (roc_auc_score y_test predictions) as [|e] eqn:Hauc; [done|].
    unfold roc_auc_score in Hauc. repeat case_match; by simplify_eq.
  - by apply column_raises in Hcol as ->.
Qed.

(** X8 at work: a default-built instance trained on four rows. *)
Lemma train_fits_in_place_witness :
  ∃ w', train (WineQualityModel_init None) example_X example_y
          (@notebook_loaded prior_forest 0 []) = (Ok tt, w') ∧
        ∀ X_test y_test,
          (evaluate (WineQualityModel_init None) X_test y_test w').1
          ≠ Raise NotFittedError.
Proof.
  destruct (train (WineQualityModel_init None) example_X example_y
              (@notebook_loaded prior_forest 0 [])) as [[[]|e] w'] eqn:Htrain;
    [|vm_compute in Htrain; discriminate].
  exists w'. split; [reflexivity|].
  exact (proj2 (proj2 (proj2 (proj2 (proj2 (proj2
           (train_fits_in_place _ _ _ _ _ Htrain))))))).
Defined.

Lemma unique_constant (c : Z) (y : Series) :
  Forall (λ label, label = c) y → unique y = [] ∨ unique y = [c].
Proof.
  induction 1 as [|label y -> _ IH]; [by left|]. right.
  change (unique (c :: y)) with (unique_insert c (unique y)).
  destruct IH as [->| ->]; [done|]. cbn.
  by rewrite Z.ltb_irrefl, Z.eqb_refl.
Qed.

Lemma roc_auc_score_single_class (c : Z) (y_true : Series) (y_score : list Q) :
  Forall (λ label, label = c) y_true →
  roc_auc_score y_true y_score = Raise ValueError.
Proof.
  intros Hc. unfold roc_auc_score. destruct (negb _); [done|].
  by destruct (unique_constant c y_true Hc) as [->| ->].
Qed.

(** X9: on a fitted classifier with at least two classes, [evaluate] raises
    [ValueError] when the labels it is given are all of one class (or there
    are none): the ROC AUC is not defined. *)
Theorem evaluate_single_class_labels (self : WineQualityModel) (w : World)
    (est : Estimator) (f : Fitted) (X_test : XFrame) (y_test : Series) (c : Z) :
  heap w !! model self = Some est →
  fitted est = Some f →
  (2 ≤ length (classes_ f))%nat →
  Forall (λ label, label = c) y_test →
  evaluate self X_test y_test w = (Raise ValueError, w).
Proof.
  intros Hest Hfit Htwo Hc.
  unfold evaluate, deref, predict_proba, column. py_unfold.
  rewrite Hest, Hfit. cbn [ncols cells].
  destruct (Nat.ltb_spec 1 (length (classes_ f))); [|lia].
  rewrite column_cells_proba by lia.
  by rewrite (roc_auc_score_single_class c).
Qed.

(** X9 at work: four rows that all carry the label 1. *)
Lemma evaluate_single_class_labels_witness :
  evaluate {| model := 1 |} example_X [1; 1; 1; 1]
    (set_heap {[ 1%nat := example_estimator ]} idle_world)
  = (Raise ValueError, set_heap {[ 1%nat := example_estimator ]} idle_world).
Proof.
  refine (evaluate_single_class_labels {| model := 1 |}
            (set_heap {[ 1%nat := example_estimator ]} idle_world)
            example_estimator example_fitted example_X [1; 1; 1; 1] 1 _ _ _ _);
    [done|done|cbn; lia|].
  repeat constructor.
Defined.

(** ** The score *)

Lemma Qsum_app (l1 l2 : list Q) : (Qsum (l1 ++ l2) == Qsum l1 + Qsum l2)%Q.
Proof.
  induction l1 as [|q l1 IH].
  - change (Qsum l2 == 0 + Qsum l2)%Q. ring.
  - change (q + Qsum (l1 ++ l2) == q + Qsum l1 + Qsum l2)%Q. rewrite IH. ring.
Qed.

Lemma pair_score_range (pos neg : Q) : (0 <= pair_score pos neg <= 1)%Q.
Proof. unfold pair_score. destruct (pos ?= neg)%Q; split; by vm_compute. Qed.

Lemma ranked_row_range (p : Q) (neg : list Q) :
  (0 <= Qsum (n ← neg; [pair_score p n])
   <= inject_Z (Z.of_nat (length neg)))%Q.
Proof.
  induction neg as [|n neg IH]; [by vm_compute|].
  cbn [mbind list_bind app]. change (Qsum (pair_score p n :: ?l))
    with (pair_score p n + Qsum l)%Q.
  cbn [length]. rewrite Nat2Z.inj_succ. unfold Z.succ. rewrite inject_Z_plus.
  change (inject_Z 1) with 1%Q. pose proof (pair_score_range p n).
  change (list_bind ?f ?l) with (l ≫= f). lra.
Qed.

Lemma ranked_range (pos neg : list Q) :
  (0 <= Qsum (p ← pos; n ← neg; [pair_score p n])
   <= inject_Z (Z.of_nat (length pos * length neg)))%Q.
Proof.
  induction pos as [|p pos IH]; [by vm_compute|].
  cbn [mbind list_bind]. rewrite Qsum_app.
  cbn [length Nat.mul]. rewrite Nat2Z.inj_add, inject_Z_plus.
  pose proof (ranked_row_range p neg).
  change (list_bind ?f ?l) with (l ≫= f) in *. lra.
Qed.

Lemma roc_auc_score_range (y_true : Series) (y_score : list Q) (auc : Q) :
  roc_auc_score y_true y_score = Ok auc → (0 <= auc <= 1)%Q.
Proof.
  unfold roc_auc_score. destruct (negb _); [done|].
  destruct (unique y_true) as [|? [|pos_label [|]]]; try done.
  intros [= <-].
  match goal with
  | |- context [Qsum (?p ≫= λ _, ?n ≫= _)] =>
      pose proof (ranked_range p n) as [Hlo Hhi];
      set (ranked := Qsum _) in *;
      set (count := inject_Z (Z.of_nat (length p * length n))) in *
  end.
  destruct (Qlt_le_dec 0 count) as [Hpos|Hzero].
  - split; [apply Qle_shift_div_l | apply Qle_shift_div_r]; (done || lra).
  - assert (ranked == 0)%Q as Hr by lra.
    assert (ranked / count == 0)%Q as Hdiv by (unfold Qdiv; rewrite Hr; ring).
    rewrite Hdiv. lra.
Qed.

(** X10: whenever [evaluate] returns, the score is between 0 and 1, and the
    world is as it was: evaluating changes neither the estimator nor the
    stores. *)
Theorem evaluate_range (self : WineQualityModel) (X_test : XFrame) (y_test : Series)
    (w w' : World) (auc_score : Q) :
  evaluate self X_test y_test w = (Ok auc_score, w') →
  (0 <= auc_score <= 1)%Q ∧ w' = w.
Proof.
  unfold evaluate, deref. py_unfold.
  destruct (heap w !! model self) as [est|]; [|done].
  destruct (predict_proba est X_test) as [proba|]; [|done].
  destruct (column proba 1) as [predictions|]; [|done].
  destruct (roc_auc_score y_test predictions) as [auc|] eqn:Hauc; [|done].
  intros [= <- <-]. split; [|done]. by eapply roc_auc_score_range.
Qed.

(** X10 at work: the fitted example estimator on four rows with both labels. *)
Lemma evaluate_range_witness :
  ∃ auc_score,
    evaluate {| model := 1 |} example_X example_y
      (set_heap {[ 1%nat := example_estimator ]} idle_world)
    = (Ok auc_score, set_heap {[ 1%nat := example_estimator ]} idle_world) ∧
    (0 <= auc_score <= 1)%Q.
Proof.
  destruct (evaluate {| model := 1 |} example_X example_y
              (set_heap {[ 1%nat := example_estimator ]} idle_world))
    as [[auc|e] w'] eqn:E; [|vm_compute in E; discriminate].
  destruct (evaluate_range _ _ _ _ _ _ E) as [Hrange ->].
  exists auc. split; [reflexivity | exact Hrange].
Defined.

Lemma elem_of_unique_insert (x z : Z) (l : list Z) :
  x ∈ unique_insert z l ↔ x = z ∨ x ∈ l.
Proof.
  induction l as [|a l IH]; cbn.
  - rewrite list_elem_of_singleton, elem_of_nil. tauto.
  - destruct (Z.ltb_spec z a); [by rewrite elem_of_cons|].
    destruct (Z.eqb_spec z a) as [->|].
    + rewrite elem_of_cons. tauto.
    + rewrite !elem_of_cons, IH. tauto.
Qed.

Lemma elem_of_unique (x : Z) (l : list Z) : x ∈ unique l ↔ x ∈ l.
Proof.
  induction l as [|a l IH]; [done|].
  change (unique (a :: l)) with (unique_insert a (unique l)).
  by rewrite elem_of_unique_insert, IH, elem_of_cons.
Qed.

Lemma unique_insert_sorted (z : Z) (l : list Z) :
  StronglySorted Z.lt l → StronglySorted Z.lt (unique_insert z l).
Proof.
  induction 1 as [|a l Hsorted IH Hall]; cbn; [repeat constructor|].
  destruct (Z.ltb_spec z a).
  - constructor; [by constructor|]. constructor; [done|].
    eapply Forall_impl; [done|]. cbn. lia.
  - destruct (Z.eqb_spec z a); [by constructor|].
    constructor; [done|]. apply Forall_forall. intros x Hx.
    apply elem_of_unique_insert in Hx as [->|Hx]; [lia|].
    by apply (proj1 (Forall_forall _ _) Hall).
Qed.

Lemma unique_sorted (l : list Z) : StronglySorted Z.lt (unique l).
Proof.
  induction l as [|a l IH]; [constructor|].
  change (unique (a :: l)) with (unique_insert a (unique l)).
  by apply unique_insert_sorted.
Qed.

Lemma elem_of_zip_scored (label : Z) (y : Series) (s : list Q) :
  label ∈ y → length y = length s → ∃ q, (label, q) ∈ zip y s.
Proof.
  revert s. induction y as [|a y IH]; intros [|q s] Hin Hlen;
    [by inv Hin..| |]; [done|].
  apply elem_of_cons in Hin as [->|Hin].
  - exists q. left.
  - destruct (IH s Hin) as [q' Hq']; [by injection Hlen|]. exists q'. by right.
Qed.

Lemma ranked_row_ties (p : Q) (neg : list Q) :
  Forall (λ n, n == p)%Q neg →
  (Qsum (n ← neg; [pair_score p n]) == (1 # 2) * inject_Z (Z.of_nat (length neg)))%Q.
Proof.
  induction 1 as [|n neg Hn _ IH]; [by vm_compute|].
  cbn [mbind list_bind app]. change (Qsum (pair_score p n :: ?l))
    with (pair_score p n + Qsum l)%Q.
  change (list_bind ?f ?l) with (l ≫= f). rewrite IH.
  cbn [length]. rewrite Nat2Z.inj_succ. unfold Z.succ. rewrite inject_Z_plus.
  change (inject_Z 1) with 1%Q.
  assert (pair_score p n = 1 # 2) as ->; [|ring].
  unfold pair_score. symmetry in Hn. apply Qeq_alt in Hn. by rewrite Hn.
Qed.

Lemma ranked_ties (q : Q) (pos neg : list Q) :
  Forall (λ p, p == q)%Q pos → Forall (λ n, n == q)%Q neg →
  (Qsum (p ← pos; n ← neg; [pair_score p n])
   == (1 # 2) * inject_Z (Z.of_nat (length pos * length neg)))%Q.
Proof.
  intros Hpos Hneg. induction Hpos as [|p pos Hp _ IH]; [by vm_compute|].
  cbn [mbind list_bind]. rewrite Qsum_app.
  change (list_bind ?f ?l) with (l ≫= f) in *.
  rewrite IH, ranked_row_ties.
  - cbn [length Nat.mul]. rewrite Nat2Z.inj_add, inject_Z_plus. ring.
  - eapply Forall_impl; [done|]. cbn. intros n Hn. by rewrite Hn, Hp.
Qed.

Lemma roc_auc_score_ties (y_true : Series) (y_score : list Q) (q : Q) (c0 c1 : Z) :
  length y_true = length y_score →
  unique y_true = [c0; c1] →
  Forall (λ s, s == q)%Q y_score →
  ∃ auc, roc_auc_score y_true y_score = Ok auc ∧ (auc == 1 # 2)%Q.
Proof.
  intros Hlen Hu Hq. unfold roc_auc_score.
  rewrite Hlen, Nat.eqb_refl, Hu. cbn [negb]. eexists. split; [done|].
  set (pos := (filter (λ p, p.1 = c1) _).*2).
  set (neg := (filter (λ p, p.1 ≠ c1) _).*2).
  assert (∀ (P : Z * Q → Prop) `{∀ x, Decision (P x)},
            Forall (λ s, s == q)%Q (filter P (zip y_true y_score)).*2) as Hall.
  { intros P HP. apply Forall_forall. intros s Hs.
    apply list_elem_of_fmap in Hs as ([label s'] & -> & Hin).
    apply list_elem_of_filter in Hin as [_ Hin]. apply elem_of_zip_r in Hin.
    by apply (proj1 (Forall_forall _ _) Hq). }
  rewrite (ranked_ties q pos neg) by apply Hall.
  pose proof (unique_sorted y_true) as Hsorted. rewrite Hu in Hsorted.
  apply StronglySorted_inv in Hsorted as [_ Hlt]. apply Forall_inv in Hlt.
  assert (c0 ∈ y_true) as H0 by (apply elem_of_unique; rewrite Hu; left).
  assert (c1 ∈ y_true) as H1 by (apply elem_of_unique; rewrite Hu; right; left).
  destruct (elem_of_zip_scored _ _ _ H0 Hlen) as [s0 Hs0].
  destruct (elem_of_zip_scored _ _ _ H1 Hlen) as [s1 Hs1].
  assert (0 < length pos)%nat as Hpos.
  { assert (s1 ∈ pos) as Hin; [|destruct pos; [by inv Hin|cbn; lia]].
    apply list_elem_of_fmap. exists (c1, s1). split; [done|].
    by apply list_elem_of_filter. }
  assert (0 < length neg)%nat as Hneg.
  { assert (s0 ∈ neg) as Hin; [|destruct neg; [by inv Hin|cbn; lia]].
    apply list_elem_of_fmap. exists (c0, s0). split; [done|].
    apply list_elem_of_filter. split; [cbn; lia|done]. }
  assert (0 < inject_Z (Z.of_nat (length pos * length neg)))%Q as Hcount.
  { change 0%Q with (inject_Z 0). rewrite <- Zlt_Qlt. nia. }
  field. lra.
Qed.

(** X11: a model that gives every row the same probability of class 1
    scores exactly 1/2: on labels of two classes, as many as the rows,
    [evaluate] returns an AUC equal to 1/2. *)
Theorem evaluate_uninformative (self : WineQualityModel) (w : World)
    (est : Estimator) (f : Fitted) (X_test : XFrame) (y_test : Series)
    (q : Q) (c0 c1 : Z) :
  heap w !! model self = Some est →
  fitted est = Some f →
  (2 ≤ length (classes_ f))%nat →
  (∀ r, row_proba f r 1 == q)%Q →
  length X_test = length y_test →
  unique y_test = [c0; c1] →
  ∃ auc_score, evaluate self X_test y_test w = (Ok auc_score, w) ∧
               (auc_score == 1 # 2)%Q.
Proof.
  intros Hest Hfit Htwo Hflat Hlen Hu.
  unfold evaluate, deref, predict_proba, column. py_unfold.
  rewrite Hest, Hfit. cbn [ncols cells].
  destruct (Nat.ltb_spec 1 (length (classes_ f))); [|lia].
  rewrite column_cells_proba by lia.
  destruct (roc_auc_score_ties y_test (map (λ r, row_proba f r 1) X_test) q c0 c1)
    as (auc & -> & Hauc); [by rewrite length_map|done| |by exists auc].
  apply Forall_forall. intros s Hs.
  apply list_elem_of_In, in_map_iff in Hs as (r & <- & _). apply Hflat.
Qed.

(** X11 at work: the example estimator gives every row 2/3. *)
Lemma evaluate_uninformative_witness :
  ∃ auc_score,
    evaluate {| model := 1 |} example_X example_y
      (set_heap {[ 1%nat := example_estimator ]} idle_world)
    = (Ok auc_score, set_heap {[ 1%nat := example_estimator ]} idle_world) ∧
    (auc_score == 1 # 2)%Q.
Proof.
  refine (evaluate_uninformative {| model := 1 |}
            (set_heap {[ 1%nat := example_estimator ]} idle_world)
            example_estimator example_fitted example_X example_y (2 # 3) 0 1
            _ _ _ _ _ _); [done|done|cbn; lia|done|done|done].
Defined.

(** ** The run of an experiment on every exit path *)

Lemma keeps_run_bind {A B} (m : Py A) (k : A → Py B) :
  keeps_run m → (∀ a, keeps_run (k a)) → keeps_run (m ≫= k).
Proof.
  intros Hm Hk r rest stack w Hw. unfold mbind, Py_bind.
  specialize (Hm r rest stack w Hw).
  destruct (m w) as [[a|e] w1]; [|done]. by apply Hk.
Qed.

Lemma keeps_run_lift {A} (r : result A) : keeps_run (lift r).
Proof. by intros ? ? ? ?. Qed.

Lemma keeps_run_ret {A} (a : A) : keeps_run (mret a : Py A).
Proof. by intros ? ? ? ?. Qed.

Lemma keeps_run_deref (l : nat) : keeps_run (deref l).
Proof. intros r rest stack w Hw. by rewrite deref_world. Qed.

Lemma keeps_run_train (self : WineQualityModel) (X : XFrame) (y : Series) :
  keeps_run (train self X y).
Proof.
  intros r rest stack w [Hs Ht]. destruct (train_store self X y w) as [Ht' Hs'].
  unfold run_kept. by rewrite Ht', Hs'.
Qed.

Lemma keeps_run_evaluate (self : WineQualityModel) (X : XFrame) (y : Series) :
  keeps_run (evaluate self X y).
Proof. intros r rest stack w Hw. by rewrite evaluate_world. Qed.

Lemma keeps_run_predict (self : SklearnModelWrapper) (X : XFrame) :
  keeps_run (predict self tt X).
Proof. intros r rest stack w Hw. by rewrite predict_world. Qed.

Lemma keeps_run_search (name key : option string) : keeps_run (search_runs name key).
Proof. by intros ? ? ? ?. Qed.

Lemma keeps_run_log (f : Run → Run) :
  (∀ r, same_run r (f r)) → keeps_run (log_to_run f).
Proof.
  intros Hf r rest stack w (Hs & r' & Ht & Hr').
  assert (run_id r' = run_id r) as Hid by apply Hr'.
  rewrite (log_to_run_head f w r' rest stack) by (by rewrite ?Hid).
  split; [done|]. exists (f r'). split; [done|].
  destruct (Hf r') as (? & ? & ? & ? & ?), Hr' as (? & ? & ? & ? & ?).
  repeat split; congruence.
Qed.

Lemma keeps_run_train_and_log (wine_model : WineQualityModel)
    (X_train X_test : XFrame) (y_train y_test : Series) :
  keeps_run (train_and_log wine_model X_train X_test y_train y_test).
Proof.
  unfold train_and_log, log_param, log_metric, log_model, log_artifact.
  repeat first
    [ apply keeps_run_train | apply keeps_run_evaluate | apply keeps_run_deref
    | apply keeps_run_lift | apply keeps_run_predict
    | apply keeps_run_log; by intros ?
    | apply keeps_run_bind; [|intros ?] ].
Qed.

(** X12: started when no run is active, [run_experiment] leaves no run
    active, whether it returns or raises: the run it created is the newest
    of the store, has the name [untuned_random_forest], and is closed as
    [FINISHED] when the call returns and as [FAILED] when it raises. *)
Theorem run_experiment_closes_run (self : MLflowExperiment)
    (wine_model : WineQualityModel) (X_train X_test : XFrame)
    (y_train y_test : Series) (w : World) :
  active_run_stack w = [] →
  active_run_stack
    (run_experiment self wine_model X_train X_test y_train y_test w).2 = [] ∧
  ∃ created,
    tracking (run_experiment self wine_model X_train X_test y_train y_test w).2
    = created :: tracking w ∧
    run_id created = uuid4 w (uuid_next w) ∧
    run_name created = Some "untuned_random_forest" ∧
    start_time created = clock w ∧
    status created
    = match (run_experiment self wine_model X_train X_test y_train y_test w).1 with
      | Ok _ => FINISHED
      | Raise _ => FAILED
      end.
Proof.
  intros Hidle. unfold run_experiment, with_run, start_run. rewrite Hidle.
  set (rid := uuid4 w (uuid_next w)).
  set (r0 := {| run_id := rid |}). set (w1 := set_active_run_stack _ _).
  cbv beta iota.
  set (body := train_and_log _ _ _ _ _ ≫= _).
  assert (keeps_run body) as Hbody.
  { unfold body.
    repeat first
      [ apply keeps_run_train_and_log | apply keeps_run_search
      | apply keeps_run_lift | apply keeps_run_ret
      | apply keeps_run_bind; [|intros ?] ]. }
  destruct (Hbody r0 (tracking w) [] w1) as (Hs & r' & Ht & Hid & Hname & _ & Hstart & _).
  { split; [done|]. by exists r0. }
  unfold end_run.
  destruct (body w1) as [[first|e] w2]; cbn [fst snd] in *;
    rewrite Hs, Ht, update_run_head by done; world_simpl;
    (split; [done|]); eexists; (split; [done|]); by rewrite ?Hid, ?Hname, ?Hstart.
Qed.

(** X12 at work: the experiment on test labels of a single class raises,
    and the run it started is closed as failed. *)
Lemma run_experiment_closes_run_witness :
  let out := run_experiment (MLflowExperiment_init None) (WineQualityModel_init None)
               example_X example_X example_y [1; 1; 1; 1]
               (@notebook_loaded prior_forest 1000 []) in
  out.1 = Raise ValueError ∧ active_run_stack out.2 = [] ∧
  ∃ created, tracking out.2 = [created] ∧ status created = FAILED.
Proof.
  cbv zeta.
  destruct (run_experiment_closes_run
              (MLflowExperiment_init None) (WineQualityModel_init None)
              example_X example_X example_y [1; 1; 1; 1]
              (@notebook_loaded prior_forest 1000 []) eq_refl)
    as (Hstack & created & Ht & _ & _ & _ & Hstatus).
  assert ((run_experiment (MLflowExperiment_init None) (WineQualityModel_init None)
             example_X example_X example_y [1; 1; 1; 1]
             (@notebook_loaded prior_forest 1000 [])).1 = Raise ValueError) as Hout
    by by vm_compute.
  rewrite Hout in Hstatus. split; [exact Hout|]. split; [exact Hstack|].
  exists created. split; [exact Ht | exact Hstatus].
Defined.

Lemma update_run_status_ids (rid : string) (s : RunStatus) (runs : list Run) :
  (λ r, (run_id r, run_name r)) <$> update_run rid (set_status s) runs
  = (λ r, (run_id r, run_name r)) <$> runs.
Proof.
  induction runs as [|r runs IH]; [done|]. cbn.
  destruct (decide _); cbn; [done|]. by rewrite IH.
Qed.

Lemma end_run_ids (s : RunStatus) (w : World) :
  (λ r, (run_id r, run_name r)) <$> tracking (end_run s w).2
  = (λ r, (run_id r, run_name r)) <$> tracking w.
Proof.
  unfold end_run. destruct (active_run_stack w); [done|]. world_simpl.
  apply update_run_status_ids.
Qed.

(** The id [run_experiment] returns names a run of the store it leaves,
    and that run has the name searched for. *)
Lemma run_experiment_id_named (self : MLflowExperiment)
    (wine_model : WineQualityModel) (X_train X_test : XFrame)
    (y_train y_test : Series) (w w' : World) (rid : string) :
  run_experiment self wine_model X_train X_test y_train y_test w = (Ok rid, w') →
  (rid, Some "untuned_random_forest")
  ∈ (λ r, (run_id r, run_name r)) <$> tracking w'.
Proof.
  unfold run_experiment, with_run.
  destruct (start_run _ _ w) as [[?|?] w1]; [|done].
  unfold mbind at 1, Py_bind at 1.
  destruct (train_and_log _ _ _ _ _ w1) as [[[]|?] w2]; [|done].
  unfold search_runs, iloc0. py_unfold.
  destruct (sort_by _ _) as [|first others] eqn:Hsort; [done|].
  intros [= <- <-]. rewrite end_run_ids.
  assert (first ∈ filter (λ r, run_name r = Some "untuned_random_forest")
                    (tracking w2)) as [Hname Hin]%list_elem_of_filter.
  { rewrite <- (sort_by_Permutation default_order), Hsort. left. }
  apply list_elem_of_fmap. exists first. by rewrite Hname.
Qed.

(** X13: whatever the store held, the id [run_experiment] returns is the id
    of a run named [untuned_random_forest] that is in the store afterwards;
    so a registration of that id finds its run. *)
Theorem run_experiment_id_in_store (self : MLflowExperiment)
    (wine_model : WineQualityModel) (X_train X_test : XFrame)
    (y_train y_test : Series) (w w' : World) (rid : string) :
  run_experiment self wine_model X_train X_test y_train y_test w = (Ok rid, w') →
  has_run rid w' = true ∧
  ∃ r, r ∈ tracking w' ∧ run_id r = rid ∧
       run_name r = Some "untuned_random_forest".
Proof.
  intros Hrun. apply run_experiment_id_named in Hrun.
  apply list_elem_of_fmap in Hrun as (r & [= -> Hname] & Hin).
  split; [|by exists r].
  unfold has_run. apply bool_decide_eq_true. by apply list_elem_of_fmap_2.
Qed.

(** X13 at work: a store that already holds a later run of the same name. *)
Lemma run_experiment_id_in_store_witness :
  ∃ rid w',
    run_experiment (MLflowExperiment_init None) (WineQualityModel_init None)
      example_X example_X example_y example_y
      (@notebook_loaded prior_forest 1000
         [example_run "old" (Some "untuned_random_forest") 2000 None])
    = (Ok rid, w') ∧ has_run rid w' = true.
Proof.
  destruct (run_experiment (MLflowExperiment_init None) (WineQualityModel_init None)
              example_X example_X example_y example_y
              (@notebook_loaded prior_forest 1000
                 [example_run "old" (Some "untuned_random_forest") 2000 None]))
    as [[rid|e] w'] eqn:E; [|vm_compute in E; discriminate].
  exists rid, w'. split; [reflexivity|].
  exact (proj1 (run_experiment_id_in_store _ _ _ _ _ _ _ _ _ E)).
Defined.

(** ** Registering again *)

(** What a registration that goes through leaves behind. *)
Lemma register_model_effect (self : MLflowExperiment) (rid : string) (w : World) :
  has_run rid w = true →
  ∃ (mv : ModelVersion) (w' : World),
    register_model self rid w = (Ok mv, w') ∧
    mv = {| mv_name := model_name self;
            version := S (length (versions (default {| versions := []; aliases := ∅ |}
                                              (registry w !! model_name self))));
            source := runs_uri rid "random_forest_model";
            current_stage := "None" |} ∧
    registry w'
    = <[model_name self :=
          {| versions := versions (default {| versions := []; aliases := ∅ |}
                                     (registry w !! model_name self)) ++ [mv];
             aliases := <["production" := version mv]>
                          (aliases (default {| versions := []; aliases := ∅ |}
                                      (registry w !! model_name self))) |}]>
        (registry w) ∧
    tracking w' = tracking w ∧ heap w' = heap w ∧
    active_run_stack w' = active_run_stack w ∧
    clock w' = clock w + 15000.
Proof.
  intros Hrun.
  unfold register_model, mlflow_register_model, set_registered_model_alias, sleep.
  py_unfold. cbn [uri_run_id]. rewrite Hrun. cbn [negb]. world_simpl.
  set (rm := default _ _). set (mv := {| mv_name := _ |}).
  rewrite lookup_insert_eq. cbn [versions aliases].
  rewrite bool_decide_true
    by (rewrite fmap_app, elem_of_app; right; apply list_elem_of_singleton; done).
  world_simpl. eexists mv, _. split; [done|]. world_simpl.
  by rewrite insert_insert_eq.
Qed.

(** X14: two registrations in a row create consecutive versions of the
    registered model; after the second the alias [production] points at the
    second version only, the first stays registered, and the two calls
    have slept 30 seconds in all. *)
Theorem register_model_twice (self : MLflowExperiment) (rid1 rid2 : string) (w : World) :
  has_run rid1 w = true → has_run rid2 w = true →
  ∃ (mv1 mv2 : ModelVersion) (w1 w2 : World) (rm : RegisteredModel),
    register_model self rid1 w = (Ok mv1, w1) ∧
    register_model self rid2 w1 = (Ok mv2, w2) ∧
    version mv2 = S (version mv1) ∧
    registry w2 !! model_name self = Some rm ∧
    (∃ earlier, versions rm = earlier ++ [mv1; mv2]) ∧
    aliases rm !! "production" = Some (version mv2) ∧
    clock w2 = clock w + 30000.
Proof.
  intros Hrun1 Hrun2.
  destruct (register_model_effect self rid1 w Hrun1)
    as (mv1 & w1 & Hreg1 & Hmv1 & Hr1 & Ht1 & _ & _ & Hc1).
  destruct (register_model_effect self rid2 w1)
    as (mv2 & w2 & Hreg2 & Hmv2 & Hr2 & _ & _ & _ & Hc2).
  { unfold has_run in *. by rewrite Ht1. }
  rewrite Hr1, lookup_insert_eq in Hmv2, Hr2. cbn in Hmv2, Hr2.
  eexists mv1, mv2, w1, w2, _. split; [done|]. split; [done|].
  split; [|split; [by rewrite Hr2, lookup_insert_eq|split; [|split]]].
  - rewrite Hmv2, Hmv1. cbn. rewrite length_app. cbn. lia.
  - eexists. cbn. by rewrite <- app_assoc.
  - cbn. by rewrite lookup_insert_eq.
  - lia.
Qed.

(** X14 at work: the runs [a] and [b] registered one after the other. *)
Lemma register_model_twice_witness :
  ∃ (mv1 mv2 : ModelVersion) (w1 w2 : World),
    register_model (MLflowExperiment_init None) "a"
      (@notebook_loaded prior_forest 0
         [example_run "b" None 20 None; example_run "a" None 10 None])
    = (Ok mv1, w1) ∧
    register_model (MLflowExperiment_init None) "b" w1 = (Ok mv2, w2) ∧
    version mv2 = S (version mv1) ∧
    alias_of "wine_quality" "production" w2 = Some (version mv2).
Proof.
  destruct (register_model_twice (MLflowExperiment_init None) "a" "b"
              (@notebook_loaded prior_forest 0
                 [example_run "b" None 20 None; example_run "a" None 10 None]))
    as (mv1 & mv2 & w1 & w2 & rm & H1 & H2 & Hv & Hrm & _ & Halias & _);
    [by vm_compute..|].
  exists mv1, mv2, w1, w2. split; [exact H1|]. split; [exact H2|].
  split; [exact Hv|]. unfold alias_of.
  change (MLflowExperiment_init None).(model_name) with "wine_quality" in Hrm.
  rewrite Hrm. exact Halias.
Defined.

(** X15: whether it returns or raises, [register_model] leaves the
    tracking store, the estimator objects and every registered model of
    another name as they were. *)
Theorem register_model_frame (self : MLflowExperiment) (rid : string) (w : World) :
  tracking (register_model self rid w).2 = tracking w ∧
  heap (register_model self rid w).2 = heap w ∧
  ∀ name, name ≠ model_name self →
    registry (register_model self rid w).2 !! name = registry w !! name.
Proof.
  unfold register_model, mlflow_register_model, set_registered_model_alias, sleep.
  py_unfold. cbn [uri_run_id].
  destruct (has_run rid w); cbn [negb]; world_simpl.
  - rewrite lookup_insert_eq. cbn [versions aliases].
    destruct (bool_decide _); world_simpl;
      (do 2 (split; [done|])); intros name Hname;
      by rewrite ?lookup_insert_ne.
  - do 2 (split; [done|]). intros name Hname. by rewrite lookup_insert_ne.
Qed.

(** ** The grid of box plots *)

(** The loop from any position of a row: the columns it draws fill the
    grid row by row from there, and it raises at the first column past
    the last cell. *)
Lemma boxplot_loop_grid (columns : list string) (axis_i axis_j : nat) :
  (axis_j < 4)%nat →
  boxplot_loop columns axis_i axis_j
  = (imap (λ k col, (col, (((4 * axis_i + axis_j + k) / 4)%nat,
                           ((4 * axis_i + axis_j + k) mod 4)%nat)))
       (take (12 - (4 * axis_i + axis_j)) (plotted_columns columns)),
     if (length (plotted_columns columns) <=? 12 - (4 * axis_i + axis_j))%nat
     then Ok tt else Raise IndexError).
Proof.
  revert axis_i axis_j.
  induction columns as [|col rest IH]; intros i j Hj.
  { unfold plotted_columns. cbn. by rewrite take_nil. }
  cbn [boxplot_loop].
  destruct (decide (col = "is_red" ∨ col = "quality")) as [Hskip|Hdraw].
  { rewrite bool_decide_true by done.
    replace (plotted_columns (col :: rest)) with (plotted_columns rest)
      by (unfold plotted_columns; rewrite filter_cons; by rewrite decide_False by tauto).
    by apply IH. }
  rewrite bool_decide_false by done.
  replace (plotted_columns (col :: rest)) with (col :: plotted_columns rest)
    by (unfold plotted_columns; rewrite filter_cons; by rewrite decide_True).
  change dims.1 with 3%nat. change dims.2 with 4%nat.
  apply Nat.ltb_lt in Hj as Hjb. rewrite Hjb, andb_true_r.
  destruct (Nat.ltb_spec i 3) as [Hi|Hi].
  - replace (12 - (4 * i + j))%nat with (S (12 - (4 * i + j + 1)))%nat by lia.
    cbn [take imap length].
    assert (∀ drawn : list (string * (nat * nat)) * result unit,
              drawn = (imap (λ k c, (c, (((4 * i + j + S k) / 4)%nat,
                                          ((4 * i + j + S k) mod 4)%nat)))
                         (take (12 - (4 * i + j + 1)) (plotted_columns rest)),
                       if (length (plotted_columns rest) <=? 12 - (4 * i + j + 1))%nat
                       then Ok tt else Raise IndexError) →
              (let '(d, r) := drawn in ((col, (i, j)) :: d, r))
              = ((col, (((4 * i + j + 0) / 4)%nat, ((4 * i + j + 0) mod 4)%nat))
                   :: imap ((λ k c, (c, (((4 * i + j + k) / 4)%nat,
                                          ((4 * i + j + k) mod 4)%nat))) ∘ S)
                        (take (12 - (4 * i + j + 1)) (plotted_columns rest)),
                 if (length (plotted_columns rest) <=? 12 - (4 * i + j + 1))%nat
                 then Ok tt else Raise IndexError)) as Hstep.
    { intros drawn ->. rewrite Nat.add_0_r.
      assert ((4 * i + j) / 4 = i)%nat as ->
        by (symmetry; apply (Nat.div_unique _ 4 i j); lia).
      assert ((4 * i + j) mod 4 = j)%nat as ->
        by (symmetry; apply (Nat.mod_unique _ 4 i j); lia).
      done. }
    destruct (Nat.eqb_spec (S j) 4) as [Hrow|Hrow]; apply Hstep.
    + rewrite IH by lia. f_equal.
      * replace (12 - (4 * S i + 0))%nat with (12 - (4 * i + j + 1))%nat by lia.
        apply imap_ext. intros k c _.
        by replace (4 * S i + 0 + k)%nat with (4 * i + j + S k)%nat by lia.
      * by replace (12 - (4 * S i + 0))%nat with (12 - (4 * i + j + 1))%nat by lia.
    + rewrite IH by lia. f_equal.
      * replace (12 - (4 * i + S j))%nat with (12 - (4 * i + j + 1))%nat by lia.
        apply imap_ext. intros k c _.
        by replace (4 * i + S j + k)%nat with (4 * i + j + S k)%nat by lia.
      * by replace (12 - (4 * i + S j))%nat with (12 - (4 * i + j + 1))%nat by lia.
  - replace (12 - (4 * i + j))%nat with 0%nat by lia. done.
Qed.

(** X16: the box-plot loop draws the [k]-th column that is not an
    indicator on [axes[k // 4, k % 4]]; it runs through when there are at
    most twelve such columns, and otherwise draws the first twelve and
    raises [IndexError] at the thirteenth. *)
Theorem boxplots_grid (columns : list string) :
  boxplots columns
  = (imap (λ k col, (col, ((k / 4)%nat, (k mod 4)%nat)))
       (take 12 (plotted_columns columns)),
     if (length (plotted_columns columns) <=? 12)%nat then Ok tt
     else Raise IndexError).
Proof.
  unfold boxplots. by rewrite boxplot_loop_grid by lia.
Qed.

(** ** Feature importances *)

Lemma elem_of_insert_by {A} (before : A → A → bool) (x z : A) (l : list A) :
  z ∈ insert_by before x l → z = x ∨ z ∈ l.
Proof.
  intros Hz. rewrite (insert_by_Permutation before) in Hz.
  by apply elem_of_cons in Hz.
Qed.

Lemma StronglySorted_weaken {A} (R S : A → A → Prop) (l : list A) :
  (∀ a b, R a b → S a b) → StronglySorted R l → StronglySorted S l.
Proof.
  intros HRS. induction 1 as [|x l Hl IH Hx]; constructor; [done|].
  eapply Forall_impl; [exact Hx|]. intros b. apply HRS.
Qed.

(** Insertion sort sorts, for an order that is total and transitive. *)
Lemma sort_by_sorted {A} (before : A → A → bool) (l : list A) :
  (∀ a b, before a b = false → before b a = true) →
  (∀ a b c, before a b = true → before b c = true → before a c = true) →
  StronglySorted (λ a b, before a b = true) (sort_by before l).
Proof.
  intros Htotal Htrans.
  induction l as [|x l IH]; [constructor|].
  change (sort_by before (x :: l)) with (insert_by before x (sort_by before l)).
  induction IH as [|y s Hs IHs Hy]; cbn; [repeat constructor|].
  destruct (before x y) eqn:Hxy.
  - constructor; [by constructor|]. constructor; [done|].
    eapply Forall_impl; [exact Hy|]. intros z Hz. by eapply Htrans.
  - constructor; [done|]. apply Forall_forall. intros z Hz.
    apply elem_of_insert_by in Hz as [->|Hz]; [by apply Htotal|].
    by eapply Forall_forall in Hy.
Qed.

(** X17: [get_importance] raises [ValueError] when the importances and
    the columns differ in number; otherwise it returns every column with
    its own importance, once each, in descending order of importance. *)
Theorem get_importance_sorted (feature_importances_ : list Q) (columns : list string) :
  if decide (length feature_importances_ = length columns) then
    ∃ frame, get_importance feature_importances_ columns = Ok frame ∧
      frame ≡ₚ zip columns feature_importances_ ∧
      StronglySorted (λ a b : string * Q, (b.2 <= a.2)%Q) frame
  else get_importance feature_importances_ columns = Raise ValueError.
Proof.
  unfold get_importance. destruct (decide _) as [Hlen|Hlen].
  - apply Nat.eqb_eq in Hlen as ->. cbn [negb]. eexists. split; [done|].
    split; [apply sort_by_Permutation|].
    eapply StronglySorted_weaken; [|apply sort_by_sorted].
    + intros a b Hab. by apply Qle_bool_iff.
    + intros a b Hab. apply Qle_bool_false_inv in Hab.
      apply Qle_bool_true. by apply Qlt_le_weak.
    + intros a b c Hab%Qle_bool_iff Hbc%Qle_bool_iff.
      apply Qle_bool_true. by eapply Qle_trans.
  - apply Nat.eqb_neq in Hlen as ->. done.
Qed.

(** ** Registering the best run *)

(** X18: on an empty store [register_best_run] raises [IndexError] and
    changes nothing.  Whether it returns or raises, it moves no alias of
    any registered model, so [production] still points where
    [register_model] put it, and it leaves the tracking store alone.  When
    it returns, the version is the next one of [wine_quality], in stage
    [None], with the artifact path [model] of the run [best_run] selects as
    source, and 15 seconds have been slept. *)
Theorem register_best_run_keeps_aliases (w : World) :
  (tracking w = [] → register_best_run w = (Raise IndexError, w)) ∧
  (∀ name alias,
     alias_of name alias (register_best_run w).2 = alias_of name alias w) ∧
  tracking (register_best_run w).2 = tracking w ∧
  (∀ mv w', register_best_run w = (Ok mv, w') →
     ∃ best,
       best_run w = (Ok best, w) ∧
       mv = {| mv_name := "wine_quality";
               version := S (length (versions
                                       (default {| versions := []; aliases := ∅ |}
                                          (registry w !! "wine_quality"))));
               source := runs_uri (run_id best) "model";
               current_stage := "None" |} ∧
       clock w' = clock w + 15000).
Proof.
  assert (∀ r w1, alias_of "wine_quality" r
                    (set_registry
                       (<["wine_quality" :=
                            default {| versions := []; aliases := ∅ |}
                              (registry w1 !! "wine_quality")]> (registry w1)) w1)
                  = alias_of "wine_quality" r w1) as Hsame.
  { intros r w1. unfold alias_of. world_simpl. rewrite lookup_insert_eq. cbn.
    by destruct (registry w1 !! "wine_quality"). }
  destruct (tracking w) as [|r0 runs] eqn:Ht.
  - assert (register_best_run w = (Raise IndexError, w)) as Hraise.
    { unfold register_best_run, best_run, search_runs, iloc0. py_unfold.
      by rewrite Ht. }
    rewrite Hraise. cbn [snd]. by rewrite Ht.
  - destruct (best_run_total w) as (best & Hbest & Hin); [by rewrite Ht|].
    split; [done|].
    unfold register_best_run, mbind, Py_bind. rewrite Hbest.
    unfold mlflow_register_model, sleep. py_unfold. cbn [uri_run_id].
    destruct (has_run (run_id best) w); cbn [negb]; world_simpl.
    + split; [|split; [by rewrite Ht|]].
      * intros name alias. unfold alias_of. world_simpl.
        destruct (decide (name = "wine_quality")) as [->|Hname].
        -- rewrite lookup_insert_eq. cbn.
           by destruct (registry w !! "wine_quality").
        -- by rewrite lookup_insert_ne.
      * intros mv w' [= <- <-]. exists best. world_simpl. done.
    + split; [|split; [by rewrite Ht|done]].
      intros name alias. destruct (decide (name = "wine_quality")) as [->|Hname].
      * apply Hsame.
      * unfold alias_of. world_simpl. by rewrite lookup_insert_ne.
Qed.

(** X18 at work: after [register_model] on the run [a], the store's best
    run by [auc] is [b]; it becomes version 2 and [production] stays at
    version 1. *)
Lemma register_best_run_keeps_aliases_witness :
  let w1 := (register_model (MLflowExperiment_init None) "a"
               (@notebook_loaded prior_forest 0
                  [example_run "b" None 20 (Some (9 # 10)%Q);
                   example_run "a" None 10 (Some (1 # 2)%Q)])).2 in
  ∃ mv2 w2,
    register_best_run w1 = (Ok mv2, w2) ∧ version mv2 = 2%nat ∧
    alias_of "wine_quality" "production" w2 = Some 1%nat.
Proof.
  intros w1.
  destruct (register_best_run_keeps_aliases w1) as (_ & Halias & _ & Hok).
  destruct (register_best_run w1) as [[mv2|e] w2] eqn:Hreg;
    [|vm_compute in Hreg; discriminate].
  destruct (Hok mv2 w2 eq_refl) as (best & _ & Hmv & _).
  exists mv2, w2. split; [reflexivity|].
  split; [rewrite Hmv; by vm_compute|].
  specialize (Halias "wine_quality" "production"). cbn [snd] in Halias.
  rewrite Halias. by vm_compute.
Defined.

(** ** The main script *)

Lemma keeps_registry_bind {A B} (m : Py A) (k : A → Py B) :
  keeps_registry m → (∀ a, keeps_registry (k a)) → keeps_registry (m ≫= k).
Proof.
  intros Hm Hk w. unfold mbind, Py_bind. specialize (Hm w).
  destruct (m w) as [[a|e] w1]; [|done]. cbn in Hm. by rewrite Hk.
Qed.

Lemma keeps_registry_lift {A} (r : result A) : keeps_registry (lift r).
Proof. by intros ?. Qed.

Lemma keeps_registry_ret {A} (a : A) : keeps_registry (mret a : Py A).
Proof. by intros ?. Qed.

Lemma keeps_registry_deref (l : nat) : keeps_registry (deref l).
Proof. intros w. by rewrite deref_world. Qed.

Lemma keeps_registry_train (self : WineQualityModel) (X : XFrame) (y : Series) :
  keeps_registry (train self X y).
Proof.
  intros w. unfold train, assign, deref. py_unfold.
  destruct (heap w !! model self) as [est|]; [|done].
  by destruct (fit est X y).
Qed.

Lemma keeps_registry_evaluate (self : WineQualityModel) (X : XFrame) (y : Series) :
  keeps_registry (evaluate self X y).
Proof. intros w. by rewrite evaluate_world. Qed.

Lemma keeps_registry_predict (self : SklearnModelWrapper) (X : XFrame) :
  keeps_registry (predict self tt X).
Proof. intros w. by rewrite predict_world. Qed.

Lemma keeps_registry_search (name key : option string) :
  keeps_registry (search_runs name key).
Proof. by intros ?. Qed.

Lemma keeps_registry_log (f : Run → Run) : keeps_registry (log_to_run f).
Proof.
  intros w. unfold log_to_run, active_run, start_run. py_unfold.
  by destruct (active_run_stack w).
Qed.

Lemma keeps_registry_with_run {A} (name : option string) (nested : bool) (body : Py A) :
  keeps_registry body → keeps_registry (with_run name nested body).
Proof.
  intros Hbody w. unfold with_run.
  assert (registry (start_run name nested w).2 = registry w) as Hstart
    by (unfold start_run; by destruct (active_run_stack w), nested).
  destruct (start_run name nested w) as [[rid|e] w1]; [|done].
  specialize (Hbody w1). cbn [snd] in Hstart.
  destruct (body w1) as [[a|e] w2]; cbn [snd] in *;
    unfold end_run; destruct (active_run_stack w2); cbn; congruence.
Qed.

Lemma keeps_registry_run_experiment (self : MLflowExperiment)
    (wine_model : WineQualityModel) (X_train X_test : XFrame) (y_train y_test : Series) :
  keeps_registry (run_experiment self wine_model X_train X_test y_train y_test).
Proof.
  unfold run_experiment, train_and_log, log_param, log_metric, log_model, log_artifact.
  apply keeps_registry_with_run.
  repeat first
    [ apply keeps_registry_train | apply keeps_registry_evaluate
    | apply keeps_registry_deref | apply keeps_registry_lift
    | apply keeps_registry_predict | apply keeps_registry_log
    | apply keeps_registry_search | apply keeps_registry_ret
    | apply keeps_registry_bind; [|intros ?] ].
Qed.

(** X19: when the main script returns, the version it returns is the one
    the alias [production] of [wine_quality] points to, and its source is
    the model logged under a run of the store named
    [untuned_random_forest]; when the script raises, in the split or in
    the experiment, nothing has been registered. *)
Theorem main_script_registers `{BitGenerator} (white_wine red_wine : list CsvRow)
    (global : rk_state) (w : World) :
  match main_script white_wine red_wine global w with
  | (Ok mv, w') =>
      alias_of "wine_quality" "production" w' = Some (version mv) ∧
      ∃ r, r ∈ tracking w' ∧
           source mv = runs_uri (run_id r) "random_forest_model" ∧
           run_name r = Some "untuned_random_forest"
  | (Raise e, w') => registry w' = registry w
  end.
Proof.
  unfold main_script, load_data. cbv beta iota zeta.
  set (processor := {| data := _ |}).
  unfold mbind at 1, Py_bind at 1, lift.
  destruct (split_data processor (1 # 5) (1 # 5) global).1
    as [[[[[[X_train X_val] X_test] y_train] y_val] y_test]|e]; [|done].
  unfold mbind, Py_bind.
  pose proof (keeps_registry_run_experiment (MLflowExperiment_init None)
                (WineQualityModel_init None) X_train X_test y_train y_test w) as Hreg.
  destruct (run_experiment _ _ _ _ _ _ w) as [[rid|e] w1] eqn:Hrun; [|done].
  apply run_experiment_id_named in Hrun.
  apply list_elem_of_fmap in Hrun as (r & [= -> Hname] & Hin).
  destruct (register_model_effect (MLflowExperiment_init None) (run_id r) w1)
    as (mv & w' & -> & Hmv & Hregistry & Ht & _).
  { unfold has_run. apply bool_decide_eq_true. by apply list_elem_of_fmap_2. }
  split.
  - unfold alias_of. rewrite Hregistry.
    change (model_name (MLflowExperiment_init None)) with "wine_quality".
    rewrite lookup_insert_eq. cbn. by rewrite lookup_insert_eq.
  - exists r. rewrite Ht. split; [done|]. split; [|done]. by rewrite Hmv.
Qed.

(** X19 at work: ten white and ten red wines go through; three white and
    two red leave a single class among the test labels, and the script
    raises without registering anything. *)
Lemma main_script_registers_witness :
  (∃ mv w', @main_script lcg (csv_rows 10) (csv_rows 10) 1
              (@notebook_loaded prior_forest 1000 []) = (Ok mv, w') ∧
            alias_of "wine_quality" "production" w' = Some (version mv)) ∧
  (∃ e w', @main_script lcg (csv_rows 3) (csv_rows 2) 1
             (@notebook_loaded prior_forest 1000 []) = (Raise e, w') ∧
           registry w' = ∅).
Proof.
  split.
  - pose proof (@main_script_registers lcg (csv_rows 10) (csv_rows 10) 1
                  (@notebook_loaded prior_forest 1000 [])) as Hmain.
    destruct (@main_script lcg (csv_rows 10) (csv_rows 10) 1
                (@notebook_loaded prior_forest 1000 []))
      as [[mv|e] w'] eqn:E; [|vm_compute in E; discriminate].
    exists mv, w'. split; [reflexivity|]. exact (proj1 Hmain).
  - pose proof (@main_script_registers lcg (csv_rows 3) (csv_rows 2) 1
                  (@notebook_loaded prior_forest 1000 [])) as Hmain.
    destruct (@main_script lcg (csv_rows 3) (csv_rows 2) 1
                (@notebook_loaded prior_forest 1000 []))
      as [[mv|e] w'] eqn:E; [vm_compute in E; discriminate|].
    exists e, w'. split; [reflexivity|]. exact Hmain.
Defined.

(** ** The trials of the sweep *)

(** X20: a trial of the sweep starts one run, nested under the active run
    if there is one, and leaves the stack of active runs as it found it.
    It raises only [ValueError], when the validation labels do not have
    exactly two classes, and the run is then closed as [FAILED] with no
    [auc] logged; when it returns, the status is [ok], the loss is
    between -1 and 0, and the run is [FINISHED] with that loss logged. *)
Theorem train_model_outcome `{XGBoost} (X_train : XFrame) (y_train : Series)
    (X_val : XFrame) (y_val : Series) (params : SearchPoint) (w : World) :
  let out := train_model X_train y_train X_val y_val params w in
  active_run_stack out.2 = active_run_stack w ∧
  ∃ child,
    tracking out.2 = child :: tracking w ∧
    parent_run_id child = head (active_run_stack w) ∧
    match out.1 with
    | Ok res =>
        trial_status res = STATUS_OK ∧ (-1 <= loss res <= 0)%Q ∧
        status child = FINISHED ∧ logged_loss child = Some (loss res)
    | Raise e =>
        e = ValueError ∧ status child = FAILED ∧ logged_loss child = None
    end.
Proof.
  destruct (train_model_run X_train y_train X_val y_val params w)
    as (Hs & _ & _ & child & Ht & Hkey & Hout).
  cbv zeta. split; [done|]. exists child. split; [done|].
  split; [by injection Hkey|].
  destruct (train_model _ _ _ _ _ w).1 as [res|e].
  2: { destruct Hout as (-> & Hstatus & Hmetrics & _).
       unfold logged_loss. by rewrite Hmetrics. }
  destruct Hout as (auc & Hauc & -> & Hstatus & Hmetrics & _).
  apply roc_auc_score_range in Hauc. cbn [trial_status loss].
  split; [done|]. split; [lra|]. split; [done|].
  unfold logged_loss. by rewrite Hmetrics, lookup_insert_eq.
Qed.

(** X21: started while a run is active, the sweep raises a plain
    [Exception] and changes nothing.  Started when none is, it leaves no
    run active, whether [fmin] returns or every trial failed; the run
    [xgboost_models] it started is in the store, below the runs of the
    trials, each of which is nested under it, and above the runs that were
    there, which keep their ids, names and parents. *)
Theorem sweep_runs_nested `{XGBoost, Suggest} (X_train : XFrame) (y_train : Series)
    (X_val : XFrame) (y_val : Series) (w : World) :
  match active_run_stack w with
  | [] =>
      let out := sweep X_train y_train X_val y_val w in
      let parent := uuid4 w (uuid_next w) in
      active_run_stack out.2 = [] ∧
      ∃ trial_keys,
        run_key <$> tracking out.2
        = trial_keys ++ (parent, Some "xgboost_models", None)
                     :: (run_key <$> tracking w) ∧
        Forall (λ key, key.2 = Some parent) trial_keys
  | _ :: _ => sweep X_train y_train X_val y_val w = (Raise Exception, w)
  end.
Proof.
  destruct (active_run_stack w) as [|active stack] eqn:Hstack.
  - destruct (sweep_run_keys X_train y_train X_val y_val w Hstack) as [Hs Hkeys].
    cbv zeta in *. split; [done|]. eexists. split; [exact Hkeys|].
    unfold child_keys. apply Forall_reverse, Forall_fmap, Forall_forall.
    by intros k _.
  - unfold sweep, with_run, start_run. by rewrite Hstack.
Qed.

(** X21 at work: the sweep from a store with no runs. *)
Lemma sweep_runs_nested_witness :
  let out := @sweep first_feature_booster depth_walk example_X example_y
               example_X example_y (@notebook_loaded prior_forest 1000 []) in
  active_run_stack out.2 = [] ∧
  ("run", Some "xgboost_models", None) ∈ run_key <$> tracking out.2.
Proof.
  pose proof (@sweep_runs_nested first_feature_booster depth_walk example_X example_y
                example_X example_y (@notebook_loaded prior_forest 1000 [])) as Hsweep.
  cbn [notebook_loaded active_run_stack] in Hsweep.
  destruct Hsweep as (Hstack & trial_keys & Hkeys & _).
  split; [exact Hstack|]. rewrite Hkeys.
  apply elem_of_app. right. left.
Defined.

(** ** The split of the class and the split of the notebook cell *)

(** Equal fractions stand for the same numbers of rows. *)
Lemma validate_train_size_Qeq (n : nat) (tr tr' : Q) :
  (tr == tr')%Q →
  validate_shuffle_split n None (Some tr) = validate_shuffle_split n None (Some tr').
Proof.
  intros Heq. unfold validate_shuffle_split, size_out_of_range.
  rewrite (Qleb_comp tr tr' Heq 0%Q 0%Q (Qeq_refl 0%Q)),
    (Qleb_comp 1%Q 1%Q (Qeq_refl 1%Q) tr tr' Heq).
  assert (Qfloor (tr * inject_Z (Z.of_nat n)) = Qfloor (tr' * inject_Z (Z.of_nat n)))
    as -> by (apply Qfloor_comp; by rewrite Heq).
  done.
Qed.

Lemma validate_test_size_Qeq (n : nat) (te te' : Q) :
  (te == te')%Q →
  validate_shuffle_split n (Some te) None = validate_shuffle_split n (Some te') None.
Proof.
  intros Heq. unfold validate_shuffle_split, size_out_of_range.
  rewrite (Qleb_comp te te' Heq 0%Q 0%Q (Qeq_refl 0%Q)),
    (Qleb_comp 1%Q 1%Q (Qeq_refl 1%Q) te te' Heq).
  assert (Qceiling (te * inject_Z (Z.of_nat n)) = Qceiling (te' * inject_Z (Z.of_nat n)))
    as -> by (apply Qceiling_comp; by rewrite Heq).
  done.
Qed.

(** X22: with its default ratios, [split_data] returns what the split of
    the notebook cell returns on the same frame, the three parts or the
    exception, and leaves the same generator behind. *)
Theorem split_data_defaults_notebook `{BitGenerator} (self : WineDataProcessor)
    (frame : DataFrame) (global : rk_state) :
  data self = Some frame →
  split_data self (1 # 5) (1 # 5) global = notebook_split frame global.
Proof.
  intros Hdata. unfold split_data, notebook_split. rewrite Hdata.
  assert (∀ A B (X : list A) (y : list B) seed g,
            train_test_split X y None (Some (1 - (1 # 5) - (1 # 5))%Q) seed g
            = train_test_split X y None (Some (3 # 5)%Q) seed g) as ->.
  { intros. unfold train_test_split.
    by rewrite (validate_train_size_Qeq _ _ (3 # 5)) by reflexivity. }
  assert (∀ A B (X : list A) (y : list B) seed g,
            train_test_split X y (Some ((1 # 5) / ((1 # 5) + (1 # 5)))%Q) None seed g
            = train_test_split X y (Some (1 # 2)%Q) None seed g) as Hsecond.
  { intros. unfold train_test_split.
    by rewrite (validate_test_size_Qeq _ _ (1 # 2)) by reflexivity. }
  destruct (train_test_split _ _ None _ _ global)
    as [[[[[X_train X_rem] y_train] y_rem]|e] g1]; [|done].
  change (Qeq_bool ((1 # 5) + (1 # 5)) 0) with false. cbv iota.
  by rewrite Hsecond.
Qed.

(** X22 at work: ten wines, split 6, 2 and 2 both ways. *)
Lemma split_data_defaults_notebook_witness :
  @split_data lcg (wines 10) (1 # 5) (1 # 5) 0 = @notebook_split lcg (wine_rows 10) 0 ∧
  ∃ X_train X_val X_test y_train y_val y_test,
    (@notebook_split lcg (wine_rows 10) 0).1
    = Ok (X_train, X_val, X_test, y_train, y_val, y_test) ∧
    (length X_train, length X_val, length X_test) = (6, 2, 2)%nat.
Proof.
  split; [exact (@split_data_defaults_notebook lcg (wines 10) (wine_rows 10) 0 eq_refl)|].
  destruct (@notebook_split lcg (wine_rows 10) 0).1
    as [[[[[[X_train X_val] X_test] y_train] y_val] y_test]|e] eqn:E;
    [|vm_compute in E; discriminate].
  exists X_train, X_val, X_test, y_train, y_val, y_test. split; [reflexivity|].
  vm_compute in E. injection E as <- <- <- <- <- <-. reflexivity.
Defined.
